(** * SCHEDULEPOSTER: the application registry and the analytics counters

    A shallow embedding of [src/utils/application_manager.py], of the
    recording, persistence, reports and retention of
    [src/utils/analytics.py], of the reminder and report schedulers of
    [src/utils/notification_system.py] and of the reply handling of
    [src/bot/discord_bot.py].

    Conventions of the embedding.
    - A Python [dict] is an insertion-ordered association list ([PyDict]):
      assigning to an existing key keeps its position, a new key goes last.
    - A timezone-aware [datetime] and the text [isoformat()] gives for it are
      both represented by the instant they denote, in microseconds;
      [datetime.fromisoformat] is the inverse of [isoformat] on such texts.
    - Every reading of the clock ([datetime.now(...)]) is an argument of the
      operation that reads it, one argument per reading.
    - [self] is passed and returned explicitly; the file behind [data_file] is
      a component of the state, and with it whether the file can be opened
      for writing.
    - [json.dump] followed by [json.load] is the identity on JSON values. *)

From Stdlib Require Import Ascii ZArith List String Bool Lia.
From Stdlib Require Import DecimalString DecimalZ.
From Stdlib Require Import Permutation Sorted.
Import ListNotations.
Local Open Scope string_scope.
Local Open Scope Z_scope.
Set Warnings "-register-all".

(** ** Python dictionaries with string keys *)

Module PyDict.

Definition dict (V : Type) : Type := list (string * V).

Section Operations.
Context {V : Type}.

(** [d.get(k)] *)
Fixpoint get (k : string) (d : dict V) : option V :=
  match d with
  | [] => None
  | (k', v) :: d' => if String.eqb k' k then Some v else get k d'
  end.

(** [k in d] *)
Definition mem (k : string) (d : dict V) : bool :=
  match get k d with Some _ => true | None => false end.

(** [d[k] = v] *)
Fixpoint set (k : string) (v : V) (d : dict V) : dict V :=
  match d with
  | [] => [(k, v)]
  | (k', v') :: d' =>
      if String.eqb k' k then (k, v) :: d' else (k', v') :: set k v d'
  end.

(** [del d[k]], for a key of [d] *)
Definition del (k : string) (d : dict V) : dict V :=
  filter (fun kv => negb (String.eqb (fst kv) k)) d.

Definition keys (d : dict V) : list string := map fst d.

(** The representation invariant: a dictionary holds a key once. *)
Definition well_formed (d : dict V) : Prop := NoDup (keys d).
End Operations.

End PyDict.

Import PyDict.

(** ** Shared data: time, JSON documents, files *)

Definition timestamp : Type := Z.

(** [timedelta(days=d)], in microseconds *)
Definition timedelta_days (d : Z) : Z := d * 86400000000.

(** [str(n)] for a Python [int] *)
Definition str (n : Z) : string := NilZero.string_of_int (Z.to_int n).

(** [int(s)] for a decimal text *)
Definition int (s : string) : option Z :=
  option_map Z.of_int (NilZero.int_of_string s).

(** [c in s] for a character *)
Fixpoint occurs (c : Ascii.ascii) (s : string) : bool :=
  match s with
  | EmptyString => false
  | String c' s' => Ascii.eqb c' c || occurs c s'
  end.

(** [x in l] for a list of strings *)
Definition str_in (x : string) (l : list string) : bool :=
  existsb (String.eqb x) l.

(** JSON values. [JTime t] is the JSON string that holds the ISO-8601 text of
    the instant [t]. *)
Inductive json : Type :=
| JNull
| JNum (n : Z)
| JStr (s : string)
| JTime (t : timestamp)
| JArr (items : list json)
| JObj (fields : list (string * json)).

(** What [open(data_file)] finds.  Where the file can be written: no file,
    a JSON document, or text that [json.load] rejects.  Where
    [open(data_file, 'w')] raises: no file in a directory that is missing
    ([NoDirectory]), or a file that is read-only ([ReadOnly]), which holds a
    document or, for [None], text that [json.load] rejects. *)
Inductive file : Type :=
| FileAbsent
| FileJson (doc : json)
| FileCorrupt
| NoDirectory
| ReadOnly (doc : option json).

(** Whether [open(data_file, 'w')] succeeds. *)
Definition writable (f : file) : bool :=
  match f with
  | FileAbsent | FileJson _ | FileCorrupt => true
  | NoDirectory | ReadOnly _ => false
  end.

(** All-or-nothing traversal of a list of optional results. *)
Fixpoint sequence {A : Type} (l : list (option A)) : option (list A) :=
  match l with
  | [] => Some []
  | None :: _ => None
  | Some x :: l' =>
      match sequence l' with
      | Some xs => Some (x :: xs)
      | None => None
      end
  end.

(** ** [application_manager.py] *)

Module Registry.

Record Application : Type := mkApplication {
  user_id : Z;
  user_name : string;
  requested_dates : list string;
  additional_info : string;
  applied_at : timestamp
}.

Inductive Status : Type := active | closed.

Record Session : Type := mkSession {
  applications : list Application;
  deadline : timestamp;
  channel_id : Z;
  created_at : timestamp;
  status : Status;
  closed_at : option timestamp
}.

Record UserEntry : Type := mkUserEntry {
  message_id : string;
  applied_date : timestamp
}.

(** The fields of [self] the operations use. *)
Record ApplicationManager : Type := mkManager {
  self_applications : dict Session;
  self_user_applications : dict UserEntry;
  data_file : file
}.

(** The three validation failures; the code returns them as the messages
    "invalid application session", "the application period has closed" and
    "you have already applied". *)
Inductive Error : Type := UnknownSession | DeadlinePassed | DuplicateSubmission.

Record Summary : Type := mkSummary {
  total_applications : nat;
  unique_applicants : nat;
  date_counts : dict nat;
  popular_dates : list string;
  summary_deadline : timestamp;
  summary_applications : list Application
}.

Inductive SummaryResult : Type :=
| SummaryOk (summary : Summary)
| SummaryError (e : Error).

Inductive AddResult : Type :=
| AddSuccess (application : Application) (total : nat)
| AddFailure (e : Error).

Inductive CloseResult : Type :=
| CloseSuccess (summary : SummaryResult)
| CloseFailure (e : Error).

Record ActiveSession : Type := mkActiveSession {
  active_message_id : string;
  active_channel_id : Z;
  active_created_at : timestamp;
  active_deadline : timestamp;
  active_summary : SummaryResult
}.

(** *** The persisted document *)

Definition encode_application (a : Application) : json :=
  JObj [("user_id", JNum (user_id a));
        ("user_name", JStr (user_name a));
        ("requested_dates", JArr (map JStr (requested_dates a)));
        ("additional_info", JStr (additional_info a));
        ("applied_at", JTime (applied_at a))].

Definition encode_status (s : Status) : json :=
  match s with active => JStr "active" | closed => JStr "closed" end.

Definition encode_session (s : Session) : json :=
  JObj ([("applications", JArr (map encode_application (applications s)));
         ("deadline", JTime (deadline s));
         ("channel_id", JNum (channel_id s));
         ("created_at", JTime (created_at s));
         ("status", encode_status (status s))]
        ++ match closed_at s with
           | Some t => [("closed_at", JTime t)]
           | None => []
           end).

Definition encode_user_entry (u : UserEntry) : json :=
  JObj [("message_id", JStr (message_id u));
        ("applied_date", JTime (applied_date u))].

Definition encode_dict {V : Type} (enc : V -> json) (d : dict V) : json :=
  JObj (map (fun kv => (fst kv, enc (snd kv))) d).

(** The [data] of [_save_data]. *)
Definition encode_store (self : ApplicationManager) : json :=
  JObj [("applications", encode_dict encode_session (self_applications self));
        ("user_applications",
         encode_dict encode_user_entry (self_user_applications self))].

Definition decode_string (j : json) : option string :=
  match j with JStr s => Some s | _ => None end.

Definition decode_application (j : json) : option Application :=
  match j with
  | JObj f =>
      match get "user_id" f, get "user_name" f, get "requested_dates" f,
            get "additional_info" f, get "applied_at" f with
      | Some (JNum u), Some (JStr n), Some (JArr ds), Some (JStr i),
        Some (JTime t) =>
          match sequence (map decode_string ds) with
          | Some dates => Some (mkApplication u n dates i t)
          | None => None
          end
      | _, _, _, _, _ => None
      end
  | _ => None
  end.

Definition decode_status (j : json) : option Status :=
  match j with
  | JStr s =>
      if String.eqb s "active" then Some active
      else if String.eqb s "closed" then Some closed
      else None
  | _ => None
  end.

Definition decode_closed_at (f : list (string * json))
  : option (option timestamp) :=
  match get "closed_at" f with
  | None => Some None
  | Some (JTime t) => Some (Some t)
  | Some _ => None
  end.

Definition decode_session (j : json) : option Session :=
  match j with
  | JObj f =>
      match get "applications" f, get "deadline" f, get "channel_id" f,
            get "created_at" f, get "status" f, decode_closed_at f with
      | Some (JArr apps), Some (JTime d), Some (JNum c), Some (JTime t),
        Some st, Some cl =>
          match sequence (map decode_application apps), decode_status st with
          | Some l, Some s => Some (mkSession l d c t s cl)
          | _, _ => None
          end
      | _, _, _, _, _, _ => None
      end
  | _ => None
  end.

Definition decode_user_entry (j : json) : option UserEntry :=
  match j with
  | JObj f =>
      match get "message_id" f, get "applied_date" f with
      | Some (JStr m), Some (JTime t) => Some (mkUserEntry m t)
      | _, _ => None
      end
  | _ => None
  end.

Definition decode_dict {V : Type} (dec : json -> option V) (j : json)
  : option (dict V) :=
  match j with
  | JObj f =>
      sequence (map (fun kv => match dec (snd kv) with
                               | Some v => Some (fst kv, v)
                               | None => None
                               end) f)
  | _ => None
  end.

(** [data.get(k, {})] *)
Definition get_or_empty (k : string) (data : list (string * json)) : json :=
  match get k data with Some j => j | None => JObj [] end.

(** [_save_data]: rewrites the whole file; when the file cannot be opened
    for writing, the exception is logged and the file stays as it was. *)
Definition _save_data (self : ApplicationManager) : ApplicationManager :=
  mkManager (self_applications self) (self_user_applications self)
            (if writable (data_file self)
             then FileJson (encode_store self)
             else data_file self).

(** [_load_data].  A missing file is created from the current maps; a file
    that does not parse, or whose document is not an object ([data.get]
    raises), leaves both maps empty.  [None] stands for a document whose
    sessions or entries are not records of this model. *)
Definition _load_data (self : ApplicationManager) : option ApplicationManager :=
  match data_file self with
  | FileAbsent | NoDirectory => Some (_save_data self)
  | FileJson (JObj data) | ReadOnly (Some (JObj data)) =>
      match decode_dict decode_session (get_or_empty "applications" data),
            decode_dict decode_user_entry
                        (get_or_empty "user_applications" data) with
      | Some a, Some u => Some (mkManager a u (data_file self))
      | _, _ => None
      end
  | FileJson _ | FileCorrupt | ReadOnly _ =>
      Some (mkManager [] [] (data_file self))
  end.

(** [__init__] *)
Definition init (f : file) : option ApplicationManager :=
  _load_data (mkManager [] [] f).

(** *** Operations *)

(** [create_application_session]; [now] is read for the deadline and
    [now_created] for [created_at]. *)
Definition create_application_session (self : ApplicationManager)
    (msg : string) (channel : Z) (deadline_days : Z)
    (now now_created : timestamp) : ApplicationManager :=
  let deadline := now + timedelta_days deadline_days in
  _save_data
    (mkManager
       (set msg (mkSession [] deadline channel now_created active None)
            (self_applications self))
       (self_user_applications self) (data_file self)).

(** The duplicate test of [add_application]. *)
Definition already_applied (self : ApplicationManager) (msg : string)
    (user : Z) : bool :=
  match get (str user) (self_user_applications self) with
  | Some existing => String.eqb (message_id existing) msg
  | None => false
  end.

(** [add_application]; [now] is read for the deadline test and
    [now_applied] for [applied_at]. *)
Definition add_application (self : ApplicationManager) (msg : string)
    (user : Z) (name : string) (dates : list string) (info : string)
    (now now_applied : timestamp) : AddResult * ApplicationManager :=
  match get msg (self_applications self) with
  | None => (AddFailure UnknownSession, self)
  | Some session =>
      if now >? deadline session then (AddFailure DeadlinePassed, self)
      else if already_applied self msg user
      then (AddFailure DuplicateSubmission, self)
      else
        let application := mkApplication user name dates info now_applied in
        let session' :=
          mkSession (applications session ++ [application])
                    (deadline session) (channel_id session)
                    (created_at session) (status session)
                    (closed_at session) in
        let self' :=
          _save_data
            (mkManager
               (set msg session' (self_applications self))
               (set (str user) (mkUserEntry msg now_applied)
                    (self_user_applications self))
               (data_file self)) in
        (AddSuccess application (List.length (applications session')), self')
  end.

(** The loop that fills [date_counts]. *)
Definition count_date (counts : dict nat) (date : string) : dict nat :=
  set date (match get date counts with Some c => c | None => O end + 1)%nat
      counts.

Definition count_dates (apps : list Application) : dict nat :=
  fold_left (fun counts app => fold_left count_date (requested_dates app) counts)
            apps [].

(** [len(set(app['user_id'] for app in applications))] *)
Definition count_unique (apps : list Application) : nat :=
  List.length (nodup Z.eq_dec (map user_id apps)).

Definition summarize (session : Session) : Summary :=
  let apps := applications session in
  let counts := count_dates apps in
  mkSummary (List.length apps) (count_unique apps) counts
            (map fst (filter (fun dc => (1 <? snd dc)%nat) counts))
            (deadline session) apps.

(** [get_applications_summary] *)
Definition get_applications_summary (self : ApplicationManager)
    (msg : string) : SummaryResult :=
  match get msg (self_applications self) with
  | None => SummaryError UnknownSession
  | Some session => SummaryOk (summarize session)
  end.

(** [close_application_session] *)
Definition close_application_session (self : ApplicationManager)
    (msg : string) (now : timestamp) : CloseResult * ApplicationManager :=
  match get msg (self_applications self) with
  | None => (CloseFailure UnknownSession, self)
  | Some session =>
      let session' :=
        mkSession (applications session) (deadline session)
                  (channel_id session) (created_at session)
                  closed (Some now) in
      let self' :=
        _save_data
          (mkManager (set msg session' (self_applications self))
                     (self_user_applications self) (data_file self)) in
      (CloseSuccess (get_applications_summary self' msg), self')
  end.

(** [get_user_application] *)
Definition get_user_application (self : ApplicationManager) (user : Z)
  : option (Application * Session) :=
  match get (str user) (self_user_applications self) with
  | None => None
  | Some user_app =>
      match get (message_id user_app) (self_applications self) with
      | None => None
      | Some session =>
          match find (fun app => user_id app =? user) (applications session) with
          | Some app => Some (app, session)
          | None => None
          end
      end
  end.

(** The [to_remove] of [cleanup_old_sessions]: the sessions created before
    [cutoff]. *)
Definition sessions_to_remove (self : ApplicationManager) (cutoff : timestamp)
  : list string :=
  map fst (filter (fun ms => created_at (snd ms) <? cutoff)
                  (self_applications self)).

(** Its [to_remove_users]: the users whose entry points at such a session. *)
Definition users_to_remove (self : ApplicationManager)
    (to_remove : list string) : list string :=
  map fst (filter (fun uu => str_in (message_id (snd uu)) to_remove)
                  (self_user_applications self)).

(** [cleanup_old_sessions].  The function has no [return] statement: the
    first component is what the caller receives, [None] for Python's
    [None]. *)
Definition cleanup_old_sessions (self : ApplicationManager) (days : Z)
    (now : timestamp) : option nat * ApplicationManager :=
  let cutoff_date := now - timedelta_days days in
  let to_remove := sessions_to_remove self cutoff_date in
  let apps := fold_left (fun d m => del m d) to_remove (self_applications self) in
  let to_remove_users := users_to_remove self to_remove in
  let users :=
    fold_left (fun d u => del u d) to_remove_users
              (self_user_applications self) in
  let self' := mkManager apps users (data_file self) in
  (None, match to_remove with [] => self' | _ :: _ => _save_data self' end).

(** [get_active_sessions] *)
Definition get_active_sessions (self : ApplicationManager)
  : list ActiveSession :=
  flat_map
    (fun ms =>
       match status (snd ms) with
       | active =>
           [mkActiveSession (fst ms) (channel_id (snd ms))
              (created_at (snd ms)) (deadline (snd ms))
              (get_applications_summary self (fst ms))]
       | closed => []
       end)
    (self_applications self).

(** *** The summary in the specification's words *)

(** Every requested date string of every application, in submission order. *)
Definition all_requested_dates (apps : list Application) : list string :=
  flat_map requested_dates apps.

(** The multiset count of [date] in [l]. *)
Definition occurrences (date : string) (l : list string) : nat :=
  count_occ string_dec l date.

(** The dictionary that gives each key of [ks], in their order, the count
    [f] of it. *)
Definition table (f : string -> nat) (ks : list string) : dict nat :=
  map (fun d => (d, f d)) ks.

(** The distinct strings of [l], each at the place of its first occurrence. *)
Fixpoint first_seen (l : list string) : list string :=
  match l with
  | [] => []
  | x :: l' => x :: filter (fun y => negb (String.eqb y x)) (first_seen l')
  end.

(** The representation invariant of the two maps. *)
Definition registry_well_formed (self : ApplicationManager) : Prop :=
  well_formed (self_applications self) /\
  well_formed (self_user_applications self).

(** Every entry of the user index points at a session of the registry that
    holds an application of that user. *)
Definition index_sound (self : ApplicationManager) : Prop :=
  forall k entry,
    In (k, entry) (self_user_applications self) ->
    exists session application,
      get (message_id entry) (self_applications self) = Some session /\
      In application (applications session) /\
      str (user_id application) = k.

(** The entry of [get_active_sessions] for the session [session] under the
    identifier [msg]. *)
Definition active_entry (msg : string) (session : Session) : ActiveSession :=
  mkActiveSession msg (channel_id session) (created_at session)
                  (deadline session) (SummaryOk (summarize session)).

Definition is_active (session : Session) : bool :=
  match status session with active => true | closed => false end.

(** The entries of the active sessions of [d], in the order of [d]. *)
Definition active_listing (d : dict Session) : list ActiveSession :=
  flat_map (fun ms => if is_active (snd ms)
                      then [active_entry (fst ms) (snd ms)] else []) d.

(** The entry [a] is not the one of the session [msg]. *)
Definition other_session (msg : string) (a : ActiveSession) : bool :=
  negb (String.eqb (active_message_id a) msg).

(** The sum of the counts of a dictionary. *)
Definition sum_counts (counts : dict nat) : nat :=
  fold_right Nat.add O (map snd counts).

(** *** Registries used as examples *)

(** The registry of a first start: no file, which [__init__] creates. *)
Definition fresh_registry : ApplicationManager :=
  _save_data (mkManager [] [] FileAbsent).

(** Session "m1" with a 5-day deadline, then the applications of users A (1)
    and B (2), one and two hours later. *)
Definition scenario_m1 : ApplicationManager :=
  let s1 := create_application_session fresh_registry "m1" 100 5 0 0 in
  let s2 := snd (add_application s1 "m1" 1 "A" ["2024-07-10"] ""
                                 3600000000 3600000000) in
  snd (add_application s2 "m1" 2 "B" ["2024-07-10"; "2024-07-12"] ""
                       7200000000 7200000000).

(** Session "m1" closed one hour after its creation, four days before its
    deadline. *)
Definition closed_m1 : ApplicationManager :=
  snd (close_application_session
         (create_application_session fresh_registry "m1" 100 5 0 0)
         "m1" 3600000000).

(** Sessions "m1" and "m2", both open for 5 days; user 1 applies to "m1" and
    then to "m2". *)
Definition two_open_sessions : ApplicationManager :=
  let s1 := create_application_session fresh_registry "m1" 100 5 0 0 in
  let s2 := create_application_session s1 "m2" 100 5 0 0 in
  let s3 := snd (add_application s2 "m1" 1 "A" ["2024-07-10"] ""
                                 3600000000 3600000000) in
  snd (add_application s3 "m2" 1 "A" ["2024-08-10"] "" 7200000000 7200000000).

(** Session "old", created on day 0 with an application of user 1, and
    session "new", created on day 30 with an application of user 2. *)
Definition old_and_new : ApplicationManager :=
  let s1 := create_application_session fresh_registry "old" 100 5 0 0 in
  let s2 := snd (add_application s1 "old" 1 "A" ["2024-07-10"] ""
                                 3600000000 3600000000) in
  let s3 := create_application_session s2 "new" 100 5 (timedelta_days 30)
                                       (timedelta_days 30) in
  snd (add_application s3 "new" 2 "B" ["2024-08-10"] ""
                       (timedelta_days 30 + 3600000000)
                       (timedelta_days 30 + 3600000000)).

End Registry.

(** ** [analytics.py] *)

Module Analytics.

(** The exceptions the recording path can raise. *)
Inductive Exn : Type := AttributeError | KeyError | TypeError.

(** A statement sequence that mutates a state in place: it either completes
    ([None]) or raises, and what it mutated before raising stays mutated. *)
Definition Step (S : Type) : Type := S -> option Exn * S.

Definition done {S : Type} : Step S := fun s => (None, s).

Definition assign {S : Type} (f : S -> S) : Step S := fun s => (None, f s).

Definition and_then {S : Type} (f g : Step S) : Step S :=
  fun s => match f s with
           | (None, s') => g s'
           | (Some e, s') => (Some e, s')
           end.

Notation "f ;; g" := (and_then f g) (at level 61, right associativity).

(** [for x in l: body] *)
Fixpoint for_each {S A : Type} (body : A -> Step S) (l : list A) : Step S :=
  match l with
  | [] => done
  | x :: l' => body x ;; for_each body l'
  end.

(** Runs a step on a component [get_c s] and stores the component back. *)
Definition within {S C : Type} (get_c : S -> C) (set_c : C -> S -> S)
    (f : Step C) : Step S :=
  fun s => let (e, c) := f (get_c s) in (e, set_c c s).

(** [f] keeps the property [P] of the state, whether it completes or
    raises. *)
Definition keeps {S : Type} (P : S -> Prop) (f : Step S) : Prop :=
  forall s, P s -> P (snd (f s)).

(** A value used as a set: the [set()] the code creates, or the list that
    [json.load] yields for a JSON array. *)
Inductive Collection (A : Type) : Type :=
| PySet (elems : list A)
| PyList (elems : list A).
Arguments PySet {A} elems.
Arguments PyList {A} elems.

Definition elements {A : Type} (c : Collection A) : list A :=
  match c with PySet l | PyList l => l end.

(** [len(c)] *)
Definition len {A : Type} (c : Collection A) : Z :=
  Z.of_nat (List.length (elements c)).

(** [c.add(x)]: a list has no [add]. *)
Definition add {A : Type} (eqb : A -> A -> bool) (x : A) : Step (Collection A) :=
  fun c => match c with
           | PySet l => (None, PySet (if existsb (eqb x) l then l else l ++ [x]))
           | PyList l => (Some AttributeError, PyList l)
           end.

(** Keys of the counters: dates and clock keys are strings, channel
    identifiers are integers. *)
Inductive key : Type := KInt (n : Z) | KStr (s : string).

Definition key_eqb (a b : key) : bool :=
  match a, b with
  | KInt m, KInt n => m =? n
  | KStr s, KStr t => String.eqb s t
  | _, _ => false
  end.

Definition counts : Type := list (key * Z).

Fixpoint count_of (k : key) (c : counts) : option Z :=
  match c with
  | [] => None
  | (k', n) :: c' => if key_eqb k' k then Some n else count_of k c'
  end.

Fixpoint set_count (k : key) (n : Z) (c : counts) : counts :=
  match c with
  | [] => [(k, n)]
  | (k', n') :: c' =>
      if key_eqb k' k then (k, n) :: c' else (k', n') :: set_count k n c'
  end.

(** A value used as a counter: the [Counter()] the code creates, or the plain
    [dict] that [json.load] yields for a JSON object. *)
Inductive Tally : Type :=
| PyCounter (c : counts)
| PyDict (c : counts).

(** [t[k] += 1]: a [Counter] reads a missing key as 0, a [dict] raises. *)
Definition increment (k : key) : Step Tally :=
  fun t => match t with
           | PyCounter c =>
               (None,
                PyCounter
                  (set_count k (match count_of k c with
                                | Some n => n
                                | None => 0
                                end + 1) c))
           | PyDict c =>
               match count_of k c with
               | Some n => (None, PyDict (set_count k (n + 1) c))
               | None => (Some KeyError, PyDict c)
               end
           end.

Record MonthStats : Type := mkMonthStats {
  month_total_applications : Z;
  month_unique_users : Collection Z;
  month_popular_dates : Tally;
  month_application_times : list timestamp;
  month_channels : Tally
}.

Record UserStats : Type := mkUserStats {
  user_total_applications : Z;
  first_application : timestamp;
  last_application : timestamp;
  preferred_dates : Tally;
  application_months : Collection string
}.

(** [popular_times]: the keys ['hourly'] and ['daily'] appear on first use. *)
Record PopularTimes : Type := mkPopularTimes {
  hourly : option Tally;
  daily : option Tally
}.

Record ChannelStats : Type := mkChannelStats {
  channel_total_applications : Z;
  channel_unique_users : Collection Z;
  average_participation : Z;
  last_activity : timestamp
}.

Record TrendBucket : Type := mkTrendBucket {
  trend_applications : Z;
  trend_unique_users : Collection Z;
  trend_growth_rate : Z
}.

Record AnalyticsData : Type := mkAnalyticsData {
  monthly_stats : dict MonthStats;
  user_participation : dict UserStats;
  popular_times : PopularTimes;
  channel_performance : dict ChannelStats;
  trends : dict TrendBucket
}.

Record Analytics : Type := mkAnalytics {
  analytics_data : AnalyticsData;
  data_file : file
}.

(** The [application_data] of [record_application]. *)
Record ApplicationData : Type := mkApplicationData {
  user_id : Z;
  user_name : string;
  requested_dates : list string;
  applied_at : timestamp;
  channel_id : option Z
}.

(** The [strftime] renderings the module uses: ["%Y-%m"], ["%H"], ["%A"] and
    ["%Y-W%W"]. *)
Record Calendar : Type := mkCalendar {
  strftime_month : timestamp -> string;
  strftime_hour : timestamp -> string;
  strftime_weekday : timestamp -> string;
  strftime_week : timestamp -> string
}.

(** Python's float arithmetic, as far as [get_trend_analysis] uses it:
    [int / int], [float * int] and [round(float, 2)]. *)
Record FloatOps : Type := mkFloatOps {
  float : Type;
  truediv : Z -> Z -> float;
  fmul : float -> Z -> float;
  round2 : float -> float
}.

Definition empty_data : AnalyticsData :=
  mkAnalyticsData [] [] (mkPopularTimes None None) [] [].

(** *** The persisted document *)

Definition encode_key (k : key) : string :=
  match k with KInt n => str n | KStr s => s end.

Definition encode_tally (t : Tally) : json :=
  match t with
  | PyCounter c | PyDict c =>
      JObj (map (fun kn => (encode_key (fst kn), JNum (snd kn))) c)
  end.

(** [json.dump] raises [TypeError] on a [set]: [None]. *)
Definition encode_collection {A : Type} (enc : A -> json) (c : Collection A)
  : option json :=
  match c with
  | PySet _ => None
  | PyList l => Some (JArr (map enc l))
  end.

Definition encode_month (m : MonthStats) : option json :=
  match encode_collection JNum (month_unique_users m) with
  | Some users =>
      Some (JObj [("total_applications", JNum (month_total_applications m));
                  ("unique_users", users);
                  ("popular_dates", encode_tally (month_popular_dates m));
                  ("application_times",
                   JArr (map JTime (month_application_times m)));
                  ("channels", encode_tally (month_channels m))])
  | None => None
  end.

Definition encode_user (u : UserStats) : option json :=
  match encode_collection JStr (application_months u) with
  | Some months =>
      Some (JObj [("total_applications", JNum (user_total_applications u));
                  ("first_application", JTime (first_application u));
                  ("last_application", JTime (last_application u));
                  ("preferred_dates", encode_tally (preferred_dates u));
                  ("application_months", months)])
  | None => None
  end.

Definition encode_popular_times (p : PopularTimes) : json :=
  JObj (match hourly p with
        | Some t => [("hourly", encode_tally t)]
        | None => []
        end
        ++ match daily p with
           | Some t => [("daily", encode_tally t)]
           | None => []
           end).

Definition encode_channel (c : ChannelStats) : option json :=
  match encode_collection JNum (channel_unique_users c) with
  | Some users =>
      Some (JObj [("total_applications", JNum (channel_total_applications c));
                  ("unique_users", users);
                  ("average_participation", JNum (average_participation c));
                  ("last_activity", JTime (last_activity c))])
  | None => None
  end.

Definition encode_trend (b : TrendBucket) : option json :=
  match encode_collection JNum (trend_unique_users b) with
  | Some users =>
      Some (JObj [("applications", JNum (trend_applications b));
                  ("unique_users", users);
                  ("growth_rate", JNum (trend_growth_rate b))])
  | None => None
  end.

Definition encode_entries {V : Type} (enc : V -> option json) (d : dict V)
  : option json :=
  match sequence (map (fun kv => match enc (snd kv) with
                                 | Some j => Some (fst kv, j)
                                 | None => None
                                 end) d) with
  | Some fields => Some (JObj fields)
  | None => None
  end.

Definition encode_data (data : AnalyticsData) : option json :=
  match encode_entries encode_month (monthly_stats data),
        encode_entries encode_user (user_participation data),
        encode_entries encode_channel (channel_performance data),
        encode_entries encode_trend (trends data) with
  | Some m, Some u, Some c, Some t =>
      Some (JObj [("monthly_stats", m);
                  ("user_participation", u);
                  ("popular_times", encode_popular_times (popular_times data));
                  ("channel_performance", c);
                  ("trends", t)])
  | _, _, _, _ => None
  end.

(** What [json.load] yields, read as the records above: an array is a list
    and an object is a plain [dict] with string keys. *)
Definition decode_num (j : json) : option Z :=
  match j with JNum n => Some n | _ => None end.

Definition decode_str (j : json) : option string :=
  match j with JStr s => Some s | _ => None end.

Definition decode_time (j : json) : option timestamp :=
  match j with JTime t => Some t | _ => None end.

Definition decode_list {A : Type} (dec : json -> option A) (j : json)
  : option (list A) :=
  match j with
  | JArr l => sequence (map dec l)
  | _ => None
  end.

Definition decode_collection {A : Type} (dec : json -> option A) (j : json)
  : option (Collection A) :=
  option_map PyList (decode_list dec j).

Definition decode_tally (j : json) : option Tally :=
  match j with
  | JObj f =>
      option_map PyDict
        (sequence (map (fun kv => match snd kv with
                                  | JNum n => Some (KStr (fst kv), n)
                                  | _ => None
                                  end) f))
  | _ => None
  end.

(** [obj[k]], decoded *)
Definition field {A : Type} (dec : json -> option A) (k : string)
    (f : list (string * json)) : option A :=
  match get k f with Some j => dec j | None => None end.

Definition decode_month (j : json) : option MonthStats :=
  match j with
  | JObj f =>
      match field decode_num "total_applications" f,
            field (decode_collection decode_num) "unique_users" f,
            field decode_tally "popular_dates" f,
            field (decode_list decode_time) "application_times" f,
            field decode_tally "channels" f with
      | Some n, Some u, Some p, Some t, Some c => Some (mkMonthStats n u p t c)
      | _, _, _, _, _ => None
      end
  | _ => None
  end.

Definition decode_user (j : json) : option UserStats :=
  match j with
  | JObj f =>
      match field decode_num "total_applications" f,
            field decode_time "first_application" f,
            field decode_time "last_application" f,
            field decode_tally "preferred_dates" f,
            field (decode_collection decode_str) "application_months" f with
      | Some n, Some a, Some l, Some p, Some m => Some (mkUserStats n a l p m)
      | _, _, _, _, _ => None
      end
  | _ => None
  end.

Definition decode_optional_tally (k : string) (f : list (string * json))
  : option (option Tally) :=
  match get k f with
  | None => Some None
  | Some j => option_map Some (decode_tally j)
  end.

Definition decode_popular_times (j : json) : option PopularTimes :=
  match j with
  | JObj f =>
      match decode_optional_tally "hourly" f, decode_optional_tally "daily" f with
      | Some h, Some d => Some (mkPopularTimes h d)
      | _, _ => None
      end
  | _ => None
  end.

Definition decode_channel (j : json) : option ChannelStats :=
  match j with
  | JObj f =>
      match field decode_num "total_applications" f,
            field (decode_collection decode_num) "unique_users" f,
            field decode_num "average_participation" f,
            field decode_time "last_activity" f with
      | Some n, Some u, Some a, Some l => Some (mkChannelStats n u a l)
      | _, _, _, _ => None
      end
  | _ => None
  end.

Definition decode_trend (j : json) : option TrendBucket :=
  match j with
  | JObj f =>
      match field decode_num "applications" f,
            field (decode_collection decode_num) "unique_users" f,
            field decode_num "growth_rate" f with
      | Some n, Some u, Some g => Some (mkTrendBucket n u g)
      | _, _, _ => None
      end
  | _ => None
  end.

Definition decode_entries {V : Type} (dec : json -> option V) (j : json)
  : option (dict V) :=
  match j with
  | JObj f =>
      sequence (map (fun kv => match dec (snd kv) with
                               | Some v => Some (fst kv, v)
                               | None => None
                               end) f)
  | _ => None
  end.

Definition decode_data (j : json) : option AnalyticsData :=
  match j with
  | JObj f =>
      match field (decode_entries decode_month) "monthly_stats" f,
            field (decode_entries decode_user) "user_participation" f,
            field decode_popular_times "popular_times" f,
            field (decode_entries decode_channel) "channel_performance" f,
            field (decode_entries decode_trend) "trends" f with
      | Some m, Some u, Some p, Some c, Some t => Some (mkAnalyticsData m u p c t)
      | _, _, _, _, _ => None
      end
  | _ => None
  end.

(** [_save_data]: the file is opened for writing, which empties it, and
    [json.dump] writes into it piece by piece; when [json.dump] raises, the
    exception is logged and the file keeps the unfinished text.  When the
    file cannot be opened for writing, the exception is logged and the file
    stays as it was. *)
Definition _save_data (self : Analytics) : Analytics :=
  mkAnalytics (analytics_data self)
              (if writable (data_file self)
               then match encode_data (analytics_data self) with
                    | Some doc => FileJson doc
                    | None => FileCorrupt
                    end
               else data_file self).

(** [_load_data].  A missing file is created; a file that does not parse
    resets the data.  [None] stands for a document that is not of the shape of
    the records above. *)
Definition _load_data (self : Analytics) : option Analytics :=
  match data_file self with
  | FileAbsent | NoDirectory => Some (_save_data self)
  | FileJson doc | ReadOnly (Some doc) =>
      match decode_data doc with
      | Some data => Some (mkAnalytics data (data_file self))
      | None => None
      end
  | FileCorrupt | ReadOnly None =>
      Some (mkAnalytics empty_data (data_file self))
  end.

(** [__init__] *)
Definition init (f : file) : option Analytics :=
  _load_data (mkAnalytics empty_data f).

(** *** Recording an application *)

Definition new_month : MonthStats :=
  mkMonthStats 0 (PySet []) (PyCounter []) [] (PyCounter []).

(** The body of [_update_monthly_stats] on the month's record [stats]. *)
Definition update_month (application_data : ApplicationData) : Step MonthStats :=
  assign (fun m => mkMonthStats (month_total_applications m + 1)
                     (month_unique_users m) (month_popular_dates m)
                     (month_application_times m) (month_channels m)) ;;
  within month_unique_users
    (fun u m => mkMonthStats (month_total_applications m) u
                  (month_popular_dates m) (month_application_times m)
                  (month_channels m))
    (add Z.eqb (user_id application_data)) ;;
  within month_popular_dates
    (fun p m => mkMonthStats (month_total_applications m)
                  (month_unique_users m) p (month_application_times m)
                  (month_channels m))
    (for_each (fun date => increment (KStr date))
              (requested_dates application_data)) ;;
  assign (fun m => mkMonthStats (month_total_applications m)
                     (month_unique_users m) (month_popular_dates m)
                     (month_application_times m ++ [applied_at application_data])
                     (month_channels m)) ;;
  match channel_id application_data with
  | Some c =>
      within month_channels
        (fun t m => mkMonthStats (month_total_applications m)
                      (month_unique_users m) (month_popular_dates m)
                      (month_application_times m) t)
        (increment (KInt c))
  | None => done
  end.

(** Runs [f] on the entry of [d] under [k], created as [fresh] when absent;
    the entry is an object of the dictionary, so it is stored whatever [f]
    does. *)
Definition on_entry {V : Type} (k : string) (fresh : V) (f : Step V)
  : Step (dict V) :=
  fun d => let (e, v) := f (match get k d with Some v => v | None => fresh end) in
           (e, set k v d).

Definition _update_monthly_stats (month_key : string)
    (application_data : ApplicationData) : Step AnalyticsData :=
  within monthly_stats
    (fun m d => mkAnalyticsData m (user_participation d) (popular_times d)
                  (channel_performance d) (trends d))
    (on_entry month_key new_month (update_month application_data)).

Definition new_user (application_data : ApplicationData) : UserStats :=
  mkUserStats 0 (applied_at application_data) (applied_at application_data)
              (PyCounter []) (PySet []).

Definition update_user (cal : Calendar) (application_data : ApplicationData)
  : Step UserStats :=
  assign (fun u => mkUserStats (user_total_applications u + 1)
                     (first_application u) (applied_at application_data)
                     (preferred_dates u) (application_months u)) ;;
  within preferred_dates
    (fun p u => mkUserStats (user_total_applications u) (first_application u)
                  (last_application u) p (application_months u))
    (for_each (fun date => increment (KStr date))
              (requested_dates application_data)) ;;
  within application_months
    (fun m u => mkUserStats (user_total_applications u) (first_application u)
                  (last_application u) (preferred_dates u) m)
    (add String.eqb (strftime_month cal (applied_at application_data))).

Definition _update_user_participation (cal : Calendar)
    (application_data : ApplicationData) : Step AnalyticsData :=
  within user_participation
    (fun u d => mkAnalyticsData (monthly_stats d) u (popular_times d)
                  (channel_performance d) (trends d))
    (on_entry (str (user_id application_data)) (new_user application_data)
              (update_user cal application_data)).

(** [if k not in popular_times: popular_times[k] = Counter()] *)
Definition or_counter (t : option Tally) : Tally :=
  match t with Some t' => t' | None => PyCounter [] end.

Definition update_popular_times (hour_key day_key : string) : Step PopularTimes :=
  assign (fun p => mkPopularTimes (Some (or_counter (hourly p)))
                                  (Some (or_counter (daily p)))) ;;
  within (fun p => or_counter (hourly p))
         (fun h p => mkPopularTimes (Some h) (daily p))
         (increment (KStr hour_key)) ;;
  within (fun p => or_counter (daily p))
         (fun d p => mkPopularTimes (hourly p) (Some d))
         (increment (KStr day_key)).

Definition _update_popular_times (cal : Calendar) (current_time : timestamp)
  : Step AnalyticsData :=
  within popular_times
    (fun p d => mkAnalyticsData (monthly_stats d) (user_participation d) p
                  (channel_performance d) (trends d))
    (update_popular_times (strftime_hour cal current_time)
                          (strftime_weekday cal current_time)).

Definition new_channel (application_data : ApplicationData) : ChannelStats :=
  mkChannelStats 0 (PySet []) 0 (applied_at application_data).

Definition update_channel (application_data : ApplicationData)
  : Step ChannelStats :=
  assign (fun c => mkChannelStats (channel_total_applications c + 1)
                     (channel_unique_users c) (average_participation c)
                     (last_activity c)) ;;
  within channel_unique_users
    (fun u c => mkChannelStats (channel_total_applications c) u
                  (average_participation c) (last_activity c))
    (add Z.eqb (user_id application_data)) ;;
  assign (fun c => mkChannelStats (channel_total_applications c)
                     (channel_unique_users c) (len (channel_unique_users c))
                     (applied_at application_data)).

Definition _update_channel_performance (application_data : ApplicationData)
  : Step AnalyticsData :=
  match channel_id application_data with
  | None => done
  | Some c =>
      within channel_performance
        (fun c' d => mkAnalyticsData (monthly_stats d) (user_participation d)
                       (popular_times d) c' (trends d))
        (on_entry (str c) (new_channel application_data)
                  (update_channel application_data))
  end.

Definition new_trend : TrendBucket := mkTrendBucket 0 (PySet []) 0.

Definition update_trend (application_data : ApplicationData) : Step TrendBucket :=
  assign (fun b => mkTrendBucket (trend_applications b + 1)
                     (trend_unique_users b) (trend_growth_rate b)) ;;
  within trend_unique_users
    (fun u b => mkTrendBucket (trend_applications b) u (trend_growth_rate b))
    (add Z.eqb (user_id application_data)).

Definition _update_trends (cal : Calendar) (current_time : timestamp)
    (application_data : ApplicationData) : Step AnalyticsData :=
  within trends
    (fun t d => mkAnalyticsData (monthly_stats d) (user_participation d)
                  (popular_times d) (channel_performance d) t)
    (on_entry (strftime_week cal current_time) new_trend
              (update_trend application_data)).

(** The five updates of [record_application], in order. *)
Definition update_all (cal : Calendar) (application_data : ApplicationData)
    (current_time : timestamp) : Step AnalyticsData :=
  _update_monthly_stats (strftime_month cal current_time) application_data ;;
  _update_user_participation cal application_data ;;
  _update_popular_times cal current_time ;;
  _update_channel_performance application_data ;;
  _update_trends cal current_time application_data.

(** [record_application]: an exception of an update is logged and the save is
    skipped. *)
Definition record_application (cal : Calendar) (self : Analytics)
    (application_data : ApplicationData) (current_time : timestamp)
  : Analytics :=
  match update_all cal application_data current_time (analytics_data self) with
  | (None, data) => _save_data (mkAnalytics data (data_file self))
  | (Some _, data) => mkAnalytics data (data_file self)
  end.

(** *** The weekly trend *)

Record TrendEntry : Type := mkTrendEntry {
  week : string;
  entry_applications : Z;
  entry_unique_users : Z
}.

(** A Python number: [growth_rate] is the [int] 0 or a rounded [float]. *)
Inductive number (fl : FloatOps) : Type :=
| PyInt (n : Z)
| PyFloat (x : float fl).
Arguments PyInt {fl} n.
Arguments PyFloat {fl} x.

Record TrendReport (fl : FloatOps) : Type := mkTrendReport {
  recent_trends : list TrendEntry;
  growth_rate : number fl;
  average_applications_per_week : float fl
}.
Arguments mkTrendReport {fl}.
Arguments recent_trends {fl}.
Arguments growth_rate {fl}.
Arguments average_applications_per_week {fl}.

(** The result of [get_trend_analysis]: the report, or the record that holds
    only the key ['error'] ("no trend data"). *)
Inductive TrendResult (fl : FloatOps) : Type :=
| TrendOk (report : TrendReport fl)
| TrendError.
Arguments TrendOk {fl} report.
Arguments TrendError {fl}.

(** [timedelta(weeks=i)], in microseconds *)
Definition timedelta_weeks (i : Z) : Z := i * 604800000000.

(** [range(n)] *)
Definition range (n : Z) : list Z := map Z.of_nat (seq 0 (Z.to_nat n)).

(** The week key of iteration [i] of the loop. *)
Definition week_key_at (cal : Calendar) (current_time : timestamp) (i : Z)
  : string :=
  strftime_week cal (current_time - timedelta_weeks i).

(** What iteration [i] of the loop of [get_trend_analysis] appends to
    [trends]. *)
Definition trend_entries_at (cal : Calendar) (self : Analytics)
    (current_time : timestamp) (i : Z) : list TrendEntry :=
  let week_key := week_key_at cal current_time i in
  match get week_key (trends (analytics_data self)) with
  | Some trend_data =>
      [mkTrendEntry week_key (trend_applications trend_data)
                    (len (trend_unique_users trend_data))]
  | None => []
  end.

(** The loop of [get_trend_analysis] that collects [trends]. *)
Definition collect_trends (cal : Calendar) (self : Analytics)
    (current_time : timestamp) (weeks : Z) : list TrendEntry :=
  flat_map (trend_entries_at cal self current_time) (range weeks).

(** [round(x, 2)] for the [growth_rate] computed from two week counts *)
Definition percent_change (fl : FloatOps) (current_week previous_week : Z)
  : number fl :=
  if previous_week >? 0
  then PyFloat (round2 fl (fmul fl (truediv fl (current_week - previous_week)
                                                previous_week) 100))
  else PyInt 0.

Definition get_trend_analysis (cal : Calendar) (fl : FloatOps) (self : Analytics)
    (current_time : timestamp) (weeks : Z) : TrendResult fl :=
  let trends := collect_trends cal self current_time weeks in
  match trends with
  | [] => TrendError
  | first :: rest =>
      let growth_rate :=
        match rest with
        | second :: _ =>
            percent_change fl (entry_applications first)
                           (entry_applications second)
        | [] => PyInt 0
        end in
      TrendOk
        (mkTrendReport trends growth_rate
           (truediv fl (fold_right Z.add 0 (map entry_applications trends))
                    (Z.of_nat (List.length trends))))
  end.

(** *** Reports *)

(** [sorted(l, key=key, reverse=True)]: the sort is stable, so elements with
    equal keys keep their order. *)
Fixpoint insert_desc {A : Type} (key : A -> Z) (x : A) (l : list A) : list A :=
  match l with
  | [] => [x]
  | y :: l' => if key x <? key y then y :: insert_desc key x l' else x :: l
  end.

Definition sorted_desc {A : Type} (key : A -> Z) (l : list A) : list A :=
  fold_right (insert_desc key) [] l.

(** [l] is in descending order of [key]. *)
Definition descending {A : Type} (key : A -> Z) (l : list A) : Prop :=
  StronglySorted (fun a b => key b <= key a) l.

(** [l[:limit]] *)
Definition prefix {A : Type} (limit : Z) (l : list A) : list A :=
  if limit <? 0
  then firstn (List.length l - Z.to_nat (- limit)) l
  else firstn (Z.to_nat limit) l.

(** [t.most_common(n)] for a constant [n]: the [n] largest counts, largest
    first, ties in the order of the counter; a plain [dict] has no
    [most_common]. *)
Definition most_common (n : nat) (t : Tally) : Exn + counts :=
  match t with
  | PyCounter c => inr (firstn n (sorted_desc snd c))
  | PyDict _ => inl AttributeError
  end.

Record MonthlyReport : Type := mkMonthlyReport {
  report_month : string;
  report_total_applications : Z;
  report_unique_users : Z;
  report_popular_dates : counts;
  report_top_channels : counts;
  report_application_times : Z
}.

(** A result that is a report or the record that holds only ['error']. *)
Inductive Reported (R : Type) : Type :=
| Report (report : R)
| NoData.
Arguments Report {R} report.
Arguments NoData {R}.

(** [get_monthly_statistics]; [month] is [None] for the default, which reads
    the clock. *)
Definition get_monthly_statistics (cal : Calendar) (self : Analytics)
    (month : option string) (now : timestamp)
  : Exn + Reported MonthlyReport :=
  let month := match month with
               | Some m => m
               | None => strftime_month cal now
               end in
  match get month (monthly_stats (analytics_data self)) with
  | None => inr NoData
  | Some stats =>
      match most_common 10 (month_popular_dates stats) with
      | inl e => inl e
      | inr popular =>
          match most_common 5 (month_channels stats) with
          | inl e => inl e
          | inr top =>
              inr (Report
                     (mkMonthlyReport month (month_total_applications stats)
                        (len (month_unique_users stats)) popular top
                        (Z.of_nat (List.length (month_application_times stats)))))
          end
      end
  end.

Record ActiveUser : Type := mkActiveUser {
  active_user_id : string;
  active_total_applications : Z;
  active_last_application : timestamp
}.

(** [_get_most_active_users] *)
Definition _get_most_active_users (self : Analytics) (limit : Z)
  : list ActiveUser :=
  map (fun item => mkActiveUser (fst item)
                                (user_total_applications (snd item))
                                (last_application (snd item)))
      (prefix limit
              (sorted_desc (fun item => user_total_applications (snd item))
                           (user_participation (analytics_data self)))).

Record Distribution : Type := mkDistribution {
  low_participation : nat;
  medium_participation : nat;
  high_participation : nat
}.

(** [_get_participation_distribution]: [None] is the empty dictionary. *)
Definition _get_participation_distribution (self : Analytics)
  : option Distribution :=
  let applications_count :=
    map (fun item => user_total_applications (snd item))
        (user_participation (analytics_data self)) in
  match applications_count with
  | [] => None
  | _ :: _ =>
      Some (mkDistribution
              (List.length (filter (fun c => c <=? 1) applications_count))
              (List.length (filter (fun c => (2 <=? c) && (c <=? 5))
                                   applications_count))
              (List.length (filter (fun c => c >? 5) applications_count)))
  end.

Record AllUsersReport (fl : FloatOps) : Type := mkAllUsersReport {
  total_users : nat;
  average_applications : float fl;
  most_active_users : list ActiveUser;
  participation_distribution : option Distribution
}.
Arguments mkAllUsersReport {fl}.
Arguments total_users {fl}.
Arguments average_applications {fl}.
Arguments most_active_users {fl}.
Arguments participation_distribution {fl}.

Record UserReport : Type := mkUserReport {
  user_report_id : Z;
  user_report_total_applications : Z;
  user_report_first_application : timestamp;
  user_report_last_application : timestamp;
  user_report_preferred_dates : counts;
  user_report_application_months : Z
}.

(** [get_user_participation_stats()], without a user *)
Definition get_all_users_stats (fl : FloatOps) (self : Analytics)
  : Reported (AllUsersReport fl) :=
  let users := user_participation (analytics_data self) in
  match users with
  | [] => NoData
  | _ :: _ =>
      let all_applications :=
        map (fun item => user_total_applications (snd item)) users in
      Report
        (mkAllUsersReport (List.length users)
           (truediv fl (fold_right Z.add 0 all_applications)
                    (Z.of_nat (List.length all_applications)))
           (_get_most_active_users self 5)
           (_get_participation_distribution self))
  end.

(** [get_user_participation_stats(user_id)] *)
Definition get_user_participation_stats (self : Analytics) (user : Z)
  : Exn + Reported UserReport :=
  match get (str user) (user_participation (analytics_data self)) with
  | None => inr NoData
  | Some user_data =>
      match most_common 5 (preferred_dates user_data) with
      | inl e => inl e
      | inr preferred =>
          inr (Report
                 (mkUserReport user (user_total_applications user_data)
                    (first_application user_data) (last_application user_data)
                    preferred (len (application_months user_data))))
      end
  end.

Record ChannelEntry : Type := mkChannelEntry {
  entry_channel_id : string;
  entry_total_applications : Z;
  entry_channel_unique_users : Z;
  entry_average_participation : Z;
  entry_last_activity : timestamp
}.

Record ChannelReport (fl : FloatOps) : Type := mkChannelReport {
  top_channels : list ChannelEntry;
  total_channels : nat;
  average_applications_per_channel : float fl
}.
Arguments mkChannelReport {fl}.
Arguments top_channels {fl}.
Arguments total_channels {fl}.
Arguments average_applications_per_channel {fl}.

(** [get_channel_performance_analysis] *)
Definition get_channel_performance_analysis (fl : FloatOps) (self : Analytics)
  : Reported (ChannelReport fl) :=
  let channel_data := channel_performance (analytics_data self) in
  match channel_data with
  | [] => NoData
  | _ :: _ =>
      let sorted_channels :=
        sorted_desc (fun item => channel_total_applications (snd item))
                    channel_data in
      Report
        (mkChannelReport
           (map (fun item =>
                   mkChannelEntry (fst item)
                     (channel_total_applications (snd item))
                     (len (channel_unique_users (snd item)))
                     (average_participation (snd item))
                     (last_activity (snd item)))
                (prefix 10 sorted_channels))
           (List.length channel_data)
           (truediv fl
              (fold_right Z.add 0
                 (map (fun item => channel_total_applications (snd item))
                      channel_data))
              (Z.of_nat (List.length channel_data))))
  end.

(** *** Retention *)

(** A [datetime] is naive, as [strptime] gives it, or aware, as
    [datetime.now(tz)] gives it; the two kinds do not compare. *)
Inductive datetime : Type :=
| Naive (wall : Z)
| Aware (instant : timestamp).

(** [a < b] *)
Definition datetime_lt (a b : datetime) : Exn + bool :=
  match a, b with
  | Naive x, Naive y => inr (x <? y)
  | Aware x, Aware y => inr (x <? y)
  | _, _ => inl TypeError
  end.

(** The parsers of [cleanup_old_data], [None] when they raise [ValueError]:
    [strptime(month_key, "%Y-%m")], and for a week key the split at ["-W"]
    followed by [strptime(..., "%Y-W%W-%w")]. *)
Record Parsers : Type := mkParsers {
  strptime_month : string -> option Z;
  strptime_week : string -> option Z
}.

(** The loops that collect [months_to_remove] and [weeks_to_remove]: a key
    that does not parse is skipped, and the exception of a comparison leaves
    the function. *)
Fixpoint keys_before (parse : string -> option Z) (cutoff_date : datetime)
    (ks : list string) : Exn + list string :=
  match ks with
  | [] => inr []
  | k :: ks' =>
      match parse k with
      | None => keys_before parse cutoff_date ks'
      | Some date =>
          match datetime_lt (Naive date) cutoff_date with
          | inl e => inl e
          | inr old =>
              match keys_before parse cutoff_date ks' with
              | inl e => inl e
              | inr rest => inr (if old then k :: rest else rest)
              end
          end
      end
  end.

(** [cleanup_old_data]: the exception, if one leaves the function, and the
    analytics it leaves.  Time is unbounded here: [months_to_keep] is taken
    within the range of [timedelta] and of the calendar. *)
Definition cleanup_old_data (parsers : Parsers) (self : Analytics)
    (months_to_keep : Z) (current_time : timestamp) : option Exn * Analytics :=
  let cutoff_date :=
    Aware (current_time - timedelta_days (months_to_keep * 30)) in
  let data := analytics_data self in
  match keys_before (strptime_month parsers) cutoff_date
                    (keys (monthly_stats data)) with
  | inl e => (Some e, self)
  | inr months_to_remove =>
      let months := fold_left (fun d k => del k d) months_to_remove
                              (monthly_stats data) in
      let data1 := mkAnalyticsData months (user_participation data)
                                   (popular_times data)
                                   (channel_performance data) (trends data) in
      match keys_before (strptime_week parsers) cutoff_date
                        (keys (trends data1)) with
      | inl e => (Some e, mkAnalytics data1 (data_file self))
      | inr weeks_to_remove =>
          let weeks := fold_left (fun d k => del k d) weeks_to_remove
                                 (trends data1) in
          let data2 := mkAnalyticsData months (user_participation data)
                                       (popular_times data)
                                       (channel_performance data) weeks in
          let self' := mkAnalytics data2 (data_file self) in
          (None,
           match months_to_remove, weeks_to_remove with
           | [], [] => self'
           | _, _ => _save_data self'
           end)
      end
  end.

(** *** Data as the running program builds it *)

Definition is_counter (t : Tally) : Prop := exists c, t = PyCounter c.

Definition is_set {A : Type} (c : Collection A) : Prop :=
  exists l, c = PySet l /\ NoDup l.

Definition native_month (m : MonthStats) : Prop :=
  is_set (month_unique_users m) /\ is_counter (month_popular_dates m) /\
  is_counter (month_channels m).

Definition native_user (u : UserStats) : Prop :=
  is_counter (preferred_dates u) /\ is_set (application_months u).

Definition native_times (p : PopularTimes) : Prop :=
  (forall t, hourly p = Some t -> is_counter t) /\
  (forall t, daily p = Some t -> is_counter t).

Definition native_channel (c : ChannelStats) : Prop :=
  is_set (channel_unique_users c).

Definition native_trend (b : TrendBucket) : Prop :=
  is_set (trend_unique_users b).

(** Every set-valued counter is a [set] and every counter a [Counter]: the
    data was built by [record_application], not loaded. *)
Definition native (data : AnalyticsData) : Prop :=
  (forall k m, In (k, m) (monthly_stats data) -> native_month m) /\
  (forall k u, In (k, u) (user_participation data) -> native_user u) /\
  native_times (popular_times data) /\
  (forall k c, In (k, c) (channel_performance data) -> native_channel c) /\
  (forall k b, In (k, b) (trends data) -> native_trend b).

(** The counters of a month agree: no more users than applications, and one
    recorded time per application. *)
Definition month_consistent (m : MonthStats) : Prop :=
  len (month_unique_users m) <= month_total_applications m /\
  month_total_applications m
  = Z.of_nat (List.length (month_application_times m)).

Definition trend_consistent (b : TrendBucket) : Prop :=
  len (trend_unique_users b) <= trend_applications b.

Definition channel_consistent (c : ChannelStats) : Prop :=
  average_participation c = len (channel_unique_users c) /\
  len (channel_unique_users c) <= channel_total_applications c.

Definition consistent (data : AnalyticsData) : Prop :=
  (forall k m, In (k, m) (monthly_stats data) -> month_consistent m) /\
  (forall k c, In (k, c) (channel_performance data) -> channel_consistent c) /\
  (forall k b, In (k, b) (trends data) -> trend_consistent b).

(** On data the program built, the step [f] completes, leaves such data, and
    keeps the counters consistent. *)
Definition grows (f : Step AnalyticsData) : Prop :=
  forall data,
    native data ->
    fst (f data) = None /\
    native (snd (f data)) /\
    (consistent data -> consistent (snd (f data))).

(** The number of users whose [total_applications] lies in a class. *)
Definition users_with (class : Z -> bool) (users : dict UserStats) : nat :=
  List.length
    (filter (fun item => class (user_total_applications (snd item))) users).

(** The count that the entry of a table holds, 0 when the table has no
    entry under the key. *)
Definition counted {V : Type} (count : V -> Z) (k : string) (d : dict V) : Z :=
  match get k d with Some v => count v | None => 0 end.

(** The count that a counter of [popular_times] holds for a key, 0 when the
    counter or the key is missing. *)
Definition tallied (k : key) (t : option Tally) : Z :=
  match t with
  | Some (PyCounter c) | Some (PyDict c) =>
      match count_of k c with Some n => n | None => 0 end
  | None => 0
  end.

(** *** The trend in the specification's words *)

(** Whether the week [i] weeks before [current_time] has a bucket. *)
Definition populated (cal : Calendar) (self : Analytics)
    (current_time : timestamp) (i : Z) : bool :=
  mem (week_key_at cal current_time i) (trends (analytics_data self)).

(** The application count of the bucket of that week. *)
Definition applications_at (cal : Calendar) (self : Analytics)
    (current_time : timestamp) (i : Z) : Z :=
  match get (week_key_at cal current_time i) (trends (analytics_data self)) with
  | Some b => trend_applications b
  | None => 0
  end.

(** The window of [get_trend_analysis]: the instants from [weeks - 1] weeks
    before [current_time], the last instant the loop looks at, up to
    [current_time]. *)
Definition in_window (current_time : timestamp) (weeks : Z) (d : timestamp)
  : Prop :=
  current_time - timedelta_weeks (weeks - 1) <= d <= current_time.

(** Whether the week of the instant [d] has a bucket, and the application
    count of that bucket. *)
Definition has_bucket (cal : Calendar) (self : Analytics) (d : timestamp)
  : bool :=
  mem (strftime_week cal d) (trends (analytics_data self)).

Definition bucket_applications (cal : Calendar) (self : Analytics)
    (d : timestamp) : Z :=
  match get (strftime_week cal d) (trends (analytics_data self)) with
  | Some b => trend_applications b
  | None => 0
  end.

(** A week key names at most seven days: instants a week or more apart lie
    in different weeks. *)
Definition weeks_last_seven_days (cal : Calendar) : Prop :=
  forall d d',
    d' + timedelta_weeks 1 <= d -> strftime_week cal d <> strftime_week cal d'.

(** Every populated week of the window is the week of an instant that lies a
    whole number of weeks before [current_time]: the loop of
    [get_trend_analysis], which looks at these instants only, passes over no
    bucket of the window. *)
Definition window_covered (cal : Calendar) (self : Analytics)
    (current_time : timestamp) (weeks : Z) : Prop :=
  forall d,
    in_window current_time weeks d ->
    has_bucket cal self d = true ->
    exists i,
      0 <= i < weeks /\ strftime_week cal d = week_key_at cal current_time i.

(** *** The calendar of [strftime] *)

(** The proleptic Gregorian calendar of [datetime], on days counted from
    1970-01-01: the year and the month of a day, and the day that is
    January 1 of a year. *)
Definition civil_year_month (n : Z) : Z * Z :=
  let z := n + 719468 in
  let era := z / 146097 in
  let doe := z - era * 146097 in
  let yoe := (doe - doe / 1460 + doe / 36524 - doe / 146096) / 365 in
  let doy := doe - (365 * yoe + yoe / 4 - yoe / 100) in
  let mp := (5 * doy + 2) / 153 in
  let m := if mp <? 10 then mp + 3 else mp - 9 in
  (yoe + era * 400 + (if m <=? 2 then 1 else 0), m).

Definition new_year (year : Z) : Z :=
  let y := year - 1 in
  let era := y / 400 in
  let yoe := y - era * 400 in
  era * 146097 + (yoe * 365 + yoe / 4 - yoe / 100 + 306) - 719468.

(** ["%02d"] *)
Definition two_digits (n : Z) : string :=
  if n <? 10 then "0" ++ str n else str n.

(** ["%A"] for [weekday()], Monday being 0 *)
Definition day_name (weekday : Z) : string :=
  nth (Z.to_nat weekday)
      ["Monday"; "Tuesday"; "Wednesday"; "Thursday"; "Friday"; "Saturday";
       "Sunday"] "".

(** ["%Y-%m"] of a day *)
Definition year_month (n : Z) : string :=
  str (fst (civil_year_month n)) ++ "-" ++ two_digits (snd (civil_year_month n)).

(** ["%Y-W%W"] of a day: the weeks of a year begin on Mondays, and the days
    before the first Monday of the year are in week 0. *)
Definition year_week (n : Z) : string :=
  let year := fst (civil_year_month n) in
  let yday := n - new_year year in
  let wday := (n + 3) mod 7 in
  str year ++ "-W" ++ two_digits ((yday + 7 - wday) / 7).

(** [strftime] on the clock of a zone that is [utcoffset] microseconds ahead
    of UTC. *)
Definition gregorian (utcoffset : Z) : Calendar :=
  let day := fun t => (t + utcoffset) / timedelta_days 1 in
  mkCalendar (fun t => year_month (day t))
             (fun t => two_digits (((t + utcoffset) mod timedelta_days 1)
                                   / 3600000000))
             (fun t => day_name ((day t + 3) mod 7))
             (fun t => year_week (day t)).

(** *** Instances used as examples *)

(** A calendar that numbers months of 30 days, hours of the day, days of the
    week and weeks from the epoch. *)
Definition epoch_calendar : Calendar :=
  mkCalendar (fun t => str (t / timedelta_days 30))
             (fun t => str ((t / 3600000000) mod 24))
             (fun t => str ((t / timedelta_days 1) mod 7))
             (fun t => str (t / timedelta_weeks 1)).

(** Float expressions left unevaluated. *)
Inductive float_expr : Type :=
| Truediv (a b : Z)
| Fmul (x : float_expr) (n : Z)
| Round2 (x : float_expr).

Definition symbolic_floats : FloatOps :=
  mkFloatOps float_expr Truediv Fmul Round2.

(** The month's [unique_users] is a [set]. *)
Definition has_user_set (m : MonthStats) : Prop :=
  exists l, month_unique_users m = PySet l.

(** The analytics of a first start: no file, which [__init__] creates. *)
Definition fresh_analytics : Analytics :=
  _save_data (mkAnalytics empty_data FileAbsent).

(** The application of user 1 for "2024-07-10" in channel 100 at time [t]. *)
Definition application_at (t : timestamp) : ApplicationData :=
  mkApplicationData 1 "A" ["2024-07-10"] t (Some 100).

(** One application recorded in week 0. *)
Definition one_week : Analytics :=
  record_application epoch_calendar fresh_analytics
                     (application_at 3600000000) 3600000000.

(** One application recorded in week 0, and two in week 1. *)
Definition two_weeks : Analytics :=
  let a1 := record_application epoch_calendar fresh_analytics
                               (application_at 3600000000) 3600000000 in
  let a2 := record_application epoch_calendar a1
                               (application_at (timedelta_weeks 1))
                               (timedelta_weeks 1) in
  record_application epoch_calendar a2
                     (application_at (timedelta_weeks 1 + 3600000000))
                     (timedelta_weeks 1 + 3600000000).

(** Noon of a day counted from 1970-01-01, on UTC. *)
Definition noon (day : Z) : timestamp := timedelta_days day + 43200000000.

(** The applications of user 1 at the [times], recorded one after the
    other. *)
Definition record_all (cal : Calendar) (self : Analytics)
    (times : list timestamp) : Analytics :=
  fold_left (fun a t => record_application cal a (application_at t) t)
            times self.

(** Statistics of a bot on UTC in summer: two applications on Monday
    2024-07-01 and one on Monday 2024-07-08. *)
Definition summer_2024 : Analytics :=
  record_all (gregorian 0) fresh_analytics [noon 19905; noon 19905; noon 19912].

(** Statistics of a bot on UTC over the turn of the year: one application on
    Tuesday 2022-12-27, five on Sunday 2023-01-01 and three on Monday
    2023-01-02. *)
Definition new_year_2023 : Analytics :=
  record_all (gregorian 0) fresh_analytics
             [noon 19353; noon 19358; noon 19358; noon 19358; noon 19358;
              noon 19358; noon 19359; noon 19359; noon 19359].

(** A stored document with one application of user 1 in month "0", its
    [unique_users] being the JSON array [[1]]. *)
Definition stored_document : json :=
  JObj [("monthly_stats",
         JObj [("0",
                JObj [("total_applications", JNum 1);
                      ("unique_users", JArr [JNum 1]);
                      ("popular_dates", JObj [("2024-07-10", JNum 1)]);
                      ("application_times", JArr [JTime 3600000000]);
                      ("channels", JObj [("100", JNum 1)])])]);
        ("user_participation", JObj []);
        ("popular_times", JObj []);
        ("channel_performance", JObj []);
        ("trends", JObj [])].

Definition loaded_month : MonthStats :=
  mkMonthStats 1 (PyList [1]) (PyDict [(KStr "2024-07-10", 1)]) [3600000000]
               (PyDict [(KStr "100", 1)]).

Definition loaded_analytics : Analytics :=
  mkAnalytics
    (mkAnalyticsData [("0", loaded_month)] [] (mkPopularTimes None None) [] [])
    (FileJson stored_document).

End Analytics.

(** ** [notification_system.py] *)

Module Notifications.

(** [timedelta(hours=h)], in microseconds *)
Definition timedelta_hours (h : Z) : Z := h * 3600000000.

(** [notification_settings['deadline_reminder_hours']]: a reminder task runs
    for each entry. *)
Definition deadline_reminder_hours : list Z := [24; 12; 6; 1].

(** One round of [_check_deadline_reminders(hours_before)]: the sessions that
    [_send_deadline_reminder] is called with, in order. *)
Definition _check_deadline_reminders
    (application_manager : Registry.ApplicationManager) (hours_before : Z)
    (current_time : timestamp) : list Registry.ActiveSession :=
  let deadline_threshold := current_time + timedelta_hours hours_before in
  let active_sessions := Registry.get_active_sessions application_manager in
  filter (fun session =>
            let deadline := Registry.active_deadline session in
            (deadline <=? deadline_threshold) && (deadline >? current_time))
         active_sessions.

(** *** The report schedulers *)

(** The clock of the configured zone as the schedulers read it: microseconds
    since 1970-01-01 00:00 on that clock.  The datetimes of one round carry
    the same [tzinfo], so [replace], [+ timedelta] and [-] work on this
    number. *)
Definition wall_clock : Type := Z.

(** The day of [t], counted from 1970-01-01, and [t.time()], in microseconds
    since midnight. *)
Definition date (t : wall_clock) : Z := t / timedelta_days 1.

Definition time_of_day (t : wall_clock) : Z := t mod timedelta_days 1.

(** [t.weekday()]: Monday is 0, and 1970-01-01 was a Thursday. *)
Definition weekday (t : wall_clock) : Z := (date t + 3) mod 7.

(** [time(hour, minute)], in microseconds since midnight *)
Definition time_of (hour minute : Z) : Z :=
  hour * 3600000000 + minute * 60000000.

(** [t.replace(hour=hour, minute=minute, second=0, microsecond=0)] *)
Definition replace (t : wall_clock) (hour minute : Z) : wall_clock :=
  timedelta_days (date t) + time_of hour minute.

(** One round of [_daily_report_scheduler] for the report time
    [hour]:[minute] (['18:00'] in the settings): the [wait_seconds] it sleeps
    before [_send_daily_report], in microseconds. *)
Definition _daily_report_scheduler (hour minute : Z)
    (current_time : wall_clock) : Z :=
  let report_time := time_of hour minute in
  let next_report := replace current_time hour minute in
  let next_report :=
    if time_of_day current_time >=? report_time
    then next_report + timedelta_days 1
    else next_report in
  next_report - current_time.

(** One round of [_weekly_report_scheduler]: the [wait_seconds] it sleeps
    before [_send_weekly_report], in microseconds. *)
Definition _weekly_report_scheduler (current_time : wall_clock) : Z :=
  let days_ahead := 7 - weekday current_time in
  let days_ahead := if days_ahead =? 7 then 0 else days_ahead in
  let next_monday := current_time + timedelta_days days_ahead in
  let next_report := replace next_monday 9 0 in
  next_report - current_time.

(** Thursday 1970-01-01 at 12:00, and Monday 1970-01-05 at 10:00. *)
Definition thursday_noon : wall_clock := 43200000000.

Definition monday_ten : wall_clock := timedelta_days 4 + 36000000000.

End Notifications.

(** ** [discord_bot.py] *)

Module Bot.

(** What [on_message] reads of a message. *)
Record Message : Type := mkMessage {
  author_is_bot : bool;      (* message.author == self.user *)
  reference : option Z;      (* message.reference.message_id, when there is one *)
  author_id : Z;             (* message.author.id *)
  author : string;           (* str(message.author) *)
  content : string;          (* message.content *)
  channel_id : Z             (* message.channel.id *)
}.

Record ScheduledBot : Type := mkBot {
  schedule_message_ids : list Z;
  application_manager : option Registry.ApplicationManager;
  analytics : option Analytics.Analytics
}.

(** The application that [on_message] hands to [record_application]. *)
Definition application_data (strip : string -> string) (message : Message)
    (now : timestamp) : Analytics.ApplicationData :=
  Analytics.mkApplicationData (author_id message) (author message)
                              [strip (content message)] now
                              (Some (channel_id message)).

(** [on_message], up to the dispatch of commands, which read the registry
    and the statistics and leave them as they are: the bot it leaves and
    whether it answers that the application is complete.  [strip] is
    [str.strip]; the clock is read by [add_application] ([now_deadline],
    [now_applied]), for ['applied_at'] ([now_recorded]) and by
    [record_application] ([now_analytics]). *)
Definition on_message (strip : string -> string) (cal : Analytics.Calendar)
    (self : ScheduledBot) (message : Message)
    (now_deadline now_applied now_recorded now_analytics : timestamp)
  : ScheduledBot * bool :=
  if author_is_bot message then (self, false)
  else
    match reference message with
    | None => (self, false)
    | Some message_id =>
        if existsb (Z.eqb message_id) (schedule_message_ids self)
        then
          let requested_dates := [strip (content message)] in
          let application_manager' :=
            option_map
              (fun manager =>
                 snd (Registry.add_application manager (str message_id)
                        (author_id message) (author message) requested_dates
                        "" now_deadline now_applied))
              (application_manager self) in
          let analytics' :=
            option_map
              (fun analytics =>
                 Analytics.record_application cal analytics
                   (application_data strip message now_recorded)
                   now_analytics)
              (analytics self) in
          (mkBot (schedule_message_ids self) application_manager' analytics',
           true)
        else (self, false)
    end.

(** A bot after a first start, with the schedule message 500 sent, and a
    reply of user 1 to that message. *)
Definition started_bot : ScheduledBot :=
  mkBot [500] (Some Registry.fresh_registry) (Some Analytics.fresh_analytics).

Definition reply_to_500 : Message :=
  mkMessage false (Some 500) 1 "A" "2024-07-10" 100.

End Bot.

(** * Properties *)

(** ** Decimal texts *)

Module StrFacts.

(** [str] is injective: two users never share a key of the user index. *)
Lemma decimal_round_trip (d : Decimal.signed_int) :
  exists d',
    NilZero.int_of_string (NilZero.string_of_int d) = Some d' /\
    Z.of_int d' = Z.of_int d.
Proof.
  destruct d as [[| | | | | | | | | |]|[| | | | | | | | | |]];
    try (eexists; split; [apply NilZero.isi; discriminate | reflexivity]).
  - eexists. split; [apply NilZero.isi_posnil | reflexivity].
  - eexists. split; [apply NilZero.isi_negnil | reflexivity].
Qed.

Lemma str_injective a b : str a = str b -> a = b.
Proof.
  unfold str. intros H.
  destruct (decimal_round_trip (Z.to_int a)) as [da [Ha Hza]].
  destruct (decimal_round_trip (Z.to_int b)) as [db [Hb Hzb]].
  rewrite H, Hb in Ha. inversion Ha; subst.
  rewrite Hzb in Hza. now rewrite !DecimalZ.of_to in Hza.
Qed.

Lemma int_str n : int (str n) = Some n.
Proof.
  unfold int, str.
  destruct (decimal_round_trip (Z.to_int n)) as [d [-> Hd]].
  cbn [option_map]. now rewrite Hd, DecimalZ.of_to.
Qed.

Lemma uint_of_string_of_uint d :
  exists d',
    NilEmpty.uint_of_string (NilZero.string_of_uint d) = Some d' /\
    Z.of_uint d' = Z.of_uint d.
Proof.
  destruct d; try (eexists; split; [apply NilEmpty.usu | reflexivity]).
  eexists. split; reflexivity.
Qed.

(** A text with a leading zero reads as the number after the zero, and a
    zero before a sign does not read as a number. *)
Lemma int_zero_str n :
  int (String "0"%char (str n)) = if n <? 0 then None else Some n.
Proof.
  unfold int, str, NilZero.int_of_string, NilZero.uint_of_string.
  change (Ascii.eqb "0"%char "-"%char) with false. cbv iota.
  cbn [NilEmpty.uint_of_string].
  destruct (Z.ltb_spec n 0) as [Hneg|Hpos].
  - destruct n as [|p|p]; try lia. cbn.
    now destruct (NilEmpty.uint_of_string _).
  - assert (Hn : exists d, Z.to_int n = Decimal.Pos d).
    { destruct n as [|p|p]; try lia; eexists; reflexivity. }
    destruct Hn as [d Hd]. rewrite Hd. cbn [NilZero.string_of_int].
    destruct (uint_of_string_of_uint d) as [d' [-> Hd']].
    cbn. f_equal.
    change (Z.of_uint d' = n). rewrite Hd'.
    change (Z.of_int (Decimal.Pos d) = n). rewrite <- Hd.
    apply DecimalZ.of_to.
Qed.

Lemma two_digits_injective a b :
  Analytics.two_digits a = Analytics.two_digits b -> a = b.
Proof.
  unfold Analytics.two_digits.
  destruct (Z.ltb_spec a 10) as [Ha|Ha], (Z.ltb_spec b 10) as [Hb|Hb];
    cbn [append]; intros H.
  - injection H as H. now apply str_injective.
  - apply (f_equal int) in H. rewrite int_zero_str, int_str in H.
    destruct (a <? 0); [discriminate|]. injection H as H. lia.
  - apply (f_equal int) in H. rewrite int_zero_str, int_str in H.
    destruct (b <? 0); [discriminate|]. injection H as H. lia.
  - now apply str_injective.
Qed.

Lemma occurs_append c a b : occurs c (a ++ b) = occurs c a || occurs c b.
Proof.
  induction a as [|c' a IH]; simpl; [reflexivity|].
  now rewrite IH, orb_assoc.
Qed.

(** The decimal text of a number has no letter W. *)
Lemma str_without_W n : occurs "W"%char (str n) = false.
Proof.
  assert (Huint : forall d, occurs "W"%char (NilEmpty.string_of_uint d) = false).
  { induction d; simpl; auto. }
  assert (Hzero : forall d, occurs "W"%char (NilZero.string_of_uint d) = false).
  { intros d. destruct d; try apply Huint. reflexivity. }
  unfold str. destruct (Z.to_int n); simpl; apply Hzero.
Qed.

(** Two texts that agree are cut alike at the first occurrence of a
    character. *)
Lemma append_cut c a a' b b' :
  occurs c a = false -> occurs c a' = false ->
  a ++ String c b = a' ++ String c b' -> a = a' /\ b = b'.
Proof.
  revert a'. induction a as [|x a IH]; intros [|x' a']; simpl.
  - intros _ _ H. injection H as H. now split.
  - intros _ H' H. injection H as Hx _. subst x'.
    rewrite Ascii.eqb_refl in H'. discriminate.
  - intros H' _ H. injection H as Hx _. subst x.
    rewrite Ascii.eqb_refl in H'. discriminate.
  - intros Ha Ha' H. injection H as Hx H. subst x'.
    apply orb_false_iff in Ha, Ha'.
    destruct (IH a' (proj2 Ha) (proj2 Ha') H) as [-> ->]. now split.
Qed.

Lemma append_assoc (a b c : string) : (a ++ b) ++ c = a ++ (b ++ c).
Proof. induction a as [|x a IH]; simpl; [reflexivity | now rewrite IH]. Qed.

Lemma append_char_injective c a a' :
  a ++ String c "" = a' ++ String c "" -> a = a'.
Proof.
  revert a'. induction a as [|x a IH]; intros [|x' a']; simpl.
  - reflexivity.
  - intros H. injection H as _ H. now destruct a'.
  - intros H. injection H as _ H. now destruct a.
  - intros H. injection H as -> H. f_equal. now apply IH.
Qed.

End StrFacts.

(** ** Dictionaries *)

Module PyDictFacts.

Section Facts.
Context {V : Type}.
Implicit Types (d : dict V) (k : string) (v : V).

Lemma get_set_same k v d : get k (set k v d) = Some v.
Proof.
  induction d as [|[k' v'] d IH]; simpl.
  - now rewrite String.eqb_refl.
  - destruct (String.eqb k' k) eqn:E; simpl.
    + now rewrite String.eqb_refl.
    + now rewrite E.
Qed.

Lemma get_set_other k k' v d : k <> k' -> get k' (set k v d) = get k' d.
Proof.
  intros Hne. induction d as [|[k0 v0] d IH]; simpl.
  - destruct (String.eqb_spec k k'); congruence.
  - destruct (String.eqb_spec k0 k) as [->|Hk]; simpl.
    + destruct (String.eqb_spec k k'); congruence.
    + now rewrite IH.
Qed.

Lemma get_None_not_in k d : get k d = None <-> ~ In k (keys d).
Proof.
  induction d as [|[k' v'] d IH]; simpl.
  - intuition.
  - destruct (String.eqb_spec k' k) as [->|Hk].
    + split; [discriminate | intros H; exfalso; apply H; now left].
    + rewrite IH. intuition.
Qed.

Lemma set_absent k v d : get k d = None -> set k v d = (d ++ [(k, v)])%list.
Proof.
  induction d as [|[k' v'] d IH]; simpl; [reflexivity|].
  destruct (String.eqb k' k); [discriminate|].
  intros H. now rewrite IH.
Qed.

Lemma keys_set_present k v d : get k d <> None -> keys (set k v d) = keys d.
Proof.
  induction d as [|[k' v'] d IH]; simpl; [congruence|].
  destruct (String.eqb_spec k' k) as [->|Hk]; simpl; [reflexivity|].
  intros H. now rewrite IH.
Qed.

Lemma set_well_formed k v d : well_formed d -> well_formed (set k v d).
Proof.
  unfold well_formed. intros Hd.
  destruct (get k d) eqn:E.
  - rewrite keys_set_present; [assumption | congruence].
  - rewrite set_absent by assumption. unfold keys. rewrite map_app. simpl.
    apply NoDup_app; [assumption | repeat constructor; simpl; tauto |].
    intros x Hx [<-|[]]. now apply get_None_not_in in E.
Qed.

(** Deleting the keys [ks] one after the other keeps the entries whose key is
    not among them, in their order. *)
Lemma del_all ks d :
  fold_left (fun d' k => del k d') ks d
  = filter (fun kv => negb (str_in (fst kv) ks)) d.
Proof.
  revert d. induction ks as [|k ks IH]; intros d; simpl.
  - induction d as [|kv d IHd]; simpl; congruence.
  - rewrite IH. unfold del, str_in. clear IH.
    induction d as [|kv d IHd]; simpl; [reflexivity|].
    destruct (String.eqb (fst kv) k); simpl; rewrite IHd; reflexivity.
Qed.

(** In a well-formed dictionary the keys selected by a test on the entries
    identify exactly the selected entries. *)
Lemma selected_keys (p : string * V -> bool) d kv :
  well_formed d -> In kv d ->
  str_in (fst kv) (map fst (filter p d)) = p kv.
Proof.
  unfold well_formed, keys, str_in. intros Hnd Hin.
  destruct (p kv) eqn:Hp.
  - apply existsb_exists. exists (fst kv). split; [|apply String.eqb_refl].
    apply in_map, filter_In. now split.
  - destruct (existsb _ _) eqn:Hex; [|reflexivity].
    apply existsb_exists in Hex. destruct Hex as [k [Hk Heq]].
    apply String.eqb_eq in Heq. subst k.
    apply in_map_iff in Hk. destruct Hk as [kv' [Hfst Hkv']].
    apply filter_In in Hkv'. destruct Hkv' as [Hin' Hp'].
    assert (kv' = kv); [|congruence].
    clear Hp Hp'. induction d as [|x d IH]; [contradiction|].
    simpl in Hnd. inversion Hnd as [|? ? Hx Hd]; subst.
    destruct Hin as [->|Hin], Hin' as [->|Hin']; try reflexivity.
    + exfalso. apply Hx. rewrite <- Hfst. now apply in_map.
    + exfalso. apply Hx. rewrite Hfst. now apply in_map.
    + now apply IH.
Qed.

End Facts.

Lemma sequence_map_Some {A B : Type} (f : A -> option B) (g : A -> B) l :
  (forall x, In x l -> f x = Some (g x)) ->
  sequence (map f l) = Some (map g l).
Proof.
  induction l as [|x l IH]; intros H; simpl; [reflexivity|].
  rewrite (H x) by now left.
  rewrite IH; [reflexivity|]. intros y Hy. apply H. now right.
Qed.

Lemma sequence_map_inverse {A B : Type} (enc : A -> B) (dec : B -> option A) l :
  (forall x, dec (enc x) = Some x) ->
  sequence (map dec (map enc l)) = Some l.
Proof.
  intros H. induction l as [|x l IH]; simpl; [reflexivity|].
  now rewrite H, IH.
Qed.

Lemma filter_well_formed {V : Type} (p : string * V -> bool) (d : dict V) :
  well_formed d -> well_formed (filter p d).
Proof.
  unfold well_formed, keys. induction d as [|kv d IH]; simpl; [trivial|].
  intros Hnd. inversion Hnd as [|? ? Hk Hd]; subst.
  destruct (p kv); simpl; [|now apply IH].
  constructor; [|now apply IH].
  intros Hin. apply Hk. apply in_map_iff in Hin.
  destruct Hin as [kv' [Heq Hin]]. apply filter_In in Hin.
  rewrite <- Heq. apply in_map. tauto.
Qed.

End PyDictFacts.

(** ** The application registry *)

Module RegistryFacts.
Import Registry PyDictFacts.

(** *** The summary *)

Lemma fold_left_flat_map {A B C : Type} (f : A -> C -> A) (g : B -> list C)
    (l : list B) (acc : A) :
  fold_left (fun a b => fold_left f (g b) a) l acc
  = fold_left f (flat_map g l) acc.
Proof.
  revert acc. induction l as [|b l IH]; intros acc; simpl; [reflexivity|].
  now rewrite fold_left_app, IH.
Qed.

Lemma count_dates_flat apps :
  count_dates apps = fold_left count_date (all_requested_dates apps) [].
Proof. apply fold_left_flat_map. Qed.

Lemma first_seen_In x l : In x (first_seen l) <-> In x l.
Proof.
  induction l as [|y l IH]; simpl; [tauto|].
  rewrite filter_In, IH, negb_true_iff.
  destruct (String.eqb_spec x y); intuition congruence.
Qed.

Lemma first_seen_NoDup l : NoDup (first_seen l).
Proof.
  induction l as [|y l IH]; simpl; constructor.
  - rewrite filter_In, String.eqb_refl. intros [_ H]. discriminate.
  - now apply NoDup_filter.
Qed.

Lemma first_seen_snoc l x :
  first_seen (l ++ [x])
  = if str_in x l then first_seen l else (first_seen l ++ [x])%list.
Proof.
  unfold str_in. induction l as [|y l IH]; simpl; [reflexivity|].
  rewrite IH. destruct (String.eqb_spec x y) as [->|Hne]; simpl.
  - destruct (existsb _ l); [reflexivity|].
    rewrite filter_app. simpl. rewrite String.eqb_refl. simpl.
    now rewrite app_nil_r.
  - destruct (existsb _ l); [reflexivity|].
    rewrite filter_app. simpl.
    destruct (String.eqb_spec x y); [contradiction|reflexivity].
Qed.

Lemma str_in_In x l : str_in x l = true <-> In x l.
Proof.
  unfold str_in. rewrite existsb_exists. split.
  - intros [y [Hy Heq]]. apply String.eqb_eq in Heq. now subst.
  - intros H. exists x. split; [assumption | apply String.eqb_refl].
Qed.

Section Tabulated.
Variable f : string -> nat.

Lemma get_table x ks :
  get x (table f ks) = if str_in x ks then Some (f x) else None.
Proof.
  unfold str_in. induction ks as [|k ks IH]; simpl; [reflexivity|].
  rewrite (String.eqb_sym x k).
  destruct (String.eqb_spec k x) as [->|]; simpl; [reflexivity|apply IH].
Qed.

Lemma set_table_present x v ks :
  NoDup ks -> In x ks ->
  set x v (table f ks)
  = table (fun d => if String.eqb d x then v else f d) ks.
Proof.
  induction ks as [|k ks IH]; intros Hnd Hin; [contradiction|].
  inversion Hnd as [|? ? Hk Hks]; subst. simpl.
  destruct (String.eqb_spec k x) as [->|Hne].
  - f_equal. apply map_ext_in. intros d Hd.
    destruct (String.eqb_spec d x); [subst; contradiction | reflexivity].
  - f_equal. apply IH; [assumption|]. destruct Hin; [contradiction|assumption].
Qed.

Lemma set_table_absent x v ks :
  ~ In x ks -> set x v (table f ks) = (table f ks ++ [(x, v)])%list.
Proof.
  intros Hx. apply set_absent. rewrite get_table.
  destruct (str_in x ks) eqn:E; [|reflexivity].
  apply str_in_In in E. contradiction.
Qed.

Lemma popular_table ks :
  map fst (filter (fun dc => (1 <? snd dc)%nat) (table f ks))
  = filter (fun d => (1 <? f d)%nat) ks.
Proof.
  induction ks as [|k ks IH]; simpl; [reflexivity|].
  destruct (1 <? f k)%nat; simpl; now rewrite IH.
Qed.

End Tabulated.

Lemma occurrences_snoc d l x :
  occurrences d (l ++ [x])
  = (occurrences d l + if String.eqb d x then 1 else 0)%nat.
Proof.
  unfold occurrences. rewrite count_occ_app. simpl.
  destruct (string_dec x d) as [->|Hne].
  - now rewrite String.eqb_refl.
  - destruct (String.eqb_spec d x); [subst; contradiction|reflexivity].
Qed.

(** The counting loop yields, for each distinct date in first-seen order, the
    number of its occurrences. *)
Lemma count_date_loop l :
  fold_left count_date l [] = table (fun d => occurrences d l) (first_seen l).
Proof.
  induction l as [|x l IH] using rev_ind; [reflexivity|].
  rewrite fold_left_app. simpl. rewrite IH. unfold count_date.
  rewrite get_table, first_seen_snoc.
  assert (Hin : str_in x (first_seen l) = str_in x l).
  { destruct (str_in x l) eqn:E.
    - apply str_in_In, first_seen_In, str_in_In, E.
    - destruct (str_in x (first_seen l)) eqn:E'; [|reflexivity].
      apply (proj1 (str_in_In _ _)), (proj1 (first_seen_In _ _)) in E'.
      apply (proj2 (str_in_In _ _)) in E'. congruence. }
  rewrite Hin. destruct (str_in x l) eqn:E.
  - rewrite set_table_present.
    + apply map_ext. intros d. rewrite occurrences_snoc.
      destruct (String.eqb_spec d x) as [->|]; [reflexivity|].
      now rewrite Nat.add_0_r.
    + apply first_seen_NoDup.
    + apply first_seen_In, str_in_In, E.
  - assert (Hx : ~ In x l).
    { intros H. apply str_in_In in H. congruence. }
    rewrite set_table_absent by (now rewrite first_seen_In).
    unfold table. rewrite map_app. simpl. f_equal.
    + apply map_ext_in. intros d Hd. rewrite occurrences_snoc.
      destruct (String.eqb_spec d x) as [->|].
      * apply (proj1 (first_seen_In _ _)) in Hd. contradiction.
      * now rewrite Nat.add_0_r.
    + rewrite occurrences_snoc, String.eqb_refl. unfold occurrences.
      apply (proj1 (count_occ_not_In string_dec l x)) in Hx. now rewrite Hx.
Qed.

Lemma date_counts_spec session :
  date_counts (summarize session)
  = table (fun d => occurrences d (all_requested_dates (applications session)))
          (first_seen (all_requested_dates (applications session))).
Proof. simpl. now rewrite count_dates_flat, count_date_loop. Qed.

Lemma popular_dates_spec session :
  popular_dates (summarize session)
  = filter (fun d => (1 <? occurrences d
                              (all_requested_dates (applications session)))%nat)
           (first_seen (all_requested_dates (applications session))).
Proof.
  change (popular_dates (summarize session))
    with (map fst (filter (fun dc => (1 <? snd dc)%nat)
                          (date_counts (summarize session)))).
  rewrite date_counts_spec. apply popular_table.
Qed.

Lemma unique_applicants_spec session :
  exists users,
    NoDup users /\
    (forall u, In u users
               <-> exists a, In a (applications session) /\ user_id a = u) /\
    unique_applicants (summarize session) = List.length users.
Proof.
  exists (nodup Z.eq_dec (map user_id (applications session))).
  split; [apply NoDup_nodup|]. split; [|reflexivity].
  intros u. rewrite nodup_In, in_map_iff. split.
  - intros [a [Ha Hin]]. now exists a.
  - intros [a [Hin Ha]]. now exists a.
Qed.

(** C3.  For a session of the registry, [get_applications_summary] returns a
    summary whose four counters are functions of the session's application
    list alone: [total_applications] is the length of the list;
    [unique_applicants] is the cardinality of the set of user identifiers;
    [date_counts] gives, for each distinct requested date string in first-seen
    order, the number of its occurrences across all applications, an
    occurrence counting each time it is written; [popular_dates] is exactly
    the date strings whose count exceeds 1, in first-seen order.  For the
    applications of two users A and B that request ["2024-07-10"] and
    ["2024-07-10", "2024-07-12"], the summary is total 2, unique 2, counts
    {"2024-07-10": 2, "2024-07-12": 1} and popular dates ["2024-07-10"]. *)
Theorem C3_summary_computation :
  forall (self : ApplicationManager) (msg : string) (session : Session),
    get msg (self_applications self) = Some session ->
    exists summary,
      get_applications_summary self msg = SummaryOk summary /\
      let apps := applications session in
      let dates := all_requested_dates apps in
      total_applications summary = List.length apps /\
      (exists users,
          NoDup users /\
          (forall u, In u users <-> exists a, In a apps /\ user_id a = u) /\
          unique_applicants summary = List.length users) /\
      date_counts summary
      = table (fun d => occurrences d dates) (first_seen dates) /\
      popular_dates summary
      = filter (fun d => (1 <? occurrences d dates)%nat) (first_seen dates) /\
      (forall a b,
          apps = [a; b] ->
          user_id a <> user_id b ->
          requested_dates a = ["2024-07-10"] ->
          requested_dates b = ["2024-07-10"; "2024-07-12"] ->
          total_applications summary = 2%nat /\
          unique_applicants summary = 2%nat /\
          date_counts summary
          = [("2024-07-10", 2%nat); ("2024-07-12", 1%nat)] /\
          popular_dates summary = ["2024-07-10"]).
Proof.
  intros self msg session Hget. exists (summarize session).
  unfold get_applications_summary. rewrite Hget.
  split; [reflexivity|]. cbv zeta.
  split; [reflexivity|].
  split; [apply unique_applicants_spec|].
  split; [apply date_counts_spec|].
  split; [apply popular_dates_spec|].
  intros a b Happs Hne Ha Hb.
  unfold summarize, count_unique, count_dates. rewrite Happs. simpl.
  rewrite Ha, Hb. simpl.
  destruct (Z.eq_dec (user_id b) (user_id a)) as [Heq|_];
    [symmetry in Heq; contradiction|].
  repeat split.
Qed.

Lemma C3_summary_computation_witness :
  exists summary,
    get_applications_summary scenario_m1 "m1" = SummaryOk summary /\
    total_applications summary = 2%nat /\
    unique_applicants summary = 2%nat /\
    date_counts summary = [("2024-07-10", 2%nat); ("2024-07-12", 1%nat)] /\
    popular_dates summary = ["2024-07-10"].
Proof.
  destruct (C3_summary_computation scenario_m1 "m1" _ eq_refl)
    as [summary [Hsum [_ [_ [_ [_ Hscenario]]]]]].
  exists summary. split; [exact Hsum|].
  eapply Hscenario; [reflexivity | discriminate | reflexivity | reflexivity].
Defined.

(** *** Rejected submissions *)

(** C4.  [add_application] for a session identifier that is not in the
    applications map returns the UnknownSession error, and for a session whose
    deadline is strictly before the current time it returns the
    DeadlinePassed error; in both cases the registry it leaves is the one it
    found: the applications map, the user_applications map and the file. *)
Theorem C4_add_application_failure_atomicity :
  forall (self : ApplicationManager) (msg : string) (user : Z) (name : string)
         (dates : list string) (info : string) (now now_applied : timestamp),
    (get msg (self_applications self) = None ->
     add_application self msg user name dates info now now_applied
     = (AddFailure UnknownSession, self)) /\
    (forall session,
        get msg (self_applications self) = Some session ->
        now > deadline session ->
        add_application self msg user name dates info now now_applied
        = (AddFailure DeadlinePassed, self)).
Proof.
  intros self msg user name dates info now now_applied.
  unfold add_application. split.
  - intros ->. reflexivity.
  - intros session -> Hlate.
    destruct (Z.gtb_spec now (deadline session)); [reflexivity | lia].
Qed.

Lemma C4_add_application_failure_atomicity_witness :
  add_application scenario_m1 "missing" 3 "C" ["2024-07-11"] "" 0 0
  = (AddFailure UnknownSession, scenario_m1) /\
  add_application scenario_m1 "m1" 3 "C" ["2024-07-11"] ""
                  (timedelta_days 6) (timedelta_days 6)
  = (AddFailure DeadlinePassed, scenario_m1).
Proof.
  split.
  - apply (C4_add_application_failure_atomicity
             scenario_m1 "missing" 3 "C" ["2024-07-11"] "" 0 0).
    reflexivity.
  - eapply (C4_add_application_failure_atomicity
              scenario_m1 "m1" 3 "C" ["2024-07-11"] "").
    + reflexivity.
    + reflexivity.
Defined.

(** *** Closing a session *)

Lemma close_existing self msg session now :
  get msg (self_applications self) = Some session ->
  let closed_session :=
    mkSession (applications session) (deadline session) (channel_id session)
              (created_at session) closed (Some now) in
  fst (close_application_session self msg now)
  = CloseSuccess (SummaryOk (summarize closed_session)) /\
  get msg (self_applications (snd (close_application_session self msg now)))
  = Some closed_session.
Proof.
  intros Hget. unfold close_application_session, get_applications_summary.
  rewrite Hget. simpl. rewrite get_set_same. split; reflexivity.
Qed.

(** C5.  For an existing session identifier, two calls of
    [close_application_session] in succession both succeed, return the same
    summary, which is the summary of the session as it was before the first
    call, and leave the session's application list as it was. *)
Theorem C5_close_session_idempotence :
  forall (self : ApplicationManager) (msg : string) (session : Session)
         (now1 now2 : timestamp),
    get msg (self_applications self) = Some session ->
    let first := close_application_session self msg now1 in
    let second := close_application_session (snd first) msg now2 in
    exists summary,
      fst first = CloseSuccess (SummaryOk summary) /\
      fst second = CloseSuccess (SummaryOk summary) /\
      get_applications_summary self msg = SummaryOk summary /\
      option_map applications (get msg (self_applications (snd first)))
      = Some (applications session) /\
      option_map applications (get msg (self_applications (snd second)))
      = Some (applications session).
Proof.
  intros self msg session now1 now2 Hget first second.
  destruct (close_existing self msg session now1 Hget) as [Hr1 Hs1].
  destruct (close_existing (snd first) msg _ now2 Hs1) as [Hr2 Hs2].
  exists (summarize session).
  subst first second. rewrite Hr1, Hr2, Hs1, Hs2.
  unfold get_applications_summary. rewrite Hget.
  repeat split.
Qed.

Lemma C5_close_session_idempotence_witness :
  exists summary,
    fst (close_application_session scenario_m1 "m1" (timedelta_days 1))
    = CloseSuccess (SummaryOk summary) /\
    fst (close_application_session
           (snd (close_application_session scenario_m1 "m1" (timedelta_days 1)))
           "m1" (timedelta_days 2))
    = CloseSuccess (SummaryOk summary).
Proof.
  destruct (C5_close_session_idempotence
              scenario_m1 "m1" _ (timedelta_days 1) (timedelta_days 2) eq_refl)
    as [summary [H1 [H2 _]]].
  exists summary. split; [exact H1 | exact H2].
Defined.

(** [add_application] never reads [status]: on a closed session it appends
    under the conditions under which it appends on an active one. *)
Lemma add_application_accepted self msg session user name dates info now
      now_applied :
  get msg (self_applications self) = Some session ->
  now <= deadline session ->
  already_applied self msg user = false ->
  let application := mkApplication user name dates info now_applied in
  let outcome := add_application self msg user name dates info now now_applied in
  fst outcome
  = AddSuccess application (List.length (applications session) + 1) /\
  option_map applications (get msg (self_applications (snd outcome)))
  = Some (applications session ++ [application])%list /\
  option_map status (get msg (self_applications (snd outcome)))
  = Some (status session) /\
  get (str user) (self_user_applications (snd outcome))
  = Some (mkUserEntry msg now_applied).
Proof.
  intros Hget Hopen Hnew application outcome. subst outcome.
  unfold add_application. rewrite Hget, Hnew.
  destruct (Z.gtb_spec now (deadline session)); [lia|].
  simpl. rewrite !get_set_same. simpl.
  rewrite length_app. simpl. repeat split.
Qed.

(** C1.  What the code does on a closed session: session "m1" is created with
    a 5-day deadline and closed one hour later, its status is closed and its
    application list is empty; an [add_application] of user 1 two hours after
    the creation succeeds and the closed session then holds that
    application. *)
Theorem C1_closed_session_accepts_application :
  let application := mkApplication 1 "A" ["2024-07-10"] "" 7200000000 in
  let outcome :=
    add_application closed_m1 "m1" 1 "A" ["2024-07-10"] ""
                    7200000000 7200000000 in
  option_map status (get "m1" (self_applications closed_m1)) = Some closed /\
  option_map applications (get "m1" (self_applications closed_m1)) = Some [] /\
  fst outcome = AddSuccess application 1 /\
  option_map status (get "m1" (self_applications (snd outcome)))
  = Some closed /\
  option_map applications (get "m1" (self_applications (snd outcome)))
  = Some [application].
Proof. vm_compute. repeat split. Qed.

(** *** Duplicate submissions *)

(** A submission of a user whom the user index maps to the session is
    rejected and changes nothing. *)
Lemma add_application_duplicate self msg session user name dates info now
      now_applied :
  get msg (self_applications self) = Some session ->
  now <= deadline session ->
  already_applied self msg user = true ->
  add_application self msg user name dates info now now_applied
  = (AddFailure DuplicateSubmission, self).
Proof.
  intros Hget Hopen Hdup. unfold add_application. rewrite Hget, Hdup.
  destruct (Z.gtb_spec now (deadline session)); [lia | reflexivity].
Qed.

(** A successful submission leaves the user index on the session. *)
Lemma add_application_success_index self msg user name dates info now
      now_applied application total self' :
  add_application self msg user name dates info now now_applied
  = (AddSuccess application total, self') ->
  already_applied self' msg user = true.
Proof.
  unfold add_application, already_applied.
  destruct (get msg (self_applications self)) as [session|]; [|discriminate].
  destruct (now >? deadline session); [discriminate|].
  destruct (match get (str user) (self_user_applications self) with
            | Some existing => String.eqb (message_id existing) msg
            | None => false
            end); [discriminate|].
  intros H. inversion H; subst. simpl.
  rewrite get_set_same. simpl. apply String.eqb_refl.
Qed.

(** C2.  What the code does when a user applies elsewhere in between: with
    sessions "m1" and "m2" both open, user 1 has applied to "m1" and then to
    "m2"; a second [add_application] of user 1 to "m1", before its deadline,
    succeeds and "m1" then holds two applications of user 1. *)
Theorem C2_duplicate_after_other_session :
  let first := mkApplication 1 "A" ["2024-07-10"] "" 3600000000 in
  let again := mkApplication 1 "A" ["2024-07-11"] "" 10800000000 in
  let outcome :=
    add_application two_open_sessions "m1" 1 "A" ["2024-07-11"] ""
                    10800000000 10800000000 in
  option_map applications (get "m1" (self_applications two_open_sessions))
  = Some [first] /\
  get "1" (self_user_applications two_open_sessions)
  = Some (mkUserEntry "m2" 7200000000) /\
  fst outcome = AddSuccess again 2 /\
  option_map applications (get "m1" (self_applications (snd outcome)))
  = Some [first; again].
Proof. vm_compute. repeat split. Qed.

(** After an accepted submission to another session the user index no
    longer points at [msg]. *)
Lemma add_application_moves_index self msg msg' user name dates info now
      now_applied application total self' :
  msg' <> msg ->
  add_application self msg' user name dates info now now_applied
  = (AddSuccess application total, self') ->
  already_applied self' msg user = false.
Proof.
  intros Hother. unfold add_application, already_applied.
  destruct (get msg' (self_applications self)) as [session|]; [|discriminate].
  destruct (now >? deadline session); [discriminate|].
  destruct (match get (str user) (self_user_applications self) with
            | Some existing => String.eqb (message_id existing) msg'
            | None => false
            end); [discriminate|].
  intros H. inversion H; subst. cbn [self_user_applications _save_data].
  rewrite get_set_same. cbn [message_id].
  now apply String.eqb_neq.
Qed.

(** C10, as the code has it.  [create_application_session] with an
    identifier that is in use empties the session and leaves every entry of
    the user index as it was.  What the [add_application] that follows
    answers a user is decided by the clock and the user's index entry: after
    the new deadline it fails with DeadlinePassed; not later than the new
    deadline it fails with DuplicateSubmission when the entry points at
    [msg], although the new session holds no application, and a failed call
    changes nothing; when the user has no entry or the entry points at
    another session, the application is accepted as the first of the new
    session.  The entry points at [msg] after the user's accepted submission
    to [msg], and at another session after an accepted submission there. *)
Theorem C10_stale_user_index_after_overwrite :
  forall (self : ApplicationManager) (msg : string) (user : Z)
         (channel deadline_days : Z) (now_create now_created : timestamp)
         (name : string) (dates : list string) (info : string)
         (now now_applied : timestamp),
    let self2 :=
      create_application_session self msg channel deadline_days now_create
                                 now_created in
    let new_deadline := now_create + timedelta_days deadline_days in
    let outcome :=
      add_application self2 msg user name dates info now now_applied in
    option_map applications (get msg (self_applications self2)) = Some [] /\
    self_user_applications self2 = self_user_applications self /\
    (now > new_deadline -> outcome = (AddFailure DeadlinePassed, self2)) /\
    (now <= new_deadline ->
     already_applied self msg user = true ->
     outcome = (AddFailure DuplicateSubmission, self2)) /\
    (now <= new_deadline ->
     already_applied self msg user = false ->
     fst outcome
     = AddSuccess (mkApplication user name dates info now_applied) 1 /\
     option_map applications (get msg (self_applications (snd outcome)))
     = Some [mkApplication user name dates info now_applied]) /\
    (forall self0 name0 dates0 info0 now0 now_applied0 application total,
        add_application self0 msg user name0 dates0 info0 now0 now_applied0
        = (AddSuccess application total, self) ->
        already_applied self msg user = true) /\
    (forall self0 msg' name0 dates0 info0 now0 now_applied0 application total,
        msg' <> msg ->
        add_application self0 msg' user name0 dates0 info0 now0 now_applied0
        = (AddSuccess application total, self) ->
        already_applied self msg user = false).
Proof.
  intros self msg user channel deadline_days now_create now_created name dates
         info now now_applied self2 new_deadline outcome.
  assert (Hget : get msg (self_applications self2)
                 = Some (mkSession [] new_deadline channel now_created active
                                   None)).
  { subst self2. unfold create_application_session. simpl.
    apply get_set_same. }
  assert (Hindex : already_applied self2 msg user
                   = already_applied self msg user) by reflexivity.
  split; [now rewrite Hget|]. split; [reflexivity|].
  split; [|split; [|split; [|split]]].
  - intros Hlate. subst outcome. unfold add_application. rewrite Hget.
    cbn [deadline].
    destruct (Z.gtb_spec now new_deadline); [reflexivity | lia].
  - intros Hopen Hdup. subst outcome.
    eapply add_application_duplicate; [exact Hget | exact Hopen |].
    now rewrite Hindex.
  - intros Hopen Hnew. rewrite <- Hindex in Hnew.
    destruct (add_application_accepted self2 msg _ user name dates info now
                now_applied Hget Hopen Hnew) as [Hfirst [Hlist _]].
    split; [exact Hfirst | exact Hlist].
  - intros self0 name0 dates0 info0 now0 now_applied0 application total.
    apply add_application_success_index.
  - intros self0 msg' name0 dates0 info0 now0 now_applied0 application total.
    apply add_application_moves_index.
Qed.

Lemma C10_stale_user_index_after_overwrite_witness :
  let self2 :=
    create_application_session scenario_m1 "m1" 100 5 (timedelta_days 1)
                               (timedelta_days 1) in
  option_map applications (get "m1" (self_applications self2)) = Some [] /\
  add_application self2 "m1" 2 "B" ["2024-07-13"] "" (timedelta_days 2)
                  (timedelta_days 2)
  = (AddFailure DuplicateSubmission, self2).
Proof.
  destruct (C10_stale_user_index_after_overwrite
              scenario_m1 "m1" 2 100 5 (timedelta_days 1) (timedelta_days 1)
              "B" ["2024-07-13"] "" (timedelta_days 2) (timedelta_days 2))
    as [Hempty [_ [_ [Hdup _]]]].
  split; [exact Hempty|].
  apply Hdup; [vm_compute; discriminate | reflexivity].
Defined.

(** A user whose later submission went to another session is accepted on the
    session created again: user 1 has applied to "m1" and then to "m2";
    "m1" is created again on day 1, and the application of user 1 to it on
    day 2 is the first of the new session. *)
Lemma moved_index_is_accepted :
  let self2 :=
    create_application_session two_open_sessions "m1" 100 5 (timedelta_days 1)
                               (timedelta_days 1) in
  let outcome :=
    add_application self2 "m1" 1 "A" ["2024-07-13"] "" (timedelta_days 2)
                    (timedelta_days 2) in
  already_applied two_open_sessions "m1" 1 = false /\
  fst outcome
  = AddSuccess (mkApplication 1 "A" ["2024-07-13"] "" (timedelta_days 2)) 1.
Proof. vm_compute. split; reflexivity. Qed.

(** C10 as stated fails after the new deadline: users 1 and 2 have submitted
    to "m1", which is created again on day 1 with a 5-day deadline; the user
    index still maps user 2 to "m1" and the new session is empty, and an
    [add_application] of user 2 on day 7 fails with DeadlinePassed, not with
    DuplicateSubmission. *)
Lemma C10_late_submission_meets_deadline :
  let self2 :=
    create_application_session scenario_m1 "m1" 100 5 (timedelta_days 1)
                               (timedelta_days 1) in
  let outcome :=
    add_application self2 "m1" 2 "B" ["2024-07-13"] "" (timedelta_days 7)
                    (timedelta_days 7) in
  already_applied self2 "m1" 2 = true /\
  option_map applications (get "m1" (self_applications self2)) = Some [] /\
  outcome = (AddFailure DeadlinePassed, self2) /\
  fst outcome <> AddFailure DuplicateSubmission.
Proof. vm_compute. repeat split. discriminate. Qed.

(** *** Cleanup *)

Lemma cleanup_maps self days now :
  let to_remove := sessions_to_remove self (now - timedelta_days days) in
  self_applications (snd (cleanup_old_sessions self days now))
  = filter (fun ms => negb (str_in (fst ms) to_remove)) (self_applications self) /\
  self_user_applications (snd (cleanup_old_sessions self days now))
  = filter (fun uu => negb (str_in (fst uu) (users_to_remove self to_remove)))
           (self_user_applications self).
Proof.
  unfold cleanup_old_sessions. cbv zeta. rewrite !del_all.
  destruct (sessions_to_remove self (now - timedelta_days days));
    split; reflexivity.
Qed.

(** Every operation keeps the invariant, and the registry of a first start
    has it. *)
Lemma registry_invariant :
  registry_well_formed fresh_registry /\
  (forall self msg channel days now now_created,
      registry_well_formed self ->
      registry_well_formed
        (create_application_session self msg channel days now now_created)) /\
  (forall self msg user name dates info now now_applied,
      registry_well_formed self ->
      registry_well_formed
        (snd (add_application self msg user name dates info now now_applied))) /\
  (forall self msg now,
      registry_well_formed self ->
      registry_well_formed (snd (close_application_session self msg now))) /\
  (forall self days now,
      registry_well_formed self ->
      registry_well_formed (snd (cleanup_old_sessions self days now))).
Proof.
  unfold registry_well_formed. repeat split; try (simpl; constructor).
  - simpl. apply set_well_formed. tauto.
  - simpl. tauto.
  - unfold add_application.
    destruct (get msg (self_applications self)); [|tauto].
    destruct (now >? deadline s); [tauto|].
    destruct (already_applied self msg user); [tauto|].
    simpl. apply set_well_formed. tauto.
  - unfold add_application.
    destruct (get msg (self_applications self)); [|tauto].
    destruct (now >? deadline s); [tauto|].
    destruct (already_applied self msg user); [tauto|].
    simpl. apply set_well_formed. tauto.
  - unfold close_application_session.
    destruct (get msg (self_applications self)); [|tauto].
    simpl. apply set_well_formed. tauto.
  - unfold close_application_session.
    destruct (get msg (self_applications self)); tauto.
  - destruct (cleanup_maps self days now) as [-> _].
    apply filter_well_formed. tauto.
  - destruct (cleanup_maps self days now) as [_ ->].
    apply filter_well_formed. tauto.
Qed.

(** C6, as the code has it.  [cleanup_old_sessions] deletes exactly the
    sessions whose creation timestamp is before [now - days], together with
    every user-index entry that points at a deleted session; the other
    sessions and entries stay as they are, in their order; the file is
    rewritten when a session was deleted, unless it cannot be opened for
    writing; the function returns nothing (Python's [None]). *)
Theorem C6_cleanup_old_sessions :
  forall (self : ApplicationManager) (days : Z) (now : timestamp),
    registry_well_formed self ->
    let old := fun ms : string * Session =>
                 created_at (snd ms) <? now - timedelta_days days in
    let removed := map fst (filter old (self_applications self)) in
    let result := cleanup_old_sessions self days now in
    fst result = None /\
    self_applications (snd result)
    = filter (fun ms => negb (old ms)) (self_applications self) /\
    self_user_applications (snd result)
    = filter (fun uu => negb (str_in (message_id (snd uu)) removed))
             (self_user_applications self) /\
    data_file (snd result)
    = match removed with
      | [] => data_file self
      | _ :: _ =>
          if writable (data_file self)
          then FileJson (encode_store (snd result))
          else data_file self
      end.
Proof.
  intros self days now [Happs Husers] old removed result.
  split; [reflexivity|].
  destruct (cleanup_maps self days now) as [Ha Hu].
  fold result in Ha, Hu. rewrite Ha, Hu.
  split; [|split].
  - apply filter_ext_in. intros ms Hin. f_equal.
    apply (selected_keys old); assumption.
  - apply filter_ext_in. intros uu Hin. f_equal.
    unfold users_to_remove.
    apply (selected_keys
             (fun uu' => str_in (message_id (snd uu'))
                           (sessions_to_remove self (now - timedelta_days days))));
      assumption.
  - subst result. unfold cleanup_old_sessions. cbv zeta.
    change (sessions_to_remove self (now - timedelta_days days)) with removed.
    destruct removed; [reflexivity|]. cbn [snd _save_data data_file].
    destruct (writable (data_file self)); reflexivity.
Qed.

Lemma C6_cleanup_old_sessions_witness :
  let result := cleanup_old_sessions old_and_new 30 (timedelta_days 40) in
  fst result = None /\
  keys (self_applications (snd result)) = ["new"] /\
  keys (self_user_applications (snd result)) = ["2"].
Proof.
  assert (Hwf : registry_well_formed old_and_new).
  { split; vm_compute; repeat constructor; simpl; intuition discriminate. }
  destruct (C6_cleanup_old_sessions old_and_new 30 (timedelta_days 40) Hwf)
    as [Hnone [Ha [Hu _]]].
  cbv zeta. rewrite Ha, Hu. split; [exact Hnone|]. split; reflexivity.
Defined.

(** C6 as stated fails: with a session created 40 days ago and one created 10
    days ago, the cleanup with a retention of 30 days removes one session and
    does not return the number 1. *)
Lemma C6_cleanup_returns_no_count :
  let result := cleanup_old_sessions old_and_new 30 (timedelta_days 40) in
  (List.length (self_applications old_and_new)
   - List.length (self_applications (snd result)) = 1)%nat /\
  fst result <> Some 1%nat.
Proof. split; [reflexivity | discriminate]. Qed.

(** *** Persistence *)

Lemma decode_encode_application a :
  decode_application (encode_application a) = Some a.
Proof.
  destruct a as [u n dates i t]. simpl.
  rewrite (sequence_map_inverse JStr decode_string); reflexivity.
Qed.

Lemma decode_encode_session s : decode_session (encode_session s) = Some s.
Proof.
  destruct s as [apps d c t st cl].
  destruct st, cl; simpl;
    rewrite (sequence_map_inverse encode_application decode_application)
      by apply decode_encode_application;
    reflexivity.
Qed.

Lemma decode_encode_user_entry u :
  decode_user_entry (encode_user_entry u) = Some u.
Proof. destruct u. reflexivity. Qed.

Lemma decode_encode_dict {V : Type} (enc : V -> json) (dec : json -> option V)
    (d : dict V) :
  (forall v, dec (enc v) = Some v) ->
  decode_dict dec (encode_dict enc d) = Some d.
Proof.
  intros H. unfold decode_dict, encode_dict.
  induction d as [|[k v] d IH]; simpl; [reflexivity|].
  now rewrite H, IH.
Qed.

(** A registry started on the file that [_save_data] wrote holds the maps
    that were saved. *)
Lemma load_saved self :
  writable (data_file self) = true ->
  init (data_file (_save_data self))
  = Some (mkManager (self_applications self) (self_user_applications self)
                    (FileJson (encode_store self))).
Proof.
  intros Hwritable.
  unfold init, _load_data, _save_data, encode_store. cbn [data_file].
  rewrite Hwritable.
  change (get_or_empty "applications" _)
    with (encode_dict encode_session (self_applications self)).
  change (get_or_empty "user_applications" _)
    with (encode_dict encode_user_entry (self_user_applications self)).
  rewrite (decode_encode_dict encode_session decode_session)
    by apply decode_encode_session.
  rewrite (decode_encode_dict encode_user_entry decode_user_entry)
    by apply decode_encode_user_entry.
  reflexivity.
Qed.

(** C9.  A fresh registry started on the file a registry saved has the same
    sessions and user index, and its [get_active_sessions] is the list the
    saving registry gives, field for field.  The registry saves whenever its
    file can be opened for writing. *)
Theorem C9_registry_round_trip :
  forall self : ApplicationManager,
    writable (data_file self) = true ->
    exists reloaded,
      init (data_file (_save_data self)) = Some reloaded /\
      self_applications reloaded = self_applications self /\
      self_user_applications reloaded = self_user_applications self /\
      get_active_sessions reloaded = get_active_sessions self.
Proof.
  intros self Hwritable. eexists. split; [now apply load_saved|].
  repeat split.
Qed.

Lemma C9_registry_round_trip_witness :
  writable (data_file scenario_m1) = true /\
  exists reloaded,
    init (data_file (_save_data scenario_m1)) = Some reloaded /\
    get_active_sessions reloaded = get_active_sessions scenario_m1.
Proof.
  split; [reflexivity|].
  destruct (C9_registry_round_trip scenario_m1 eq_refl)
    as [reloaded [Hinit [_ [_ Hactive]]]].
  exists reloaded. split; [exact Hinit | exact Hactive].
Defined.

End RegistryFacts.

(** ** The analytics counters *)

Module AnalyticsFacts.
Import Analytics PyDictFacts.

(** *** The weekly trend *)

Lemma range_In j n : In j (range n) <-> 0 <= j < n.
Proof.
  unfold range. rewrite in_map_iff. split.
  - intros [k [<- Hk]]. apply in_seq in Hk. lia.
  - intros H. exists (Z.to_nat j). split; [lia|]. apply in_seq. lia.
Qed.

(** The window up to [n] is the window up to [i], then [i], then later
    weeks. *)
Lemma range_split i n :
  0 <= i < n ->
  exists rest,
    range n = (range i ++ i :: rest)%list /\ forall j, In j rest -> i < j < n.
Proof.
  intros H.
  assert (Hn : Z.to_nat n
               = (Z.to_nat i + S (Z.to_nat n - S (Z.to_nat i)))%nat) by lia.
  generalize dependent (Z.to_nat n - S (Z.to_nat i))%nat. intros k Hn.
  exists (map Z.of_nat (seq (S (Z.to_nat i)) k)). split.
  - unfold range. rewrite Hn, seq_app, map_app. simpl.
    now rewrite Z2Nat.id by lia.
  - intros j Hj. apply in_map_iff in Hj. destruct Hj as [m [<- Hm]].
    apply in_seq in Hm. lia.
Qed.

Section Window.
Variables (cal : Calendar) (self : Analytics) (now : timestamp).

Lemma entries_populated i :
  populated cal self now i = true ->
  exists entry,
    trend_entries_at cal self now i = [entry] /\
    entry_applications entry = applications_at cal self now i.
Proof.
  unfold populated, mem, trend_entries_at, applications_at. cbv zeta.
  destruct (get _ _); [|discriminate]. intros _. eexists. split; reflexivity.
Qed.

Lemma entries_unpopulated i :
  populated cal self now i = false -> trend_entries_at cal self now i = [].
Proof.
  unfold populated, mem, trend_entries_at. cbv zeta.
  destruct (get _ _); [discriminate|reflexivity].
Qed.

Lemma collect_unpopulated l :
  (forall j, In j l -> populated cal self now j = false) ->
  flat_map (trend_entries_at cal self now) l = [].
Proof.
  induction l as [|i l IH]; intros H; simpl; [reflexivity|].
  rewrite entries_unpopulated by (apply H; now left).
  apply IH. intros j Hj. apply H. now right.
Qed.

(** The window up to [i1] with the single populated week [i0]. *)
Lemma collect_single i0 i1 :
  0 <= i0 < i1 ->
  populated cal self now i0 = true ->
  (forall j, 0 <= j < i1 -> j <> i0 -> populated cal self now j = false) ->
  exists entry,
    collect_trends cal self now i1 = [entry] /\
    entry_applications entry = applications_at cal self now i0.
Proof.
  intros Hi Hpop Hothers. unfold collect_trends.
  destruct (range_split i0 i1 Hi) as [rest [-> Hrest]].
  destruct (entries_populated i0 Hpop) as [entry [Hentry Happs]].
  exists entry. split; [|exact Happs].
  rewrite flat_map_app. simpl. rewrite Hentry.
  rewrite !collect_unpopulated; [reflexivity| |].
  - intros j Hj. apply Hrest in Hj. apply Hothers; lia.
  - intros j Hj. apply range_In in Hj. apply Hothers; lia.
Qed.

End Window.

(** The trend by the steps of the loop.  Step [i] looks at the instant [i]
    weeks before [now]; the loop takes the steps 0 to [weeks - 1].  When no
    step finds a bucket, [get_trend_analysis] returns the error record, which
    has no [growth_rate].  When exactly one step finds a bucket,
    [growth_rate] is 0.  When [i0] and [i1] are the first two steps that find
    a bucket, with application counts [c0] and [c1], [growth_rate] is
    [(c0 - c1) / c1 * 100] rounded to two decimals if [c1] is positive, and 0
    otherwise. *)
Lemma trend_by_loop_index :
  forall (cal : Calendar) (fl : FloatOps) (self : Analytics) (now : timestamp)
         (weeks : Z),
    let result := get_trend_analysis cal fl self now weeks in
    let has_bucket := populated cal self now in
    let count := applications_at cal self now in
    ((forall i, 0 <= i < weeks -> has_bucket i = false) ->
     result = TrendError) /\
    (forall i0,
        0 <= i0 < weeks ->
        has_bucket i0 = true ->
        (forall j, 0 <= j < weeks -> j <> i0 -> has_bucket j = false) ->
        exists report, result = TrendOk report /\ growth_rate report = PyInt 0) /\
    (forall i0 i1,
        0 <= i0 < i1 -> i1 < weeks ->
        has_bucket i0 = true ->
        has_bucket i1 = true ->
        (forall j, 0 <= j < i1 -> j <> i0 -> has_bucket j = false) ->
        exists report,
          result = TrendOk report /\
          growth_rate report
          = if count i1 >? 0
            then PyFloat (round2 fl (fmul fl (truediv fl (count i0 - count i1)
                                                         (count i1)) 100))
            else PyInt 0).
Proof.
  intros cal fl self now weeks result has_bucket count.
  subst result has_bucket count. unfold get_trend_analysis.
  split; [|split].
  - intros Hnone. unfold collect_trends.
    rewrite collect_unpopulated; [reflexivity|].
    intros j Hj. apply Hnone, range_In, Hj.
  - intros i0 Hi0 Hpop Hothers.
    destruct (collect_single cal self now i0 weeks Hi0 Hpop Hothers)
      as [entry [-> _]].
    eexists. split; reflexivity.
  - intros i0 i1 Hi0 Hi1 Hpop0 Hpop1 Hothers.
    destruct (collect_single cal self now i0 i1 Hi0 Hpop0 Hothers)
      as [e0 [Hwindow Hc0]].
    destruct (entries_populated cal self now i1 Hpop1) as [e1 [He1 Hc1]].
    destruct (range_split i1 weeks ltac:(lia)) as [rest [Hrange _]].
    unfold collect_trends in *. rewrite Hrange, flat_map_app, Hwindow.
    simpl. rewrite He1. simpl.
    eexists. split; [reflexivity|]. simpl.
    unfold percent_change. now rewrite Hc0, Hc1.
Qed.

(** The steps of the loop look at instants that are whole weeks apart, so
    no two of them find the same bucket. *)
Lemma week_keys_distinct cal now i j :
  weeks_last_seven_days cal -> i <> j ->
  week_key_at cal now i <> week_key_at cal now j.
Proof.
  intros Hcal Hne. unfold week_key_at.
  destruct (Z.lt_total i j) as [Hlt|[Heq|Hgt]]; [|contradiction|].
  - apply Hcal. unfold timedelta_weeks. lia.
  - intros Heq. symmetry in Heq. revert Heq. apply Hcal.
    unfold timedelta_weeks. lia.
Qed.

Lemma step_in_window now weeks i :
  0 <= i < weeks -> in_window now weeks (now - timedelta_weeks i).
Proof. unfold in_window, timedelta_weeks. lia. Qed.

Lemma days_apart (D a b : Z) :
  0 < D -> b + 7 * D <= a -> b / D + 7 <= a / D.
Proof.
  intros HD Hle. rewrite <- Z.div_add by lia. apply Z.div_le_mono; lia.
Qed.

(** Days a week or more apart have different week numbers in a year. *)
Lemma weeks_apart (n n' s : Z) :
  n' + 7 <= n ->
  (n - s + 7 - (n + 3) mod 7) / 7 <> (n' - s + 7 - (n' + 3) mod 7) / 7.
Proof.
  intros Hdays.
  replace (n - s + 7 - (n + 3) mod 7) with (4 - s + (n + 3) / 7 * 7)
    by (rewrite (Z.mod_eq (n + 3) 7) by lia; lia).
  replace (n' - s + 7 - (n' + 3) mod 7) with (4 - s + (n' + 3) / 7 * 7)
    by (rewrite (Z.mod_eq (n' + 3) 7) by lia; lia).
  rewrite !Z.div_add by lia.
  assert (H1 : (n' + 3) / 7 + 1 <= (n + 3) / 7).
  { replace ((n' + 3) / 7 + 1) with ((n' + 3 + 1 * 7) / 7)
      by (apply Z.div_add; lia).
    apply Z.div_le_mono; lia. }
  lia.
Qed.

(** The text of ["%Y-W%W"] tells the year and the week number. *)
Lemma year_week_text (y y' w w' : Z) :
  str y ++ "-W" ++ two_digits w = str y' ++ "-W" ++ two_digits w' ->
  y = y' /\ w = w'.
Proof.
  intros Heq.
  change ("-W" ++ two_digits w) with ("-" ++ String "W" (two_digits w)) in Heq.
  change ("-W" ++ two_digits w') with ("-" ++ String "W" (two_digits w'))
    in Heq.
  rewrite <- !StrFacts.append_assoc in Heq.
  apply StrFacts.append_cut in Heq;
    try (rewrite StrFacts.occurs_append, StrFacts.str_without_W; reflexivity).
  destruct Heq as [Hyear Hweek]. split.
  - now apply StrFacts.append_char_injective, StrFacts.str_injective in Hyear.
  - now apply StrFacts.two_digits_injective.
Qed.

(** The weeks of ["%Y-W%W"] last at most seven days. *)
Lemma gregorian_weeks utcoffset : weeks_last_seven_days (gregorian utcoffset).
Proof.
  intros d d' Hle Heq. unfold gregorian in Heq. cbn [strftime_week] in Heq.
  assert (Hdays : (d' + utcoffset) / timedelta_days 1 + 7
                  <= (d + utcoffset) / timedelta_days 1).
  { apply days_apart; unfold timedelta_days, timedelta_weeks in *; lia. }
  revert Hdays Heq.
  generalize ((d + utcoffset) / timedelta_days 1) as n.
  generalize ((d' + utcoffset) / timedelta_days 1) as n'.
  intros n' n Hdays Heq. unfold year_week in Heq. cbv zeta in Heq.
  apply year_week_text in Heq. destruct Heq as [Hyear Hweek].
  rewrite Hyear in Hweek. revert Hweek. now apply weeks_apart.
Qed.

(** The loop passes over no bucket when every key of [trends] is the key of
    one of its steps. *)
Lemma covered_by_keys cal self now weeks :
  (forall k,
      mem k (trends (analytics_data self)) = true ->
      exists i, 0 <= i < weeks /\ k = week_key_at cal now i) ->
  window_covered cal self now weeks.
Proof. intros H d _ Hd. now apply H. Qed.

(** C7, as the code has it.  The weeks of the calendar last at most seven
    days, as those of ["%Y-W%W"] do, and every populated week of the window
    is the week of an instant that lies a whole number of weeks before
    [now].  When no instant of the window lies in a week that has a bucket,
    [get_trend_analysis] returns the error record, which has no
    [growth_rate].  When the populated instants of the window all lie in one
    week, [growth_rate] is 0.  When the week of [d0] is the most recent
    populated week of the window (later populated instants lie in that week)
    and the week of [d1] is the most recent populated week before it (later
    populated instants lie in one of the two weeks), with application counts
    [c0] and [c1], [growth_rate] is [(c0 - c1) / c1 * 100] rounded to two
    decimals if [c1] is positive, and 0 otherwise. *)
Theorem C7_trend_growth_rate :
  forall (cal : Calendar) (fl : FloatOps) (self : Analytics) (now : timestamp)
         (weeks : Z),
    weeks_last_seven_days cal ->
    window_covered cal self now weeks ->
    let result := get_trend_analysis cal fl self now weeks in
    let within := in_window now weeks in
    let populated_at := has_bucket cal self in
    let week_of := strftime_week cal in
    let count := bucket_applications cal self in
    ((forall d, within d -> populated_at d = false) -> result = TrendError) /\
    (forall d0,
        within d0 ->
        populated_at d0 = true ->
        (forall d, within d -> populated_at d = true -> week_of d = week_of d0) ->
        exists report, result = TrendOk report /\ growth_rate report = PyInt 0) /\
    (forall d0 d1,
        within d0 -> within d1 ->
        populated_at d0 = true -> populated_at d1 = true ->
        week_of d1 <> week_of d0 ->
        (forall d,
            within d -> d0 < d -> populated_at d = true ->
            week_of d = week_of d0) ->
        (forall d,
            within d -> d1 < d -> populated_at d = true ->
            week_of d = week_of d0 \/ week_of d = week_of d1) ->
        exists report,
          result = TrendOk report /\
          growth_rate report
          = if count d1 >? 0
            then PyFloat (round2 fl (fmul fl (truediv fl (count d0 - count d1)
                                                         (count d1)) 100))
            else PyInt 0).
Proof.
  intros cal fl self now weeks Hcal Hcovered result within populated_at
         week_of count.
  subst result within populated_at week_of count.
  destruct (trend_by_loop_index cal fl self now weeks)
    as [Hnone [Hone Htwo]].
  assert (Hstep : forall i,
             populated cal self now i
             = has_bucket cal self (now - timedelta_weeks i))
    by reflexivity.
  split; [|split].
  - intros Hempty. apply Hnone. intros i Hi. rewrite Hstep.
    apply Hempty. now apply step_in_window.
  - intros d0 Hd0 Hpop0 Hsingle.
    destruct (Hcovered d0 Hd0 Hpop0) as [i0 [Hi0 Hkey0]].
    apply (Hone i0 Hi0).
    + unfold populated. rewrite <- Hkey0. exact Hpop0.
    + intros j Hj Hne.
      destruct (populated cal self now j) eqn:Hpop; [|reflexivity].
      exfalso. apply (week_keys_distinct cal now j i0 Hcal Hne).
      rewrite <- Hkey0. apply Hsingle; [now apply step_in_window|].
      now rewrite <- Hstep.
  - intros d0 d1 Hd0 Hd1 Hpop0 Hpop1 Hdiff Hlatest Hsecond.
    destruct (Hcovered d0 Hd0 Hpop0) as [i0 [Hi0 Hkey0]].
    destruct (Hcovered d1 Hd1 Hpop1) as [i1 [Hi1 Hkey1]].
    assert (Hpi0 : populated cal self now i0 = true).
    { unfold populated. rewrite <- Hkey0. exact Hpop0. }
    assert (Hpi1 : populated cal self now i1 = true).
    { unfold populated. rewrite <- Hkey1. exact Hpop1. }
    assert (Hne : i0 <> i1).
    { intros ->. apply Hdiff. now rewrite Hkey0, Hkey1. }
    assert (Hlt : i0 < i1).
    { destruct (Z.lt_total i0 i1) as [H|[H|H]]; [exact H | contradiction|].
      exfalso.
      destruct (Z.le_gt_cases (now - timedelta_weeks i1) d0) as [Hle|Hgt].
      - apply (Hcal d0 (now - timedelta_weeks i0)).
        + unfold timedelta_weeks in *. lia.
        + exact Hkey0.
      - apply Hdiff. rewrite Hkey1.
        apply Hlatest; [now apply step_in_window | lia |].
        now rewrite <- Hstep. }
    destruct (Htwo i0 i1 ltac:(lia) ltac:(lia) Hpi0 Hpi1) as [report [Hr Hg]].
    + intros j Hj Hj0.
      destruct (populated cal self now j) eqn:Hpop; [|reflexivity].
      exfalso.
      assert (Hj1 : j <> i1) by lia.
      destruct (Z.le_gt_cases (now - timedelta_weeks j) d1) as [Hle|Hgt].
      * apply (Hcal d1 (now - timedelta_weeks i1)).
        -- unfold timedelta_weeks in *. lia.
        -- exact Hkey1.
      * destruct (Hsecond (now - timedelta_weeks j)) as [H|H].
        -- apply step_in_window. lia.
        -- lia.
        -- now rewrite <- Hstep.
        -- apply (week_keys_distinct cal now j i0 Hcal Hj0).
           now rewrite <- Hkey0.
        -- apply (week_keys_distinct cal now j i1 Hcal Hj1).
           now rewrite <- Hkey1.
    + exists report. split; [exact Hr|]. rewrite Hg.
      unfold applications_at, bucket_applications.
      now rewrite <- Hkey0, <- Hkey1.
Qed.

(** The instants of the window that lie in a populated week of
    [summer_2024], seen from Wednesday 2024-07-10. *)
Lemma summer_2024_weeks d :
  has_bucket (gregorian 0) summer_2024 d = true ->
  strftime_week (gregorian 0) d = "2024-W28"
  \/ strftime_week (gregorian 0) d = "2024-W27".
Proof.
  unfold has_bucket.
  change (trends (analytics_data summer_2024))
    with [("2024-W27", mkTrendBucket 2 (PySet [1]) 0);
          ("2024-W28", mkTrendBucket 1 (PySet [1]) 0)].
  unfold mem. cbn [get].
  destruct (String.eqb_spec "2024-W27" (strftime_week (gregorian 0) d))
    as [<-|_]; [now right|].
  destruct (String.eqb_spec "2024-W28" (strftime_week (gregorian 0) d))
    as [<-|_]; [now left | discriminate].
Qed.

Lemma C7_trend_growth_rate_witness :
  weeks_last_seven_days (gregorian 0) /\
  window_covered (gregorian 0) summer_2024 (noon 19914) 8 /\
  exists report,
    get_trend_analysis (gregorian 0) symbolic_floats summer_2024 (noon 19914) 8
    = TrendOk report /\
    growth_rate report
    = @PyFloat symbolic_floats (Round2 (Fmul (Truediv (-1) 2) 100)).
Proof.
  assert (Hcal := gregorian_weeks 0).
  assert (Hcovered : window_covered (gregorian 0) summer_2024 (noon 19914) 8).
  { intros d _ Hd. destruct (summer_2024_weeks d Hd) as [->| ->].
    - exists 0. split; [lia | reflexivity].
    - exists 1. split; [lia | reflexivity]. }
  split; [exact Hcal|]. split; [exact Hcovered|].
  apply (proj2 (proj2 (C7_trend_growth_rate (gregorian 0) symbolic_floats
                         summer_2024 (noon 19914) 8 Hcal Hcovered))
               (noon 19914) (noon 19907)).
  - vm_compute. split; discriminate.
  - vm_compute. split; discriminate.
  - reflexivity.
  - reflexivity.
  - vm_compute. discriminate.
  - intros d [_ Hd] Hlater. lia.
  - intros d _ _ Hd. destruct (summer_2024_weeks d Hd) as [->| ->];
      [now left | now right].
Defined.

(** A bucket of the window that the loop passes over.  Seen from Tuesday
    2023-01-03 with the calendar of [strftime], the week "2023-W00" of Sunday
    2023-01-01 lies within the window and has the bucket with five
    applications; the steps of the loop find "2023-W01" and, a week earlier,
    "2022-W52", and the growth rate is computed from these two. *)
Lemma week_zero_is_passed_over :
  let now := noon 19360 in
  map fst (trends (analytics_data new_year_2023))
  = ["2022-W52"; "2023-W00"; "2023-W01"] /\
  in_window now 8 (noon 19358) /\
  has_bucket (gregorian 0) new_year_2023 (noon 19358) = true /\
  bucket_applications (gregorian 0) new_year_2023 (noon 19358) = 5 /\
  (forall i, 0 <= i < 8 ->
             week_key_at (gregorian 0) now i <> "2023-W00") /\
  match get_trend_analysis (gregorian 0) symbolic_floats new_year_2023 now 8
  with
  | TrendOk report =>
      map week (recent_trends report) = ["2023-W01"; "2022-W52"] /\
      growth_rate report
      = @PyFloat symbolic_floats (Round2 (Fmul (Truediv 2 1) 100))
  | TrendError => False
  end.
Proof.
  cbv zeta. split; [reflexivity|].
  split; [vm_compute; split; discriminate|].
  split; [reflexivity|]. split; [reflexivity|]. split.
  - intros i Hi.
    assert (Hcases : i = 0 \/ i = 1 \/ i = 2 \/ i = 3 \/ i = 4 \/ i = 5
                     \/ i = 6 \/ i = 7) by lia.
    repeat (destruct Hcases as [->|Hcases]; [vm_compute; discriminate|]).
    subst i. vm_compute. discriminate.
  - vm_compute. split; reflexivity.
Qed.

(** C7 as stated fails: the analytics of a first start has no bucket in the
    8 weeks of the window, and [get_trend_analysis] returns the error record
    and not a report whose [growth_rate] is 0. *)
Lemma C7_no_bucket_gives_error :
  trends (analytics_data fresh_analytics) = [] /\
  get_trend_analysis (gregorian 0) symbolic_floats fresh_analytics
                     (noon 19914) 8
  = TrendError /\
  ~ (exists report,
        get_trend_analysis (gregorian 0) symbolic_floats fresh_analytics
                           (noon 19914) 8
        = TrendOk report /\
        growth_rate report = PyInt 0).
Proof.
  split; [reflexivity|]. split; [reflexivity|].
  intros [report [H _]]. discriminate H.
Qed.

(** *** Recording and the file *)

Section Steps.
Context {S : Type}.
Implicit Types (f g : Step S) (P : S -> Prop).

Lemma and_then_completes f g s :
  fst (f s) = None -> (f ;; g) s = g (snd (f s)).
Proof. unfold and_then. destruct (f s) as [[e|] s']; simpl; congruence. Qed.

Lemma and_then_raises f g s e :
  fst (f s) = Some e -> (f ;; g) s = f s.
Proof.
  unfold and_then. destruct (f s) as [[e'|] s']; simpl; [reflexivity|discriminate].
Qed.

Lemma and_then_completed f g s :
  fst ((f ;; g) s) = None -> fst (f s) = None.
Proof. unfold and_then. destruct (f s) as [[e|] s']; simpl; congruence. Qed.

Lemma keeps_done P : keeps P (@done S).
Proof. intros s H. exact H. Qed.

Lemma keeps_assign P (h : S -> S) :
  (forall s, P s -> P (h s)) -> keeps P (assign h).
Proof. intros H s Hs. apply H, Hs. Qed.

Lemma keeps_and_then P f g : keeps P f -> keeps P g -> keeps P (f ;; g).
Proof.
  intros Hf Hg s Hs. unfold and_then. specialize (Hf s Hs).
  destruct (f s) as [[e|] s']; simpl in *; [exact Hf | apply Hg, Hf].
Qed.

Lemma keeps_within {C : Type} P (get_c : S -> C) (set_c : C -> S -> S)
    (h : Step C) :
  (forall c s, P s -> P (set_c c s)) -> keeps P (within get_c set_c h).
Proof.
  intros H s Hs. unfold within. destruct (h (get_c s)). simpl. apply H, Hs.
Qed.

End Steps.

Lemma on_entry_unfold {V : Type} (k : string) (fresh : V) (f : Step V)
    (d : dict V) :
  on_entry k fresh f d
  = (fst (f (match get k d with Some v => v | None => fresh end)),
     set k (snd (f (match get k d with Some v => v | None => fresh end))) d).
Proof. unfold on_entry. destruct (f _). reflexivity. Qed.

(** Every statement of the month's update leaves a [set] a [set]. *)
Lemma update_month_keeps_set application_data :
  keeps has_user_set (update_month application_data).
Proof.
  unfold update_month. repeat apply keeps_and_then.
  - apply keeps_assign. intros m [l H]. exists l. exact H.
  - intros m [l H]. unfold within, add. rewrite H. simpl. eexists. reflexivity.
  - apply keeps_within. intros c m [l H]. exists l. exact H.
  - apply keeps_assign. intros m [l H]. exists l. exact H.
  - destruct (channel_id application_data).
    + apply keeps_within. intros c m [l H]. exists l. exact H.
    + apply keeps_done.
Qed.

(** On a list the month's update raises at [unique_users.add]. *)
Lemma update_month_on_list application_data m l :
  month_unique_users m = PyList l ->
  fst (update_month application_data m) = Some AttributeError.
Proof.
  intros H. unfold update_month, and_then, assign, within, add. simpl.
  rewrite H. reflexivity.
Qed.

Lemma update_month_completed application_data m :
  fst (update_month application_data m) = None ->
  has_user_set (snd (update_month application_data m)).
Proof.
  intros H. apply update_month_keeps_set.
  destruct (month_unique_users m) as [l|l] eqn:E; [now exists l|].
  rewrite (update_month_on_list application_data m l E) in H. discriminate.
Qed.

Lemma monthly_stats_completed month_key application_data data :
  fst (_update_monthly_stats month_key application_data data) = None ->
  exists m,
    get month_key
        (monthly_stats (snd (_update_monthly_stats month_key application_data
                                                   data)))
    = Some m /\
    has_user_set m.
Proof.
  unfold _update_monthly_stats, within. rewrite on_entry_unfold. simpl.
  intros H. eexists. split; [apply get_set_same|].
  now apply update_month_completed.
Qed.

(** The four later updates do not touch [monthly_stats]. *)
Lemma later_updates_keep_months cal application_data current_time M :
  keeps (fun d => monthly_stats d = M)
        (_update_user_participation cal application_data ;;
         _update_popular_times cal current_time ;;
         _update_channel_performance application_data ;;
         _update_trends cal current_time application_data).
Proof.
  repeat apply keeps_and_then.
  - apply keeps_within. intros c d H. exact H.
  - apply keeps_within. intros c d H. exact H.
  - unfold _update_channel_performance.
    destruct (channel_id application_data).
    + apply keeps_within. intros c d H. exact H.
    + apply keeps_done.
  - apply keeps_within. intros c d H. exact H.
Qed.

Lemma update_all_completed cal application_data current_time data :
  fst (update_all cal application_data current_time data) = None ->
  exists m,
    get (strftime_month cal current_time)
        (monthly_stats (snd (update_all cal application_data current_time data)))
    = Some m /\
    has_user_set m.
Proof.
  unfold update_all. intros H.
  pose proof (and_then_completed _ _ _ H) as Hfirst.
  rewrite and_then_completes by exact Hfirst.
  destruct (monthly_stats_completed _ _ _ Hfirst) as [m [Hget Hset]].
  exists m. split; [|exact Hset].
  rewrite <- Hget. f_equal.
  now apply (later_updates_keep_months cal application_data current_time).
Qed.

Lemma encode_entries_raises {V : Type} (enc : V -> option json) (d : dict V)
    k v :
  get k d = Some v -> enc v = None -> encode_entries enc d = None.
Proof.
  intros Hget Henc. unfold encode_entries.
  assert (H : sequence (map (fun kv => match enc (snd kv) with
                                       | Some j => Some (fst kv, j)
                                       | None => None
                                       end) d) = None).
  { induction d as [|[k' v'] d IH]; simpl in *; [discriminate|].
    destruct (String.eqb k' k).
    - inversion Hget; subst. now rewrite Henc.
    - destruct (enc v'); [|reflexivity]. now rewrite IH. }
  now rewrite H.
Qed.

(** A completed recording leaves data that [json.dump] rejects. *)
Lemma recorded_data_not_serializable cal application_data current_time data :
  fst (update_all cal application_data current_time data) = None ->
  encode_data (snd (update_all cal application_data current_time data)) = None.
Proof.
  intros H. destruct (update_all_completed _ _ _ _ H) as [m [Hget [l Hset]]].
  unfold encode_data.
  rewrite (encode_entries_raises encode_month _ _ _ Hget); [reflexivity|].
  unfold encode_month. now rewrite Hset.
Qed.

(** [record_application] never writes a document: when its updates complete
    the save fails on a [set] and leaves unfinished text, and when an update
    raises nothing is saved. *)
Lemma record_application_file cal self application_data current_time :
  data_file (record_application cal self application_data current_time)
  = match fst (update_all cal application_data current_time
                          (analytics_data self)) with
    | None => if writable (data_file self) then FileCorrupt else data_file self
    | Some _ => data_file self
    end.
Proof.
  unfold record_application.
  pose proof (recorded_data_not_serializable cal application_data current_time
                                             (analytics_data self)) as H.
  destruct (update_all _ _ _ _) as [[e|] data]; simpl in *; [reflexivity|].
  unfold _save_data. simpl. now rewrite H.
Qed.

Lemma sequence_In {A : Type} (l : list (option A)) (r : list A) (x : A) :
  sequence l = Some r -> In x r -> In (Some x) l.
Proof.
  revert r. induction l as [|[y|] l IH]; intros r; simpl.
  - intros H. inversion H. contradiction.
  - destruct (sequence l) as [r'|]; [|discriminate].
    intros H. inversion H; subst. intros [->|Hin]; [now left|].
    right. now apply (IH r').
  - discriminate.
Qed.

Lemma get_In {V : Type} k (v : V) (d : dict V) : get k d = Some v -> In (k, v) d.
Proof.
  induction d as [|[k' v'] d IH]; simpl; [discriminate|].
  destruct (String.eqb_spec k' k) as [->|].
  - intros H. inversion H. now left.
  - intros H. right. now apply IH.
Qed.

(** [json.load] yields a list, not a [set], for a stored [unique_users]. *)
Lemma loaded_users_are_lists doc data month_key m :
  decode_data doc = Some data ->
  get month_key (monthly_stats data) = Some m ->
  exists l, month_unique_users m = PyList l.
Proof.
  unfold decode_data. destruct doc as [| | | | |f]; try discriminate.
  destruct (field (decode_entries decode_month) "monthly_stats" f)
    as [months|] eqn:Hmonths; [|discriminate].
  destruct (field _ "user_participation" f); [|discriminate].
  destruct (field _ "popular_times" f); [|discriminate].
  destruct (field _ "channel_performance" f); [|discriminate].
  destruct (field _ "trends" f); [|discriminate].
  intros H. inversion H; subst. simpl. clear H. intros Hget.
  apply get_In in Hget.
  unfold field in Hmonths. destruct (get "monthly_stats" f) as [j|]; [|discriminate].
  unfold decode_entries in Hmonths. destruct j as [| | | | |g]; try discriminate.
  apply (sequence_In _ _ _ Hmonths) in Hget.
  apply in_map_iff in Hget. destruct Hget as [[k j] [Hdec _]]. simpl in Hdec.
  destruct (decode_month j) as [m'|] eqn:Hm; [|discriminate].
  inversion Hdec; subst. clear Hdec.
  unfold decode_month in Hm. destruct j as [| | | | |h]; try discriminate.
  destruct (field decode_num "total_applications" h); [|discriminate].
  destruct (field (decode_collection decode_num) "unique_users" h)
    as [u|] eqn:Hu; [|discriminate].
  destruct (field decode_tally "popular_dates" h); [|discriminate].
  destruct (field (decode_list decode_time) "application_times" h);
    [|discriminate].
  destruct (field decode_tally "channels" h); [|discriminate].
  inversion Hm; subst. simpl.
  unfold field, decode_collection in Hu.
  destruct (get "unique_users" h) as [ju|]; [|discriminate].
  destruct (decode_list decode_num ju) as [users|]; [|discriminate].
  inversion Hu. now exists users.
Qed.

(** Recording into a month whose [unique_users] is a list raises and leaves
    the file as it was. *)
Lemma record_application_on_list cal self application_data current_time m l :
  get (strftime_month cal current_time) (monthly_stats (analytics_data self))
  = Some m ->
  month_unique_users m = PyList l ->
  fst (update_all cal application_data current_time (analytics_data self))
  = Some AttributeError /\
  data_file (record_application cal self application_data current_time)
  = data_file self.
Proof.
  intros Hget Hlist.
  assert (H : fst (update_all cal application_data current_time
                              (analytics_data self)) = Some AttributeError).
  { unfold update_all.
    assert (Hm : fst (_update_monthly_stats (strftime_month cal current_time)
                                            application_data
                                            (analytics_data self))
                 = Some AttributeError).
    { unfold _update_monthly_stats, within. rewrite on_entry_unfold, Hget.
      simpl. now apply (update_month_on_list application_data m l). }
    rewrite (and_then_raises _ _ _ _ Hm). exact Hm. }
  split; [exact H|]. rewrite record_application_file. now rewrite H.
Qed.

(** C8.  What the code does with the set-valued counters.  In the analytics
    of a first start the file holds the empty document.  After one
    [record_application] the month's [unique_users] is the set {1} in memory;
    [json.dump] rejects the data, so the file holds unfinished text and not a
    document with the counters; an analytics started on that file has the
    empty data.  Started on a stored document whose [unique_users] is the
    array [[1]], the analytics holds it as a list, not a set; a
    [record_application] then raises at [add], and the file still holds the
    stored document. *)
Theorem C8_set_counters_are_not_persisted :
  let recorded :=
    record_application epoch_calendar fresh_analytics
                       (application_at 3600000000) 3600000000 in
  let restarted := init (FileJson stored_document) in
  let rerecorded :=
    option_map (fun self => record_application epoch_calendar self
                              (application_at 7200000000) 7200000000)
               restarted in
  data_file fresh_analytics
  = FileJson (JObj [("monthly_stats", JObj []);
                    ("user_participation", JObj []);
                    ("popular_times", JObj []);
                    ("channel_performance", JObj []);
                    ("trends", JObj [])]) /\
  option_map month_unique_users
             (get "0" (monthly_stats (analytics_data recorded)))
  = Some (PySet [1]) /\
  encode_data (analytics_data recorded) = None /\
  data_file recorded = FileCorrupt /\
  option_map analytics_data (init (data_file recorded)) = Some empty_data /\
  option_map
    (fun self => option_map month_unique_users
                            (get "0" (monthly_stats (analytics_data self))))
    restarted
  = Some (Some (PyList [1])) /\
  option_map data_file rerecorded = Some (FileJson stored_document).
Proof. vm_compute. repeat split. Qed.

End AnalyticsFacts.

(** ** More on the application registry *)

Module RegistryExtras.
Import Registry PyDictFacts StrFacts.

Lemma in_set {V : Type} k (v : V) k' v' (d : dict V) :
  In (k', v') (set k v d) -> (k', v') = (k, v) \/ In (k', v') d.
Proof.
  induction d as [|[k0 v0] d IH]; simpl.
  - intros [H|[]]. now left.
  - destruct (String.eqb k0 k); simpl.
    + intros [H|H]; [now left | right; now right].
    + intros [H|H]; [right; now left|].
      destruct (IH H); [now left | right; now right].
Qed.

Lemma get_of_In {V : Type} k (v : V) (d : dict V) :
  get k d = Some v -> In (k, v) d.
Proof.
  induction d as [|[k' v'] d IH]; simpl; [discriminate|].
  destruct (String.eqb_spec k' k) as [->|].
  - intros H. inversion H. now left.
  - intros H. right. now apply IH.
Qed.

Lemma In_get {V : Type} k (v : V) (d : dict V) :
  well_formed d -> In (k, v) d -> get k d = Some v.
Proof.
  unfold well_formed, keys.
  induction d as [|[k' v'] d IH]; simpl; [contradiction|].
  intros Hnd [H|H]; inversion Hnd as [|? ? Hk Hd]; subst.
  - inversion H; subst. now rewrite String.eqb_refl.
  - destruct (String.eqb_spec k' k) as [->|]; [|now apply IH].
    exfalso. apply Hk. change k with (fst (k, v)). now apply in_map.
Qed.

(** What a successful [add_application] did. *)
Lemma add_application_success self msg user name dates info now now_applied
      application total self' :
  add_application self msg user name dates info now now_applied
  = (AddSuccess application total, self') ->
  exists session,
    get msg (self_applications self) = Some session /\
    now <= deadline session /\
    already_applied self msg user = false /\
    application = mkApplication user name dates info now_applied /\
    total = S (List.length (applications session)) /\
    self_applications self'
    = set msg (mkSession (applications session ++ [application])
                         (deadline session) (channel_id session)
                         (created_at session) (status session)
                         (closed_at session))
          (self_applications self) /\
    self_user_applications self'
    = set (str user) (mkUserEntry msg now_applied)
          (self_user_applications self).
Proof.
  unfold add_application.
  destruct (get msg (self_applications self)) as [session|]; [|discriminate].
  destruct (Z.gtb_spec now (deadline session)) as [|Hopen]; [discriminate|].
  destruct (already_applied self msg user); [discriminate|].
  intros Hadd. inversion Hadd; subst. exists session.
  rewrite length_app, Nat.add_comm. simpl. repeat split. exact Hopen.
Qed.

Lemma find_last {A : Type} (p : A -> bool) (l : list A) (x : A) :
  (forall a, In a l -> p a = false) -> p x = true ->
  find p (l ++ [x]) = Some x.
Proof.
  intros Hl Hx. induction l as [|a l IH]; simpl.
  - now rewrite Hx.
  - rewrite (Hl a) by now left. apply IH. intros b Hb. apply Hl. now right.
Qed.

Lemma find_exists {A : Type} (p : A -> bool) (l : list A) (x : A) :
  In x l -> p x = true -> exists y, find p l = Some y.
Proof.
  intros Hin Hp. destruct (find p l) as [y|] eqn:E; [now exists y|].
  rewrite (find_none p l E x Hin) in Hp. discriminate.
Qed.

(** X1.  After a successful [add_application], [get_user_application] of the
    user returns an application of that user held by the session applied to;
    it is the application just added whenever the session held no earlier
    application of the user. *)
Theorem X1_get_user_application_after_add :
  forall (self self' : ApplicationManager) (msg : string) (user : Z)
         (name : string) (dates : list string) (info : string)
         (now now_applied : timestamp) (application : Application)
         (total : nat),
    add_application self msg user name dates info now now_applied
    = (AddSuccess application total, self') ->
    exists found session',
      get_user_application self' user = Some (found, session') /\
      get msg (self_applications self') = Some session' /\
      In found (applications session') /\
      user_id found = user /\
      ((forall session a,
           get msg (self_applications self) = Some session ->
           In a (applications session) -> user_id a <> user) ->
       found = application).
Proof.
  intros self self' msg user name dates info now now_applied application total
         Hadd.
  destruct (add_application_success _ _ _ _ _ _ _ _ _ _ _ Hadd)
    as [session [Hget [_ [_ [Happ [_ [Hsessions Hindex]]]]]]].
  assert (Huser : (user_id application =? user) = true)
    by (subst application; apply Z.eqb_refl).
  destruct (find_exists (fun app => user_id app =? user)
                        (applications session ++ [application]) application)
    as [found Hfind]; [apply in_or_app; right; now left | exact Huser |].
  exists found. eexists.
  unfold get_user_application. rewrite Hindex, Hsessions, !get_set_same.
  cbn [message_id applications]. rewrite Hfind.
  split; [reflexivity|]. split; [reflexivity|].
  destruct (find_some _ _ Hfind) as [Hin Hid].
  split; [exact Hin|]. split; [now apply Z.eqb_eq|].
  intros Hnone.
  rewrite find_last in Hfind; [congruence | | exact Huser].
  intros a Ha. apply Z.eqb_neq. now apply (Hnone session).
Qed.

Lemma X1_get_user_application_after_add_witness :
  exists found session',
    get_user_application scenario_m1 2 = Some (found, session') /\
    user_id found = 2 /\
    found = mkApplication 2 "B" ["2024-07-10"; "2024-07-12"] "" 7200000000.
Proof.
  destruct (X1_get_user_application_after_add
              (snd (add_application
                      (create_application_session fresh_registry "m1" 100 5 0 0)
                      "m1" 1 "A" ["2024-07-10"] "" 3600000000 3600000000))
              scenario_m1 "m1" 2 "B" ["2024-07-10"; "2024-07-12"] ""
              7200000000 7200000000 _ _ eq_refl)
    as [found [session' [Hget [_ [_ [Hid Hnew]]]]]].
  exists found, session'. split; [exact Hget|]. split; [exact Hid|].
  apply Hnew. intros session a Hs Ha. vm_compute in Hs. inversion Hs; subst.
  destruct Ha as [<-|[]]. discriminate.
Defined.

(** X2.  When a session identifier is used again, the applications of the
    old session are gone for their users: for a user whom the user index maps
    to [msg], [get_user_application] returns nothing once
    [create_application_session] has been called with [msg]. *)
Theorem X2_get_user_application_after_overwrite :
  forall (self : ApplicationManager) (msg : string) (user : Z)
         (channel deadline_days : Z) (now now_created : timestamp),
    already_applied self msg user = true ->
    get_user_application
      (create_application_session self msg channel deadline_days now
                                  now_created) user
    = None.
Proof.
  intros self msg user channel deadline_days now now_created.
  unfold already_applied, get_user_application, create_application_session.
  cbn [self_user_applications self_applications _save_data].
  destruct (get (str user) (self_user_applications self)) as [entry|];
    [|discriminate].
  intros H. apply String.eqb_eq in H. rewrite H, get_set_same. reflexivity.
Qed.

Lemma X2_get_user_application_after_overwrite_witness :
  get_user_application scenario_m1 2 <> None /\
  get_user_application
    (create_application_session scenario_m1 "m1" 100 5 (timedelta_days 1)
                                (timedelta_days 1)) 2
  = None.
Proof.
  split; [discriminate|].
  apply (X2_get_user_application_after_overwrite scenario_m1 "m1" 2).
  reflexivity.
Defined.

(** X3.  Whatever its outcome, [add_application] leaves every other session
    and the index entry of every other user as they were. *)
Theorem X3_add_application_frame :
  forall (self : ApplicationManager) (msg : string) (user : Z) (name : string)
         (dates : list string) (info : string) (now now_applied : timestamp),
    let self' :=
      snd (add_application self msg user name dates info now now_applied) in
    (forall other, other <> msg ->
                   get other (self_applications self')
                   = get other (self_applications self)) /\
    (forall other, other <> user ->
                   get (str other) (self_user_applications self')
                   = get (str other) (self_user_applications self)).
Proof.
  intros self msg user name dates info now now_applied self'. subst self'.
  unfold add_application.
  destruct (get msg (self_applications self)) as [session|];
    [|split; reflexivity].
  destruct (now >? deadline session); [split; reflexivity|].
  destruct (already_applied self msg user); [split; reflexivity|].
  cbn [snd _save_data self_applications self_user_applications]. split.
  - intros other Hne. apply get_set_other. congruence.
  - intros other Hne. apply get_set_other. intros H. apply Hne.
    symmetry. now apply str_injective.
Qed.

Lemma X3_add_application_frame_witness :
  let self' :=
    snd (add_application two_open_sessions "m1" 2 "B" ["2024-07-11"] ""
                         10800000000 10800000000) in
  get "m2" (self_applications self')
  = get "m2" (self_applications two_open_sessions) /\
  get (str 1) (self_user_applications self')
  = get (str 1) (self_user_applications two_open_sessions).
Proof.
  destruct (X3_add_application_frame two_open_sessions "m1" 2 "B"
              ["2024-07-11"] "" 10800000000 10800000000) as [Hs Hu].
  split; [apply Hs | apply Hu]; discriminate.
Defined.

(** *** The user index and the sessions *)

Lemma get_filter_keys {V : Type} (ks : list string) k (d : dict V) :
  str_in k ks = false ->
  get k (filter (fun kv => negb (str_in (fst kv) ks)) d) = get k d.
Proof.
  intros Hk. induction d as [|[k' v'] d IH]; simpl; [reflexivity|].
  destruct (String.eqb_spec k' k) as [->|Hne].
  - rewrite Hk. simpl. now rewrite String.eqb_refl.
  - destruct (str_in k' ks); simpl; [exact IH|].
    destruct (String.eqb_spec k' k); [contradiction|exact IH].
Qed.

Lemma index_sound_add self msg user name dates info now now_applied :
  index_sound self ->
  index_sound (snd (add_application self msg user name dates info now
                                    now_applied)).
Proof.
  intros Hsound.
  destruct (add_application self msg user name dates info now now_applied)
    as [[application total|e] self'] eqn:Hadd.
  - destruct (add_application_success _ _ _ _ _ _ _ _ _ _ _ Hadd)
      as [session [Hget [_ [_ [Happ [_ [Hsessions Hindex]]]]]]].
    simpl. intros k entry Hin. rewrite Hindex in Hin. rewrite Hsessions.
    destruct (in_set _ _ _ _ _ Hin) as [Hnew|Hold].
    + inversion Hnew; subst k entry. cbn [message_id].
      rewrite get_set_same. eexists. exists application.
      split; [reflexivity|]. cbn [applications].
      split; [apply in_or_app; right; now left|].
      now rewrite Happ.
    + destruct (Hsound k entry Hold) as [s [a [Hs [Ha Hk]]]].
      destruct (String.eqb_spec msg (message_id entry)) as [Heq|Hne].
      * rewrite <- Heq, get_set_same. rewrite <- Heq, Hget in Hs.
        inversion Hs; subst s. eexists. exists a.
        split; [reflexivity|]. cbn [applications].
        split; [apply in_or_app; now left | exact Hk].
      * rewrite get_set_other by exact Hne. now exists s, a.
  - unfold add_application in Hadd.
    destruct (get msg (self_applications self)) as [session|].
    + destruct (now >? deadline session); [inversion Hadd; now subst|].
      destruct (already_applied self msg user); inversion Hadd; now subst.
    + inversion Hadd; now subst.
Qed.

Lemma index_sound_close self msg now :
  index_sound self -> index_sound (snd (close_application_session self msg now)).
Proof.
  intros Hsound. unfold close_application_session.
  destruct (get msg (self_applications self)) as [session|] eqn:Hget;
    [|exact Hsound].
  intros k entry Hin. destruct (Hsound k entry Hin) as [s [a [Hs [Ha Hk]]]].
  cbn [snd _save_data self_applications].
  destruct (String.eqb_spec msg (message_id entry)) as [Heq|Hne].
  - rewrite <- Heq, get_set_same. rewrite <- Heq, Hget in Hs.
    inversion Hs; subst s. eexists. exists a. now split.
  - rewrite get_set_other by exact Hne. now exists s, a.
Qed.

Lemma index_sound_create self msg channel days now now_created :
  get msg (self_applications self) = None ->
  index_sound self ->
  index_sound (create_application_session self msg channel days now
                                          now_created).
Proof.
  intros Hfresh Hsound k entry Hin.
  destruct (Hsound k entry Hin) as [s [a [Hs [Ha Hk]]]].
  unfold create_application_session. cbn [_save_data self_applications].
  rewrite get_set_other; [now exists s, a|]. congruence.
Qed.

Lemma index_sound_cleanup self days now :
  index_sound self -> index_sound (snd (cleanup_old_sessions self days now)).
Proof.
  intros Hsound k entry Hin.
  destruct (RegistryFacts.cleanup_maps self days now) as [Ha Hu].
  rewrite Hu in Hin. rewrite Ha. apply filter_In in Hin.
  destruct Hin as [Hin Hkept]. cbn [fst] in Hkept.
  destruct (Hsound k entry Hin) as [s [a [Hs [Hina Hk]]]].
  exists s, a. split; [|now split].
  rewrite get_filter_keys; [exact Hs|].
  destruct (str_in (message_id entry) _) eqn:Hremoved; [|reflexivity].
  exfalso. apply negb_true_iff in Hkept.
  assert (Hin' : str_in k (users_to_remove
                             self (sessions_to_remove
                                     self (now - timedelta_days days))) = true).
  { apply RegistryFacts.str_in_In. unfold users_to_remove.
    change k with (fst (k, entry)). apply in_map. apply filter_In.
    split; [exact Hin | exact Hremoved]. }
  congruence.
Qed.

(** X4.  The registry of a first start has a sound user index, and
    [add_application], [close_application_session], [cleanup_old_sessions]
    and [create_application_session] with a new identifier keep it sound:
    every entry of the index points at a session that holds an application of
    that user.  With a sound index, [get_user_application] finds an
    application of every user that the index knows. *)
Theorem X4_user_index_sound :
  index_sound fresh_registry /\
  (forall self msg user name dates info now now_applied,
      index_sound self ->
      index_sound (snd (add_application self msg user name dates info now
                                        now_applied))) /\
  (forall self msg now,
      index_sound self ->
      index_sound (snd (close_application_session self msg now))) /\
  (forall self days now,
      index_sound self ->
      index_sound (snd (cleanup_old_sessions self days now))) /\
  (forall self msg channel days now now_created,
      get msg (self_applications self) = None ->
      index_sound self ->
      index_sound (create_application_session self msg channel days now
                                              now_created)) /\
  (forall self user entry,
      index_sound self ->
      get (str user) (self_user_applications self) = Some entry ->
      exists application session,
        get_user_application self user = Some (application, session) /\
        get (message_id entry) (self_applications self) = Some session /\
        In application (applications session) /\
        user_id application = user).
Proof.
  split; [intros k entry []|].
  split; [intros; now apply index_sound_add|].
  split; [intros; now apply index_sound_close|].
  split; [intros; now apply index_sound_cleanup|].
  split; [intros; now apply index_sound_create|].
  intros self user entry Hsound Hget.
  destruct (Hsound _ _ (get_of_In _ _ _ Hget)) as [s [a [Hs [Ha Hk]]]].
  apply str_injective in Hk.
  destruct (find_exists (fun app => user_id app =? user) (applications s) a Ha)
    as [found Hfind]; [now apply Z.eqb_eq|].
  exists found, s. unfold get_user_application. rewrite Hget, Hs, Hfind.
  destruct (find_some _ _ Hfind) as [Hin Hid].
  repeat split; [exact Hin | now apply Z.eqb_eq].
Qed.

Lemma X4_user_index_sound_witness :
  index_sound two_open_sessions /\
  exists application session,
    get_user_application two_open_sessions 1 = Some (application, session) /\
    user_id application = 1.
Proof.
  destruct X4_user_index_sound
    as [Hfresh [Hadd [_ [_ [Hcreate Hfind]]]]].
  assert (Hsound : index_sound two_open_sessions).
  { unfold two_open_sessions. apply Hadd, Hadd, Hcreate; [reflexivity|].
    apply Hcreate; [reflexivity | exact Hfresh]. }
  split; [exact Hsound|].
  destruct (Hfind two_open_sessions 1 _ Hsound eq_refl)
    as [application [session [Hget [_ [_ Hid]]]]].
  now exists application, session.
Defined.

(** *** The list of active sessions *)

Lemma flat_map_agree {A B : Type} (f g : A -> list B) (l : list A) :
  (forall x, In x l -> f x = g x) -> flat_map f l = flat_map g l.
Proof.
  induction l as [|x l IH]; intros H; simpl; [reflexivity|].
  rewrite (H x) by now left. f_equal. apply IH. intros y Hy. apply H. now right.
Qed.

(** In a dictionary, [get_active_sessions] pairs every active session with
    the summary of that session. *)
Lemma active_sessions_listing self :
  well_formed (self_applications self) ->
  get_active_sessions self = active_listing (self_applications self).
Proof.
  intros Hwf. unfold get_active_sessions, active_listing.
  apply flat_map_agree. intros [k s] Hin. cbn [fst snd].
  unfold is_active, active_entry, get_applications_summary.
  rewrite (In_get k s _ Hwf Hin). now destruct (status s).
Qed.

Lemma listing_without msg d :
  ~ In msg (keys d) ->
  filter (other_session msg) (active_listing d) = active_listing d.
Proof.
  induction d as [|[k s] d IH]; intros Hk; [reflexivity|].
  unfold active_listing in *. simpl. rewrite filter_app, IH.
  - f_equal. destruct (is_active s); [|reflexivity]. simpl.
    unfold other_session. simpl.
    destruct (String.eqb_spec k msg) as [->|]; [|reflexivity].
    exfalso. apply Hk. now left.
  - intros H. apply Hk. now right.
Qed.

Lemma listing_closed msg d session :
  well_formed d -> is_active session = false ->
  active_listing (set msg session d)
  = filter (other_session msg) (active_listing d).
Proof.
  unfold well_formed, keys. intros Hnd Hclosed.
  induction d as [|[k s] d IH].
  - unfold active_listing. simpl. now rewrite Hclosed.
  - inversion Hnd as [|? ? Hk Hd]; subst.
    pose proof (listing_without msg d) as Hwithout.
    unfold active_listing in *. simpl.
    destruct (String.eqb_spec k msg) as [->|Hne]; simpl.
    + rewrite Hclosed, filter_app. simpl.
      rewrite (Hwithout Hk).
      destruct (is_active s); [|reflexivity]. simpl.
      unfold other_session. simpl. now rewrite String.eqb_refl.
    + rewrite filter_app, IH by assumption. f_equal.
      destruct (is_active s); [|reflexivity]. simpl.
      unfold other_session. simpl.
      destruct (String.eqb_spec k msg); [contradiction|reflexivity].
Qed.

(** X5.  In a registry whose applications map is a dictionary,
    [get_active_sessions] lists exactly the sessions whose status is active,
    in the order of the map, and every entry carries the channel, creation
    time, deadline and summary of its own session: the summary of an entry is
    never the error record. *)
Theorem X5_active_sessions_listing :
  forall self : ApplicationManager,
    well_formed (self_applications self) ->
    map active_message_id (get_active_sessions self)
    = map fst (filter (fun ms => is_active (snd ms)) (self_applications self)) /\
    (forall a,
        In a (get_active_sessions self) ->
        exists session,
          get (active_message_id a) (self_applications self) = Some session /\
          status session = active /\
          active_channel_id a = channel_id session /\
          active_created_at a = created_at session /\
          active_deadline a = deadline session /\
          active_summary a = SummaryOk (summarize session)).
Proof.
  intros self Hwf. rewrite (active_sessions_listing self Hwf).
  unfold active_listing. split.
  - induction (self_applications self) as [|[k s] d IH]; [reflexivity|].
    simpl. rewrite map_app, IH.
    + now destruct (is_active s).
    + unfold well_formed, keys in *. simpl in Hwf. now inversion Hwf.
  - intros a Hin. apply in_flat_map in Hin. destruct Hin as [[k s] [Hin Ha]].
    cbn [fst snd] in Ha. destruct (is_active s) eqn:Hs; [|contradiction].
    destruct Ha as [<-|[]]. exists s. cbn.
    split; [now apply In_get|]. unfold is_active in Hs.
    destruct (status s); [|discriminate]. repeat split.
Qed.

Lemma X5_active_sessions_listing_witness :
  map active_message_id (get_active_sessions two_open_sessions) = ["m1"; "m2"].
Proof.
  refine (proj1 (X5_active_sessions_listing two_open_sessions _)).
  vm_compute. repeat constructor; simpl; intuition discriminate.
Defined.

(** X6.  In such a registry, [close_application_session] takes the session
    out of the list of active sessions and leaves every other entry of the
    list as it was, in its place. *)
Theorem X6_close_removes_from_active_sessions :
  forall (self : ApplicationManager) (msg : string) (now : timestamp),
    well_formed (self_applications self) ->
    get_active_sessions (snd (close_application_session self msg now))
    = filter (other_session msg) (get_active_sessions self).
Proof.
  intros self msg now Hwf.
  rewrite (active_sessions_listing self Hwf).
  unfold close_application_session.
  destruct (get msg (self_applications self)) as [session|] eqn:Hget.
  - cbn [snd]. rewrite active_sessions_listing.
    + cbn [_save_data self_applications]. now apply listing_closed.
    + cbn [_save_data self_applications]. now apply set_well_formed.
  - cbn [snd]. rewrite (active_sessions_listing self Hwf).
    symmetry. apply listing_without. now apply get_None_not_in.
Qed.

Lemma X6_close_removes_from_active_sessions_witness :
  map active_message_id
      (get_active_sessions
         (snd (close_application_session two_open_sessions "m1"
                                         (timedelta_days 1))))
  = ["m2"].
Proof.
  rewrite (X6_close_removes_from_active_sessions two_open_sessions "m1"
             (timedelta_days 1)).
  - reflexivity.
  - vm_compute. repeat constructor; simpl; intuition discriminate.
Defined.

(** *** Counts of the summary *)

Lemma sum_count_date counts date :
  sum_counts (count_date counts date) = S (sum_counts counts).
Proof.
  unfold count_date, sum_counts.
  induction counts as [|[k v] counts IH]; simpl; [reflexivity|].
  destruct (String.eqb k date); simpl.
  - now rewrite Nat.add_1_r.
  - rewrite IH. now rewrite Nat.add_succ_r.
Qed.

Lemma sum_count_dates dates counts :
  sum_counts (fold_left count_date dates counts)
  = (sum_counts counts + List.length dates)%nat.
Proof.
  revert counts. induction dates as [|d dates IH]; intros counts; simpl.
  - now rewrite Nat.add_0_r.
  - rewrite IH, sum_count_date. now rewrite Nat.add_succ_r.
Qed.

(** X7.  In every summary the counts of [date_counts] add up to the number of
    date strings requested over all applications; [unique_applicants] is at
    most [total_applications]; and [popular_dates] has at most as many
    entries as [date_counts]. *)
Theorem X7_summary_counts_add_up :
  forall session : Session,
    let summary := summarize session in
    sum_counts (date_counts summary)
    = List.length (all_requested_dates (applications session)) /\
    (unique_applicants summary <= total_applications summary)%nat /\
    (List.length (popular_dates summary)
     <= List.length (date_counts summary))%nat.
Proof.
  intros session summary. subst summary. split; [|split].
  - change (date_counts (summarize session))
      with (count_dates (applications session)).
    now rewrite RegistryFacts.count_dates_flat, sum_count_dates.
  - change (unique_applicants (summarize session))
      with (count_unique (applications session)).
    change (total_applications (summarize session))
      with (List.length (applications session)).
    unfold count_unique.
    rewrite <- (length_map user_id (applications session)).
    apply NoDup_incl_length; [apply NoDup_nodup|].
    intros u Hu. now apply nodup_In in Hu.
  - change (popular_dates (summarize session))
      with (map fst (filter (fun dc => (1 <? snd dc)%nat)
                            (count_dates (applications session)))).
    change (date_counts (summarize session))
      with (count_dates (applications session)).
    rewrite length_map. apply filter_length_le.
Qed.

(** *** Starting on a file *)



(** *** Cleanup, once more *)

Lemma filter_twice_none {A : Type} (p : A -> bool) (l : list A) :
  filter p (filter (fun x => negb (p x)) l) = [].
Proof.
  induction l as [|x l IH]; simpl; [reflexivity|].
  destruct (p x) eqn:E; simpl; [exact IH|]. now rewrite E.
Qed.

(** X9.  In a registry whose maps are dictionaries, a second
    [cleanup_old_sessions] with the same retention at the same time changes
    nothing: no session and no index entry is deleted and the file is not
    written again. *)
Theorem X9_cleanup_idempotent :
  forall (self : ApplicationManager) (days : Z) (now : timestamp),
    registry_well_formed self ->
    let cleaned := snd (cleanup_old_sessions self days now) in
    cleanup_old_sessions cleaned days now = (None, cleaned).
Proof.
  intros self days now [Happs _] cleaned.
  assert (Hnone : sessions_to_remove cleaned (now - timedelta_days days) = []).
  { unfold sessions_to_remove. subst cleaned.
    destruct (RegistryFacts.cleanup_maps self days now) as [-> _].
    rewrite (filter_ext_in
               (fun ms => negb (str_in (fst ms)
                                  (sessions_to_remove
                                     self (now - timedelta_days days))))
               (fun ms => negb (created_at (snd ms)
                                <? now - timedelta_days days))).
    - now rewrite filter_twice_none.
    - intros ms Hin. f_equal. unfold sessions_to_remove.
      now apply (selected_keys
                   (fun ms' => created_at (snd ms')
                               <? now - timedelta_days days)). }
  unfold cleanup_old_sessions at 1. cbv zeta. rewrite Hnone.
  unfold users_to_remove. simpl.
  assert (Hempty : filter (fun _ : string * UserEntry => false)
                          (self_user_applications cleaned) = []).
  { induction (self_user_applications cleaned); simpl; auto. }
  rewrite Hempty. simpl. now destruct cleaned.
Qed.

Lemma X9_cleanup_idempotent_witness :
  let cleaned := snd (cleanup_old_sessions old_and_new 30 (timedelta_days 40)) in
  keys (self_applications cleaned) = ["new"] /\
  cleanup_old_sessions cleaned 30 (timedelta_days 40) = (None, cleaned).
Proof.
  split; [reflexivity|].
  apply (X9_cleanup_idempotent old_and_new 30 (timedelta_days 40)).
  split; vm_compute; repeat constructor; simpl; intuition discriminate.
Defined.

End RegistryExtras.

(** ** More on the analytics counters *)

Module AnalyticsExtras.
Import Analytics PyDictFacts.

(** *** Sorting and the top entries *)

Section Sorting.
Context {A : Type}.
Variable rank : A -> Z.
Implicit Types (l : list A) (x y : A).

Lemma insert_desc_permutation x l : Permutation (insert_desc rank x l) (x :: l).
Proof.
  induction l as [|y l IH]; simpl; [reflexivity|].
  destruct (rank x <? rank y); [|reflexivity].
  rewrite IH. apply perm_swap.
Qed.

Lemma insert_desc_descending x l :
  descending rank l -> descending rank (insert_desc rank x l).
Proof.
  unfold descending. induction l as [|y l IH]; intros Hl; simpl.
  - repeat constructor.
  - inversion Hl as [|? ? Hsorted Hall]; subst.
    destruct (Z.ltb_spec (rank x) (rank y)) as [Hlt|Hge].
    + constructor; [now apply IH|].
      apply Forall_forall. intros z Hz. cbv beta.
      apply (Permutation_in _ (insert_desc_permutation x l)) in Hz.
      destruct Hz as [<-|Hz]; [lia|].
      now apply (proj1 (Forall_forall _ _) Hall).
    + constructor; [exact Hl|]. constructor; [lia|].
      apply Forall_forall. intros z Hz. cbv beta.
      pose proof (proj1 (Forall_forall _ _) Hall z Hz) as Hzy. cbv beta in Hzy.
      lia.
Qed.

Lemma sorted_desc_permutation l : Permutation (sorted_desc rank l) l.
Proof.
  induction l as [|x l IH]; simpl; [reflexivity|].
  rewrite insert_desc_permutation. now constructor.
Qed.

Lemma sorted_desc_descending l : descending rank (sorted_desc rank l).
Proof.
  induction l as [|x l IH]; simpl; [constructor|].
  now apply insert_desc_descending.
Qed.

Lemma in_firstn n l x : In x (firstn n l) -> In x l.
Proof.
  intros H. rewrite <- (firstn_skipn n l). apply in_or_app. now left.
Qed.

Lemma in_skipn n l x : In x (skipn n l) -> In x l.
Proof.
  intros H. rewrite <- (firstn_skipn n l). apply in_or_app. now right.
Qed.

Lemma descending_firstn n l : descending rank l -> descending rank (firstn n l).
Proof.
  unfold descending. revert n. induction l as [|x l IH]; intros [|n] Hl; simpl;
    try constructor.
  - inversion Hl; subst. now apply IH.
  - inversion Hl as [|? ? _ Hall]; subst.
    apply Forall_forall. intros z Hz. apply in_firstn in Hz.
    now apply (proj1 (Forall_forall _ _) Hall).
Qed.

(** In a descending rank list every element of a prefix is at least as large as
    every element left out. *)
Lemma descending_split n l x y :
  descending rank l -> In x (firstn n l) -> In y (skipn n l) -> rank y <= rank x.
Proof.
  unfold descending. revert n. induction l as [|z l IH]; intros [|n] Hl Hx Hy;
    simpl in *; try contradiction.
  inversion Hl as [|? ? Hsorted Hall]; subst.
  destruct Hx as [<-|Hx].
  - apply in_skipn in Hy.
    now apply (proj1 (Forall_forall _ _) Hall).
  - now apply (IH n).
Qed.

Lemma prefix_firstn limit (l : list A) : exists n, prefix limit l = firstn n l.
Proof. unfold prefix. destruct (limit <? 0); eexists; reflexivity. Qed.

Lemma prefix_length limit (l : list A) :
  0 <= limit ->
  List.length (prefix limit l) = Nat.min (Z.to_nat limit) (List.length l).
Proof.
  intros H. unfold prefix. destruct (Z.ltb_spec limit 0); [lia|].
  apply length_firstn.
Qed.

End Sorting.

Lemma descending_map {A B : Type} (f : A -> B) (rank : A -> Z) (rank' : B -> Z)
    (l : list A) :
  (forall x, rank' (f x) = rank x) ->
  descending rank l -> descending rank' (map f l).
Proof.
  unfold descending. intros Hf Hl.
  induction Hl as [|x l Hsorted IH Hall]; simpl; constructor; [exact IH|].
  apply Forall_forall. intros y Hy. apply in_map_iff in Hy.
  destruct Hy as [z [<- Hz]]. rewrite !Hf.
  now apply (proj1 (Forall_forall _ _) Hall).
Qed.

(** The items of a sorted prefix, and what the prefix leaves out. *)
Lemma top_items {A : Type} (rank : A -> Z) (limit : Z) (l : list A) :
  let top := prefix limit (sorted_desc rank l) in
  descending rank top /\
  (forall x, In x top -> In x l) /\
  (forall x y, In x top -> In y l -> ~ In y top -> rank y <= rank x).
Proof.
  intros top. subst top.
  destruct (prefix_firstn limit (sorted_desc rank l)) as [n ->].
  split; [apply descending_firstn, sorted_desc_descending|]. split.
  - intros x Hx. apply in_firstn in Hx.
    now apply (Permutation_in _ (sorted_desc_permutation rank l)).
  - intros x y Hx Hy Hout.
    apply (descending_split rank n (sorted_desc rank l));
      [apply sorted_desc_descending | exact Hx |].
    apply (Permutation_in _ (Permutation_sym (sorted_desc_permutation rank l)))
      in Hy.
    rewrite <- (firstn_skipn n (sorted_desc rank l)) in Hy.
    apply in_app_or in Hy. destruct Hy; [contradiction|assumption].
Qed.

(** X10.  [_get_most_active_users(limit)], for a limit that is not negative,
    returns the [limit] users with the most applications, or all users when
    there are fewer: the list is in descending order of
    [total_applications], every entry is a user of the data with that user's
    counters, and no user left out has more applications than a user
    listed. *)
Theorem X10_most_active_users :
  forall (self : Analytics) (limit : Z),
    0 <= limit ->
    let users := user_participation (analytics_data self) in
    let result := _get_most_active_users self limit in
    List.length result = Nat.min (Z.to_nat limit) (List.length users) /\
    descending active_total_applications result /\
    (forall a,
        In a result ->
        exists data,
          In (active_user_id a, data) users /\
          active_total_applications a = user_total_applications data /\
          active_last_application a = last_application data) /\
    (forall a k data,
        In a result ->
        In (k, data) users ->
        (forall b, In b result -> active_user_id b <> k) ->
        user_total_applications data <= active_total_applications a).
Proof.
  intros self limit Hlimit users result. subst result.
  unfold _get_most_active_users. fold users.
  set (rank := fun item : string * UserStats =>
                 user_total_applications (snd item)).
  destruct (top_items rank limit users) as [Hdesc [Hin Hout]].
  split; [|split; [|split]].
  - rewrite length_map, prefix_length by exact Hlimit.
    now rewrite (Permutation_length (sorted_desc_permutation rank users)).
  - now apply (descending_map _ rank).
  - intros a Ha. apply in_map_iff in Ha. destruct Ha as [[k data] [<- Hk]].
    exists data. split; [now apply Hin | split; reflexivity].
  - intros a k data Ha Hk Hnot. apply in_map_iff in Ha.
    destruct Ha as [[k' data'] [<- Hk']]. cbn.
    apply (Hout (k', data') (k, data) Hk' Hk).
    intros Hlisted. apply (Hnot (mkActiveUser k (user_total_applications data)
                                              (last_application data))).
    + apply in_map_iff. now exists (k, data).
    + reflexivity.
Qed.

Lemma X10_most_active_users_witness :
  List.length (_get_most_active_users two_weeks 5) = 1%nat.
Proof.
  apply (proj1 (X10_most_active_users two_weeks 5 ltac:(lia))).
Defined.

Lemma distribution_partition (l : list Z) :
  (List.length (filter (fun c => (c <=? 1)%Z) l)
   + List.length (filter (fun c => ((2 <=? c) && (c <=? 5))%Z) l)
   + List.length (filter (fun c => (c >? 5)%Z) l))%nat
  = List.length l.
Proof.
  induction l as [|c l IH]; simpl; [reflexivity|].
  destruct (Z.leb_spec c 1), (Z.leb_spec 2 c), (Z.leb_spec c 5),
    (Z.gtb_spec c 5); simpl; lia.
Qed.

Lemma length_filter_map {A B : Type} (f : A -> B) (p : B -> bool)
    (l : list A) :
  List.length (filter p (map f l))
  = List.length (filter (fun x => p (f x)) l).
Proof.
  induction l as [|x l IH]; simpl; [reflexivity|].
  destruct (p (f x)); simpl; now rewrite IH.
Qed.

(** X11.  [_get_participation_distribution] returns the empty dictionary
    exactly when no user is recorded; otherwise [low_participation] is the
    number of users with at most 1 application, [medium_participation] the
    number with 2 to 5, and [high_participation] the number with more than
    5, so every user is counted in exactly one class: the three counts add
    up to the number of users. *)
Theorem X11_participation_distribution :
  forall self : Analytics,
    let users := user_participation (analytics_data self) in
    (_get_participation_distribution self = None <-> users = []) /\
    (forall d,
        _get_participation_distribution self = Some d ->
        low_participation d = users_with (fun c => c <=? 1) users /\
        medium_participation d
        = users_with (fun c => (2 <=? c) && (c <=? 5)) users /\
        high_participation d = users_with (fun c => 5 <? c) users /\
        (low_participation d + medium_participation d + high_participation d)%nat
        = List.length users).
Proof.
  intros self users. unfold _get_participation_distribution. fold users.
  split.
  - destruct users; simpl; split; congruence.
  - intros d Hd.
    pose proof (distribution_partition
                  (map (fun item => user_total_applications (snd item)) users))
      as Hsum.
    rewrite length_map in Hsum.
    assert (Hd' : d = mkDistribution
                        (users_with (fun c => c <=? 1) users)
                        (users_with (fun c => (2 <=? c) && (c <=? 5)) users)
                        (users_with (fun c => 5 <? c) users)).
    { remember (map (fun item => user_total_applications (snd item)) users)
        as applications_count eqn:Hcount in Hd.
      destruct applications_count as [|c rest]; [discriminate|].
      rewrite Hcount in Hd. injection Hd as <-. unfold users_with.
      rewrite !length_filter_map. f_equal.
      f_equal. apply filter_ext. intros item. apply Z.gtb_ltb. }
    rewrite !length_filter_map in Hsum. subst d.
    cbn [low_participation medium_participation high_participation].
    repeat split. unfold users_with. rewrite <- Hsum. f_equal.
    f_equal. apply filter_ext. intros item. symmetry. apply Z.gtb_ltb.
Qed.

Lemma X11_participation_distribution_witness :
  exists d,
    _get_participation_distribution two_weeks = Some d /\
    low_participation d = 0%nat /\
    medium_participation d = 1%nat /\
    high_participation d = 0%nat.
Proof.
  eexists. split; [reflexivity|].
  destruct (proj2 (X11_participation_distribution two_weeks) _ eq_refl)
    as [Hlow [Hmedium [Hhigh _]]].
  split; [exact Hlow|]. split; [exact Hmedium | exact Hhigh].
Defined.

(** X12.  [get_channel_performance_analysis] returns the error record
    exactly when no channel is recorded; otherwise [total_channels] is the
    number of channels and [top_channels] holds the 10 channels with the most
    applications, or all when there are fewer, in descending order of
    [total_applications]. *)
Theorem X12_channel_performance_analysis :
  forall (fl : FloatOps) (self : Analytics),
    let channels := channel_performance (analytics_data self) in
    (get_channel_performance_analysis fl self = NoData <-> channels = []) /\
    (forall report,
        get_channel_performance_analysis fl self = Report report ->
        total_channels report = List.length channels /\
        List.length (top_channels report)
        = Nat.min 10 (List.length channels) /\
        descending entry_total_applications (top_channels report) /\
        (forall e k data,
            In e (top_channels report) ->
            In (k, data) channels ->
            (forall e', In e' (top_channels report) -> entry_channel_id e' <> k) ->
            channel_total_applications data <= entry_total_applications e)).
Proof.
  intros fl self channels. unfold get_channel_performance_analysis.
  fold channels. split.
  - destruct channels; split; congruence.
  - intros report Hreport.
    set (rank := fun item : string * ChannelStats =>
                   channel_total_applications (snd item)) in *.
    destruct (top_items rank 10 channels) as [Hdesc [Hin Hout]].
    destruct channels as [|c channels'] eqn:Hc; [discriminate|].
    rewrite <- Hc in *. inversion Hreport; subst report.
    cbn [top_channels total_channels].
    split; [reflexivity|]. split; [|split].
    + rewrite length_map, prefix_length by lia.
      now rewrite (Permutation_length (sorted_desc_permutation rank channels)).
    + now apply (descending_map _ rank).
    + intros e k data He Hk Hnot. apply in_map_iff in He.
      destruct He as [[k' data'] [<- Hk']]. cbn.
      apply (Hout (k', data') (k, data) Hk' Hk).
      intros Hlisted.
      apply (Hnot (mkChannelEntry k (channel_total_applications data)
                                  (len (channel_unique_users data))
                                  (average_participation data)
                                  (last_activity data))).
      * apply in_map_iff. now exists (k, data).
      * reflexivity.
Qed.

Lemma X12_channel_performance_analysis_witness :
  exists report,
    get_channel_performance_analysis symbolic_floats two_weeks = Report report /\
    total_channels report = 1%nat.
Proof.
  eexists. split; [reflexivity|].
  apply (proj2 (X12_channel_performance_analysis symbolic_floats two_weeks)).
  reflexivity.
Defined.

(** *** Recording into data the program built *)

Lemma for_each_increment (ks : list string) (c : counts) :
  exists c',
    for_each (fun k => increment (KStr k)) ks (PyCounter c)
    = (None, PyCounter c').
Proof.
  revert c. induction ks as [|k ks IH]; intros c; simpl.
  - now exists c.
  - unfold and_then. simpl. apply IH.
Qed.

Lemma add_to_set {A : Type} (eqb : A -> A -> bool) (x : A) (l : list A) :
  (forall a b, eqb a b = true <-> a = b) ->
  NoDup l ->
  exists l',
    add eqb x (PySet l) = (None, PySet l') /\
    NoDup l' /\ In x l' /\
    (List.length l' <= S (List.length l))%nat /\
    (forall y, In y l -> In y l').
Proof.
  intros Heqb Hnd. unfold add.
  destruct (existsb (eqb x) l) eqn:E.
  - exists l. split; [reflexivity|]. split; [exact Hnd|].
    apply existsb_exists in E. destruct E as [y [Hy Hxy]].
    apply Heqb in Hxy. subst y. repeat split; auto.
  - exists (l ++ [x])%list. split; [reflexivity|].
    split; [|split; [|split]].
    + apply NoDup_app; [exact Hnd | repeat constructor; simpl; tauto |].
      intros y Hy [<-|[]].
      assert (Hex : existsb (eqb x) l = true); [|congruence].
      apply existsb_exists. exists x. split; [exact Hy | now apply Heqb].
    + apply in_or_app. right. now left.
    + rewrite length_app. simpl. lia.
    + intros y Hy. apply in_or_app. now left.
Qed.

Lemma Z_eqb_spec a b : (a =? b) = true <-> a = b.
Proof. apply Z.eqb_eq. Qed.

Lemma update_month_native application_data m :
  native_month m ->
  let result := update_month application_data m in
  fst result = None /\
  native_month (snd result) /\
  month_total_applications (snd result) = month_total_applications m + 1 /\
  month_application_times (snd result)
  = (month_application_times m ++ [applied_at application_data])%list /\
  len (month_unique_users (snd result)) <= len (month_unique_users m) + 1 /\
  In (user_id application_data) (elements (month_unique_users (snd result))).
Proof.
  destruct m as [total users popular times channels].
  intros [[l [Hl Hnd]] [[p Hp] [c Hc]]]. simpl in Hl, Hp, Hc. subst.
  destruct (add_to_set Z.eqb (user_id application_data) l Z_eqb_spec Hnd)
    as [l' [Hadd [Hnd' [Hin [Hlen _]]]]].
  destruct (for_each_increment (requested_dates application_data) p)
    as [p' Hp'].
  unfold update_month, and_then, assign, within.
  cbn [month_unique_users month_popular_dates month_channels
       month_total_applications month_application_times].
  rewrite Hadd.
  cbn [month_unique_users month_popular_dates month_channels
       month_total_applications month_application_times].
  rewrite Hp'.
  destruct (channel_id application_data) as [ch|]; cbn;
    (split; [reflexivity|]);
    (split; [split; [now exists l' | split; eexists; reflexivity]|]);
    (split; [reflexivity|]); (split; [reflexivity|]);
    (split; [unfold len; cbn; lia | exact Hin]).
Qed.

Lemma update_user_native cal application_data u :
  native_user u ->
  let result := update_user cal application_data u in
  fst result = None /\
  native_user (snd result) /\
  user_total_applications (snd result) = user_total_applications u + 1 /\
  first_application (snd result) = first_application u /\
  last_application (snd result) = applied_at application_data.
Proof.
  destruct u as [total first last preferred months].
  intros [[p Hp] [l [Hl Hnd]]]. simpl in Hp, Hl. subst.
  destruct (for_each_increment (requested_dates application_data) p)
    as [p' Hp'].
  destruct (add_to_set String.eqb
              (strftime_month cal (applied_at application_data)) l
              String.eqb_eq Hnd) as [l' [Hadd [Hnd' _]]].
  unfold update_user, and_then, assign, within.
  cbn [preferred_dates application_months user_total_applications
       first_application last_application].
  rewrite Hp'.
  cbn [preferred_dates application_months user_total_applications
       first_application last_application].
  rewrite Hadd. cbn.
  split; [reflexivity|]. split; [|repeat split].
  split; [now exists p' | now exists l'].
Qed.

Lemma increment_counter k c :
  exists c', increment k (PyCounter c) = (None, PyCounter c').
Proof. eexists. reflexivity. Qed.

Lemma update_popular_times_native hour_key day_key p :
  native_times p ->
  let result := update_popular_times hour_key day_key p in
  fst result = None /\ native_times (snd result).
Proof.
  destruct p as [h d]. intros [Hh Hd]. simpl in Hh, Hd.
  assert (Hhc : is_counter (or_counter h)).
  { destruct h as [t|]; [now apply Hh | now exists []]. }
  assert (Hdc : is_counter (or_counter d)).
  { destruct d as [t|]; [now apply Hd | now exists []]. }
  destruct Hhc as [ch Hch], Hdc as [cd Hcd].
  unfold update_popular_times, and_then, assign, within.
  cbn [hourly daily]. rewrite Hch. cbn [or_counter hourly daily].
  cbn. rewrite Hcd. cbn.
  split; [reflexivity|].
  split; intros t Ht; inversion Ht; eexists; reflexivity.
Qed.

Lemma update_channel_native application_data c :
  native_channel c ->
  let result := update_channel application_data c in
  fst result = None /\
  native_channel (snd result) /\
  channel_total_applications (snd result) = channel_total_applications c + 1 /\
  average_participation (snd result) = len (channel_unique_users (snd result)) /\
  len (channel_unique_users (snd result)) <= len (channel_unique_users c) + 1.
Proof.
  destruct c as [total users average last].
  intros [l [Hl Hnd]]. simpl in Hl. subst.
  destruct (add_to_set Z.eqb (user_id application_data) l Z_eqb_spec Hnd)
    as [l' [Hadd [Hnd' [_ [Hlen _]]]]].
  unfold update_channel, and_then, assign, within.
  cbn [channel_unique_users channel_total_applications average_participation
       last_activity].
  rewrite Hadd. cbn.
  split; [reflexivity|]. split; [now exists l'|].
  repeat split. unfold len. cbn. lia.
Qed.

Lemma update_trend_native application_data b :
  native_trend b ->
  let result := update_trend application_data b in
  fst result = None /\
  native_trend (snd result) /\
  trend_applications (snd result) = trend_applications b + 1 /\
  len (trend_unique_users (snd result)) <= len (trend_unique_users b) + 1.
Proof.
  destruct b as [total users growth].
  intros [l [Hl Hnd]]. simpl in Hl. subst.
  destruct (add_to_set Z.eqb (user_id application_data) l Z_eqb_spec Hnd)
    as [l' [Hadd [Hnd' [_ [Hlen _]]]]].
  unfold update_trend, and_then, assign, within.
  cbn [trend_unique_users trend_applications trend_growth_rate].
  rewrite Hadd. cbn.
  split; [reflexivity|]. split; [now exists l'|].
  split; [reflexivity|]. unfold len. cbn. lia.
Qed.

Lemma start_value {V : Type} (P : V -> Prop) k (fresh : V) (d : dict V) :
  P fresh -> (forall k' v, In (k', v) d -> P v) ->
  P (match get k d with Some v => v | None => fresh end).
Proof.
  intros Hfresh Hall. destruct (get k d) as [v|] eqn:E; [|exact Hfresh].
  apply (Hall k). now apply AnalyticsFacts.get_In.
Qed.

Lemma entry_cases {V : Type} (P : V -> Prop) k (v : V) (d : dict V) :
  P v -> (forall k' v', In (k', v') d -> P v') ->
  forall k' v', In (k', v') (set k v d) -> P v'.
Proof.
  intros Hv Hall k' v' Hin.
  destruct (RegistryExtras.in_set _ _ _ _ _ Hin) as [Heq|Hold].
  - inversion Heq. now subst.
  - now apply (Hall k').
Qed.

Lemma and_then_grows f g : grows f -> grows g -> grows (f ;; g).
Proof.
  intros Hf Hg data Hdata. destruct (Hf data Hdata) as [Hnone [Hnative Hcons]].
  rewrite (AnalyticsFacts.and_then_completes f g data Hnone).
  destruct (Hg _ Hnative) as [Hnone' [Hnative' Hcons']].
  split; [exact Hnone'|]. split; [exact Hnative'|].
  intros H. apply Hcons', Hcons, H.
Qed.

Lemma monthly_stats_grows month_key application_data :
  grows (_update_monthly_stats month_key application_data).
Proof.
  intros data [Hm [Hu [Ht [Hc Hb]]]].
  unfold _update_monthly_stats, within.
  rewrite AnalyticsFacts.on_entry_unfold. cbn [fst snd].
  assert (Hnew : native_month new_month).
  { split; [exists []; split; [reflexivity|constructor]|].
    split; now exists []. }
  pose proof (start_value native_month month_key new_month _ Hnew Hm) as Hv0.
  destruct (update_month_native application_data _ Hv0)
    as [Hnone [Hnative [Htotal [Htimes [Hlen _]]]]].
  split; [exact Hnone|]. split.
  - split; [|split; [|split; [|split]]];
      cbn [monthly_stats user_participation popular_times channel_performance
         trends];
      try assumption.
    now apply entry_cases.
  - intros [Cm [Cc Cb]].
    split; [|split];
      cbn [monthly_stats user_participation popular_times channel_performance
         trends];
      try assumption.
    apply entry_cases; [|exact Cm].
    assert (Hc0 : month_consistent
                    (match get month_key (monthly_stats data) with
                     | Some v => v
                     | None => new_month
                     end)).
    { apply start_value; [|exact Cm]. split; reflexivity. }
    destruct Hc0 as [Hle Heq]. split.
    + rewrite Htotal. lia.
    + rewrite Htotal, Htimes, length_app, Heq. simpl. lia.
Qed.

Lemma user_participation_grows cal application_data :
  grows (_update_user_participation cal application_data).
Proof.
  intros data [Hm [Hu [Ht [Hc Hb]]]].
  unfold _update_user_participation, within.
  rewrite AnalyticsFacts.on_entry_unfold. cbn [fst snd].
  assert (Hnew : native_user (new_user application_data)).
  { split; [now exists []|]. exists []. split; [reflexivity|constructor]. }
  pose proof (start_value native_user (str (user_id application_data)) _ _
                          Hnew Hu) as Hv0.
  destruct (update_user_native cal application_data _ Hv0)
    as [Hnone [Hnative _]].
  split; [exact Hnone|]. split.
  - split; [|split; [|split; [|split]]];
      cbn [monthly_stats user_participation popular_times channel_performance
         trends];
      try assumption.
    now apply entry_cases.
  - intros [Cm [Cc Cb]]. split; [|split]; assumption.
Qed.

Lemma popular_times_grows cal current_time :
  grows (_update_popular_times cal current_time).
Proof.
  intros data [Hm [Hu [Ht [Hc Hb]]]].
  unfold _update_popular_times, within.
  destruct (update_popular_times_native (strftime_hour cal current_time)
              (strftime_weekday cal current_time) _ Ht) as [Hnone Hnative].
  destruct (update_popular_times _ _ _) as [e p]. cbn [fst snd] in *.
  split; [exact Hnone|]. split.
  - split; [|split; [|split; [|split]]];
      cbn [monthly_stats user_participation popular_times channel_performance
         trends];
      try assumption.
  - intros [Cm [Cc Cb]]. split; [|split]; assumption.
Qed.

Lemma channel_performance_grows application_data :
  grows (_update_channel_performance application_data).
Proof.
  intros data Hdata. unfold _update_channel_performance.
  destruct (channel_id application_data) as [c|];
    [|split; [reflexivity | split; [exact Hdata | tauto]]].
  destruct Hdata as [Hm [Hu [Ht [Hc Hb]]]].
  unfold within. rewrite AnalyticsFacts.on_entry_unfold. cbn [fst snd].
  assert (Hnew : native_channel (new_channel application_data)).
  { exists []. split; [reflexivity|constructor]. }
  pose proof (start_value native_channel (str c) _ _ Hnew Hc) as Hv0.
  destruct (update_channel_native application_data _ Hv0)
    as [Hnone [Hnative [Htotal [Haverage Hlen]]]].
  split; [exact Hnone|]. split.
  - split; [|split; [|split; [|split]]];
      cbn [monthly_stats user_participation popular_times channel_performance
         trends];
      try assumption.
    now apply entry_cases.
  - intros [Cm [Cc Cb]].
    split; [|split];
      cbn [monthly_stats user_participation popular_times channel_performance
         trends];
      try assumption.
    apply entry_cases; [|exact Cc].
    assert (Hc0 : len (channel_unique_users
                         (match get (str c) (channel_performance data) with
                          | Some v => v
                          | None => new_channel application_data
                          end))
                  <= channel_total_applications
                       (match get (str c) (channel_performance data) with
                        | Some v => v
                        | None => new_channel application_data
                        end)).
    { apply (start_value
               (fun v => len (channel_unique_users v)
                         <= channel_total_applications v)).
      - cbn. lia.
      - intros k' v' Hin. now apply (Cc k'). }
    split; [exact Haverage|]. rewrite Htotal. lia.
Qed.

Lemma trends_grows cal current_time application_data :
  grows (_update_trends cal current_time application_data).
Proof.
  intros data [Hm [Hu [Ht [Hc Hb]]]].
  unfold _update_trends, within.
  rewrite AnalyticsFacts.on_entry_unfold. cbn [fst snd].
  assert (Hnew : native_trend new_trend).
  { exists []. split; [reflexivity|constructor]. }
  pose proof (start_value native_trend (strftime_week cal current_time) _ _
                          Hnew Hb) as Hv0.
  destruct (update_trend_native application_data _ Hv0)
    as [Hnone [Hnative [Htotal Hlen]]].
  split; [exact Hnone|]. split.
  - split; [|split; [|split; [|split]]];
      cbn [monthly_stats user_participation popular_times channel_performance
         trends];
      try assumption.
    now apply entry_cases.
  - intros [Cm [Cc Cb]].
    split; [|split];
      cbn [monthly_stats user_participation popular_times channel_performance
         trends];
      try assumption.
    apply entry_cases; [|exact Cb].
    assert (Hc0 : trend_consistent
                    (match get (strftime_week cal current_time) (trends data) with
                     | Some v => v
                     | None => new_trend
                     end)).
    { apply start_value; [|exact Cb]. unfold trend_consistent. cbn. lia. }
    unfold trend_consistent in *. rewrite Htotal. lia.
Qed.

Lemma update_all_grows cal application_data current_time :
  grows (update_all cal application_data current_time).
Proof.
  unfold update_all. repeat apply and_then_grows.
  - apply monthly_stats_grows.
  - apply user_participation_grows.
  - apply popular_times_grows.
  - apply channel_performance_grows.
  - apply trends_grows.
Qed.

Lemma empty_data_native : native empty_data /\ consistent empty_data.
Proof.
  split.
  - split; [intros k m []|]. split; [intros k u []|].
    split; [split; intros t Ht; discriminate|].
    split; [intros k c [] | intros k b []].
  - split; [intros k m []|]. split; [intros k c [] | intros k b []].
Qed.

(** *** Reading back what was recorded *)

Lemma record_application_data cal self application_data current_time :
  analytics_data (record_application cal self application_data current_time)
  = snd (update_all cal application_data current_time (analytics_data self)).
Proof.
  unfold record_application.
  destruct (update_all _ _ _ _) as [[e|] data]; reflexivity.
Qed.

Lemma within_frame {S C A : Type} (get_c : S -> C) (set_c : C -> S -> S)
    (f : Step C) (proj : S -> A) (s : S) :
  (forall c s', proj (set_c c s') = proj s') ->
  proj (snd (within get_c set_c f s)) = proj s.
Proof. intros H. unfold within. destruct (f (get_c s)). apply H. Qed.

Lemma channel_performance_frame {A : Type} (proj : AnalyticsData -> A)
    application_data data :
  (forall c d, proj (mkAnalyticsData (monthly_stats d) (user_participation d)
                                     (popular_times d) c (trends d))
               = proj d) ->
  proj (snd (_update_channel_performance application_data data)) = proj data.
Proof.
  intros H. unfold _update_channel_performance.
  destruct (channel_id application_data); [|reflexivity].
  now apply within_frame.
Qed.

(** The five updates on data the program built, one after the other. *)
Lemma update_all_steps cal application_data current_time data :
  native data ->
  let d1 := snd (_update_monthly_stats (strftime_month cal current_time)
                                       application_data data) in
  let d2 := snd (_update_user_participation cal application_data d1) in
  let d3 := snd (_update_popular_times cal current_time d2) in
  let d4 := snd (_update_channel_performance application_data d3) in
  let d5 := snd (_update_trends cal current_time application_data d4) in
  snd (update_all cal application_data current_time data) = d5 /\ native d1.
Proof.
  intros H0 d1 d2 d3 d4 d5.
  destruct (monthly_stats_grows (strftime_month cal current_time)
              application_data data H0) as [E1 [H1 _]].
  destruct (user_participation_grows cal application_data _ H1)
    as [E2 [H2 _]].
  destruct (popular_times_grows cal current_time _ H2) as [E3 [H3 _]].
  destruct (channel_performance_grows application_data _ H3) as [E4 _].
  split; [|exact H1].
  unfold update_all.
  rewrite (AnalyticsFacts.and_then_completes _ _ _ E1).
  rewrite (AnalyticsFacts.and_then_completes _ _ _ E2).
  rewrite (AnalyticsFacts.and_then_completes _ _ _ E3).
  rewrite (AnalyticsFacts.and_then_completes _ _ _ E4).
  reflexivity.
Qed.

(** The user's entry after the five updates is the entry that
    [_update_user_participation] leaves. *)
Lemma recorded_user cal application_data current_time data :
  native data ->
  user_participation (snd (update_all cal application_data current_time data))
  = set (str (user_id application_data))
        (snd (update_user cal application_data
                (match get (str (user_id application_data))
                           (user_participation data) with
                 | Some v => v
                 | None => new_user application_data
                 end)))
        (user_participation data).
Proof.
  intros H0.
  destruct (update_all_steps cal application_data current_time data H0)
    as [-> _].
  unfold _update_trends at 1. rewrite within_frame; [|reflexivity].
  rewrite channel_performance_frame; [|reflexivity].
  unfold _update_popular_times at 1. rewrite within_frame; [|reflexivity].
  unfold _update_user_participation, within.
  rewrite AnalyticsFacts.on_entry_unfold. cbn [fst snd user_participation].
  unfold _update_monthly_stats at 1 2. rewrite !within_frame; reflexivity.
Qed.

(** The month's entry after the five updates is the entry that
    [_update_monthly_stats] leaves. *)
Lemma recorded_month cal application_data current_time data :
  native data ->
  monthly_stats (snd (update_all cal application_data current_time data))
  = set (strftime_month cal current_time)
        (snd (update_month application_data
                (match get (strftime_month cal current_time)
                           (monthly_stats data) with
                 | Some v => v
                 | None => new_month
                 end)))
        (monthly_stats data).
Proof.
  intros H0.
  destruct (update_all_steps cal application_data current_time data H0)
    as [-> _].
  unfold _update_trends at 1. rewrite within_frame; [|reflexivity].
  rewrite channel_performance_frame; [|reflexivity].
  unfold _update_popular_times at 1. rewrite within_frame; [|reflexivity].
  unfold _update_user_participation at 1. rewrite within_frame; [|reflexivity].
  unfold _update_monthly_stats, within.
  rewrite AnalyticsFacts.on_entry_unfold. reflexivity.
Qed.

Lemma recorded_times cal application_data current_time data :
  native data ->
  popular_times (snd (update_all cal application_data current_time data))
  = snd (update_popular_times (strftime_hour cal current_time)
                              (strftime_weekday cal current_time)
                              (popular_times data)).
Proof.
  intros H0.
  destruct (update_all_steps cal application_data current_time data H0)
    as [-> _].
  unfold _update_trends at 1. rewrite within_frame; [|reflexivity].
  rewrite channel_performance_frame; [|reflexivity].
  unfold _update_popular_times, within.
  destruct (update_popular_times _ _ _) as [e p] eqn:E.
  cbn [snd popular_times].
  unfold _update_user_participation at 1 in E.
  rewrite within_frame in E; [|reflexivity].
  unfold _update_monthly_stats at 1 in E.
  rewrite within_frame in E; [|reflexivity].
  now rewrite E.
Qed.

Lemma recorded_channel cal application_data current_time data :
  native data ->
  channel_performance
    (snd (update_all cal application_data current_time data))
  = match channel_id application_data with
    | Some c =>
        set (str c)
            (snd (update_channel application_data
                    (match get (str c) (channel_performance data) with
                     | Some v => v
                     | None => new_channel application_data
                     end)))
            (channel_performance data)
    | None => channel_performance data
    end.
Proof.
  intros H0.
  destruct (update_all_steps cal application_data current_time data H0)
    as [-> _].
  unfold _update_trends at 1. rewrite within_frame; [|reflexivity].
  assert (Hframe :
            channel_performance
              (snd (_update_popular_times cal current_time
                      (snd (_update_user_participation cal application_data
                              (snd (_update_monthly_stats
                                      (strftime_month cal current_time)
                                      application_data data))))))
            = channel_performance data).
  { unfold _update_popular_times at 1. rewrite within_frame; [|reflexivity].
    unfold _update_user_participation at 1.
    rewrite within_frame; [|reflexivity].
    unfold _update_monthly_stats at 1. now rewrite within_frame. }
  unfold _update_channel_performance at 1.
  destruct (channel_id application_data) as [c|]; [|exact Hframe].
  unfold within. rewrite AnalyticsFacts.on_entry_unfold.
  cbn [snd channel_performance]. now rewrite Hframe.
Qed.

Lemma recorded_trend cal application_data current_time data :
  native data ->
  trends (snd (update_all cal application_data current_time data))
  = set (strftime_week cal current_time)
        (snd (update_trend application_data
                (match get (strftime_week cal current_time) (trends data) with
                 | Some v => v
                 | None => new_trend
                 end)))
        (trends data).
Proof.
  intros H0.
  destruct (update_all_steps cal application_data current_time data H0)
    as [-> _].
  assert (Hframe :
            trends
              (snd (_update_channel_performance application_data
                 (snd (_update_popular_times cal current_time
                      (snd (_update_user_participation cal application_data
                              (snd (_update_monthly_stats
                                      (strftime_month cal current_time)
                                      application_data data))))))))
            = trends data).
  { rewrite channel_performance_frame; [|reflexivity].
    unfold _update_popular_times at 1. rewrite within_frame; [|reflexivity].
    unfold _update_user_participation at 1.
    rewrite within_frame; [|reflexivity].
    unfold _update_monthly_stats at 1. now rewrite within_frame. }
  unfold _update_trends at 1, within.
  rewrite AnalyticsFacts.on_entry_unfold.
  cbn [snd trends]. now rewrite Hframe.
Qed.

Lemma key_eqb_refl k : key_eqb k k = true.
Proof. destruct k; simpl; [apply Z.eqb_refl | apply String.eqb_refl]. Qed.

Lemma count_of_set_count k n c : count_of k (set_count k n c) = Some n.
Proof.
  induction c as [|[k' n'] c IH]; simpl.
  - now rewrite key_eqb_refl.
  - destruct (key_eqb k' k) eqn:E; simpl.
    + now rewrite key_eqb_refl.
    + now rewrite E.
Qed.

(** Both counters of [popular_times] count the application. *)
Lemma update_popular_times_counts hour_key day_key p :
  native_times p ->
  let result := update_popular_times hour_key day_key p in
  tallied (KStr hour_key) (hourly (snd result))
  = tallied (KStr hour_key) (hourly p) + 1 /\
  tallied (KStr day_key) (daily (snd result))
  = tallied (KStr day_key) (daily p) + 1.
Proof.
  destruct p as [h d]. intros [Hh Hd]. simpl in Hh, Hd.
  assert (Hhc : exists ch, or_counter h = PyCounter ch /\
                           tallied (KStr hour_key) h
                           = match count_of (KStr hour_key) ch with
                             | Some n => n
                             | None => 0
                             end).
  { destruct h as [t|].
    - destruct (Hh t eq_refl) as [ch ->]. now exists ch.
    - now exists []. }
  assert (Hdc : exists cd, or_counter d = PyCounter cd /\
                           tallied (KStr day_key) d
                           = match count_of (KStr day_key) cd with
                             | Some n => n
                             | None => 0
                             end).
  { destruct d as [t|].
    - destruct (Hd t eq_refl) as [cd ->]. now exists cd.
    - now exists []. }
  destruct Hhc as [ch [Hch Hth]], Hdc as [cd [Hcd Htd]].
  cbv zeta. cbn [hourly daily] in Hth, Htd |- *. rewrite Hth, Htd.
  unfold update_popular_times, and_then, assign, within.
  cbn [hourly daily]. rewrite Hch. cbn [or_counter hourly daily increment].
  cbn [fst snd hourly daily or_counter]. rewrite Hcd.
  cbn [increment fst snd hourly daily tallied].
  now rewrite !count_of_set_count.
Qed.

(** X13.  On data the running program built, where every set-valued counter
    is a [set] and every counter a [Counter], as in the empty data of a
    start, no update of [record_application] raises, the data stays of that
    kind, and the application is counted once in each of the five tables: in
    the [total_applications] of its month, of its user and of its channel,
    in the [hourly] and [daily] counters of [popular_times] under the hour
    and the weekday of the recording, and in the [applications] of its week;
    an application without a channel leaves [channel_performance] as it
    was.  The file gets no document: where it can be written it is left
    with unfinished text. *)
Theorem X13_recording_counts_in_all_tables :
  native empty_data /\
  (forall (cal : Calendar) (self : Analytics)
          (application_data : ApplicationData) (current_time : timestamp),
      native (analytics_data self) ->
      let before := analytics_data self in
      let recorded :=
        record_application cal self application_data current_time in
      let after := analytics_data recorded in
      let month_key := strftime_month cal current_time in
      let user_key := str (user_id application_data) in
      let hour_key := KStr (strftime_hour cal current_time) in
      let day_key := KStr (strftime_weekday cal current_time) in
      let week_key := strftime_week cal current_time in
      fst (update_all cal application_data current_time before) = None /\
      native after /\
      counted month_total_applications month_key (monthly_stats after)
      = counted month_total_applications month_key (monthly_stats before) + 1 /\
      counted user_total_applications user_key (user_participation after)
      = counted user_total_applications user_key (user_participation before)
        + 1 /\
      tallied hour_key (hourly (popular_times after))
      = tallied hour_key (hourly (popular_times before)) + 1 /\
      tallied day_key (daily (popular_times after))
      = tallied day_key (daily (popular_times before)) + 1 /\
      match channel_id application_data with
      | Some c =>
          counted channel_total_applications (str c)
                  (channel_performance after)
          = counted channel_total_applications (str c)
                    (channel_performance before) + 1
      | None => channel_performance after = channel_performance before
      end /\
      counted trend_applications week_key (trends after)
      = counted trend_applications week_key (trends before) + 1 /\
      data_file recorded
      = if writable (data_file self) then FileCorrupt else data_file self).
Proof.
  split; [apply empty_data_native|].
  intros cal self application_data current_time Hnative before recorded after
         month_key user_key hour_key day_key week_key.
  destruct (update_all_grows cal application_data current_time _ Hnative)
    as [Hnone [Hnative' _]].
  assert (Hafter : after
                   = snd (update_all cal application_data current_time before)).
  { apply record_application_data. }
  clearbody after. subst before month_key user_key hour_key day_key week_key.
  pose proof Hnative as [Hm [Hu [Ht [Hc Hb]]]].
  split; [exact Hnone|]. split; [now rewrite Hafter|].
  split; [|split; [|split; [|split; [|split; [|split]]]]].
  - rewrite Hafter, (recorded_month cal application_data current_time _ Hnative).
    unfold counted at 1. rewrite get_set_same.
    assert (Hnew : native_month new_month).
    { split; [exists []; split; [reflexivity|constructor]|].
      split; now exists []. }
    pose proof (start_value native_month (strftime_month cal current_time) _ _ Hnew Hm) as Hstart.
    destruct (update_month_native application_data _ Hstart)
      as [_ [_ [-> _]]].
    unfold counted.
    now destruct (get _ (monthly_stats (analytics_data self))).
  - rewrite Hafter, (recorded_user cal application_data current_time _ Hnative).
    unfold counted at 1. rewrite get_set_same.
    assert (Hnew : native_user (new_user application_data)).
    { split; [now exists []|]. exists []. split; [reflexivity|constructor]. }
    pose proof (start_value native_user (str (user_id application_data)) _ _ Hnew Hu) as Hstart.
    destruct (update_user_native cal application_data _ Hstart)
      as [_ [_ [-> _]]].
    unfold counted.
    now destruct (get _ (user_participation (analytics_data self))).
  - rewrite Hafter, (recorded_times cal application_data current_time _ Hnative).
    apply update_popular_times_counts. exact Ht.
  - rewrite Hafter, (recorded_times cal application_data current_time _ Hnative).
    apply update_popular_times_counts. exact Ht.
  - rewrite Hafter,
      (recorded_channel cal application_data current_time _ Hnative).
    destruct (channel_id application_data) as [c|]; [|reflexivity].
    unfold counted at 1. rewrite get_set_same.
    assert (Hnew : native_channel (new_channel application_data)).
    { exists []. split; [reflexivity|constructor]. }
    pose proof (start_value native_channel (str c) _ _ Hnew Hc) as Hstart.
    destruct (update_channel_native application_data _ Hstart)
      as [_ [_ [-> _]]].
    unfold counted.
    now destruct (get _ (channel_performance (analytics_data self))).
  - rewrite Hafter, (recorded_trend cal application_data current_time _ Hnative).
    unfold counted at 1. rewrite get_set_same.
    assert (Hnew : native_trend new_trend).
    { exists []. split; [reflexivity|constructor]. }
    pose proof (start_value native_trend (strftime_week cal current_time) _ _ Hnew Hb) as Hstart.
    destruct (update_trend_native application_data _ Hstart)
      as [_ [_ [-> _]]].
    unfold counted.
    now destruct (get _ (trends (analytics_data self))).
  - subst recorded. rewrite AnalyticsFacts.record_application_file.
    now rewrite Hnone.
Qed.

Lemma X13_recording_counts_in_all_tables_witness :
  native (analytics_data fresh_analytics) /\
  counted trend_applications "0" (trends (analytics_data one_week)) = 1 /\
  tallied (KStr "1") (hourly (popular_times (analytics_data one_week))) = 1 /\
  data_file one_week = FileCorrupt.
Proof.
  destruct X13_recording_counts_in_all_tables as [Hempty Hrecord].
  split; [exact Hempty|].
  destruct (Hrecord epoch_calendar fresh_analytics (application_at 3600000000)
                    3600000000 Hempty)
    as [_ [_ [_ [_ [Hhour [_ [_ [Hweek Hfile]]]]]]]].
  split; [exact Hweek|]. split; [exact Hhour | exact Hfile].
Defined.

(** X14.  On such data the counters stay consistent under
    [record_application]: in every month the number of unique users is at
    most [total_applications], which is the number of recorded application
    times; in every channel [average_participation] is the number of unique
    users, which is at most [total_applications]; in every week the number of
    unique users is at most [applications]. *)
Theorem X14_counters_stay_consistent :
  consistent empty_data /\
  (forall (cal : Calendar) (self : Analytics)
          (application_data : ApplicationData) (current_time : timestamp),
      native (analytics_data self) ->
      consistent (analytics_data self) ->
      consistent
        (analytics_data
           (record_application cal self application_data current_time))).
Proof.
  split; [apply empty_data_native|].
  intros cal self application_data current_time Hnative Hcons.
  destruct (update_all_grows cal application_data current_time _ Hnative)
    as [Hnone [_ Hkeep]].
  specialize (Hkeep Hcons). unfold record_application.
  destruct (update_all cal application_data current_time (analytics_data self))
    as [[e|] data]; [discriminate|].
  exact Hkeep.
Qed.

Lemma X14_counters_stay_consistent_witness :
  consistent (analytics_data one_week).
Proof.
  apply (proj2 X14_counters_stay_consistent epoch_calendar fresh_analytics);
    apply empty_data_native.
Defined.

(** *** Recording into loaded data *)

Lemma update_month_on_list_state application_data m l :
  month_unique_users m = PyList l ->
  update_month application_data m
  = (Some AttributeError,
     mkMonthStats (month_total_applications m + 1) (PyList l)
                  (month_popular_dates m) (month_application_times m)
                  (month_channels m)).
Proof.
  destruct m as [total users popular times channels]. simpl. intros ->.
  reflexivity.
Qed.

(** X15.  When the month's [unique_users] is a list, as after a load,
    [record_application] counts the application in the month's
    [total_applications] and stops at [unique_users.add]: nothing else in the
    month, no other table and not the file is changed, so the month's total
    runs ahead of every other counter. *)
Theorem X15_recording_into_loaded_month :
  forall (cal : Calendar) (self : Analytics)
         (application_data : ApplicationData) (current_time : timestamp)
         (m : MonthStats) (l : list Z),
    let data := analytics_data self in
    get (strftime_month cal current_time) (monthly_stats data) = Some m ->
    month_unique_users m = PyList l ->
    record_application cal self application_data current_time
    = mkAnalytics
        (mkAnalyticsData
           (set (strftime_month cal current_time)
                (mkMonthStats (month_total_applications m + 1) (PyList l)
                              (month_popular_dates m)
                              (month_application_times m) (month_channels m))
                (monthly_stats data))
           (user_participation data) (popular_times data)
           (channel_performance data) (trends data))
        (data_file self).
Proof.
  intros cal self application_data current_time m l data Hget Hlist.
  unfold record_application, update_all. fold data.
  assert (Hmonth : _update_monthly_stats (strftime_month cal current_time)
                                         application_data data
                   = (Some AttributeError,
                      mkAnalyticsData
                        (set (strftime_month cal current_time)
                             (mkMonthStats (month_total_applications m + 1)
                                (PyList l) (month_popular_dates m)
                                (month_application_times m) (month_channels m))
                             (monthly_stats data))
                        (user_participation data) (popular_times data)
                        (channel_performance data) (trends data))).
  { unfold _update_monthly_stats, within.
    rewrite AnalyticsFacts.on_entry_unfold, Hget.
    now rewrite (update_month_on_list_state application_data m l Hlist). }
  rewrite (AnalyticsFacts.and_then_raises _ _ _ AttributeError)
    by now rewrite Hmonth.
  now rewrite Hmonth.
Qed.

Lemma X15_recording_into_loaded_month_witness :
  init (FileJson stored_document) = Some loaded_analytics /\
  option_map month_total_applications
             (get "0" (monthly_stats
                         (analytics_data
                            (record_application epoch_calendar loaded_analytics
                               (application_at 7200000000) 7200000000))))
  = Some 2.
Proof.
  split; [reflexivity|].
  rewrite (X15_recording_into_loaded_month epoch_calendar loaded_analytics
             (application_at 7200000000) 7200000000 loaded_month [1]
             eq_refl eq_refl).
  reflexivity.
Defined.

(** *** Retention of old data *)

Lemma keys_before_aware parse cutoff ks :
  keys_before parse (Aware cutoff) ks
  = if existsb (fun k => match parse k with Some _ => true | None => false end)
               ks
    then inl TypeError else inr [].
Proof.
  induction ks as [|k ks IH]; simpl; [reflexivity|].
  destruct (parse k); simpl; [reflexivity | exact IH].
Qed.

(** X16.  [cleanup_old_data] never removes a bucket and never writes the
    file: the dates it parses from the keys are naive and the cutoff is
    aware, so the first key that parses makes the comparison raise
    [TypeError], which leaves the function; when no key parses nothing is
    old.  In every case the analytics is left as it was. *)
Theorem X16_cleanup_old_data_removes_nothing :
  forall (parsers : Parsers) (self : Analytics) (months_to_keep : Z)
         (current_time : timestamp),
    let parses parse k :=
      match parse k with Some _ => true | None => false end in
    cleanup_old_data parsers self months_to_keep current_time
    = (if existsb (parses (strptime_month parsers))
                  (keys (monthly_stats (analytics_data self)))
          || existsb (parses (strptime_week parsers))
                     (keys (trends (analytics_data self)))
       then Some TypeError else None,
       self).
Proof.
  intros parsers self months_to_keep current_time parses. subst parses.
  unfold cleanup_old_data. cbv zeta beta. rewrite keys_before_aware.
  destruct (existsb _ (keys (monthly_stats (analytics_data self))));
    [reflexivity|].
  cbn [fold_left trends orb]. rewrite keys_before_aware.
  destruct (existsb _ (keys (trends (analytics_data self))));
    destruct self as [[months users times channels weeks] f]; reflexivity.
Qed.

(** *** Reports of what was recorded *)

Lemma most_common_counter n c :
  exists top,
    most_common n (PyCounter c) = inr top /\
    (List.length top <= n)%nat /\
    descending snd top /\
    (forall item, In item top -> In item c).
Proof.
  exists (firstn n (sorted_desc snd c)). split; [reflexivity|].
  split; [apply firstn_le_length|].
  split; [apply descending_firstn, sorted_desc_descending|].
  intros item Hin. apply in_firstn in Hin.
  eapply Permutation_in; [|exact Hin].
  apply sorted_desc_permutation.
Qed.

(** The applicant's report after [record_application]. *)
Lemma user_report_after_recording cal self application_data current_time :
  native (analytics_data self) ->
  let user := user_id application_data in
  let before := get (str user) (user_participation (analytics_data self)) in
  exists report,
    get_user_participation_stats
      (record_application cal self application_data current_time) user
    = inr (Report report) /\
    user_report_total_applications report
    = match before with
      | Some data => user_total_applications data + 1
      | None => 1
      end /\
    user_report_first_application report
    = match before with
      | Some data => first_application data
      | None => applied_at application_data
      end /\
    user_report_last_application report = applied_at application_data /\
    (List.length (user_report_preferred_dates report) <= 5)%nat /\
    descending snd (user_report_preferred_dates report).
Proof.
  intros Hnative user before.
  assert (Hnew : native_user (new_user application_data)).
  { split; [now exists []|]. exists []. split; [reflexivity|constructor]. }
  pose proof (start_value native_user (str user) _ _ Hnew
                          (proj1 (proj2 Hnative))) as Hstart.
  destruct (update_user_native cal application_data _ Hstart)
    as [_ [[[p Hp] _] [Htotal [Hfirst Hlast]]]].
  assert (Husers := recorded_user cal application_data current_time _ Hnative).
  destruct (most_common_counter 5 p) as [top [Htop [Hlen [Hdesc _]]]].
  eexists. unfold get_user_participation_stats.
  rewrite record_application_data, Husers. fold user.
  rewrite get_set_same, Hp, Htop. split; [reflexivity|].
  cbn [user_report_total_applications user_report_first_application
       user_report_last_application user_report_preferred_dates].
  rewrite Htotal, Hfirst, Hlast. fold user. fold before.
  destruct before; repeat split; auto.
Qed.

(** X17.  After [record_application] on data the running program built,
    [get_user_participation_stats] of the applicant returns a report, never
    the error record: [total_applications] is one more than before (1 for a
    new user), [last_application] is the application's time,
    [first_application] is kept (it is the application's time for a new
    user), and [preferred_dates] holds at most 5 dates in descending order
    of their counts.  The report of every other user is as before. *)
Theorem X17_user_statistics_after_recording :
  forall (cal : Calendar) (self : Analytics)
         (application_data : ApplicationData) (current_time : timestamp),
    native (analytics_data self) ->
    let user := user_id application_data in
    let before := get (str user) (user_participation (analytics_data self)) in
    let recorded :=
      record_application cal self application_data current_time in
    (exists report,
        get_user_participation_stats recorded user = inr (Report report) /\
        user_report_total_applications report
        = match before with
          | Some data => user_total_applications data + 1
          | None => 1
          end /\
        user_report_first_application report
        = match before with
          | Some data => first_application data
          | None => applied_at application_data
          end /\
        user_report_last_application report = applied_at application_data /\
        (List.length (user_report_preferred_dates report) <= 5)%nat /\
        descending snd (user_report_preferred_dates report)) /\
    (forall other,
        other <> user ->
        get_user_participation_stats recorded other
        = get_user_participation_stats self other).
Proof.
  intros cal self application_data current_time Hnative user before recorded.
  split.
  - apply user_report_after_recording. exact Hnative.
  - intros other Hother. unfold get_user_participation_stats. subst recorded.
    rewrite record_application_data.
    rewrite (recorded_user cal application_data current_time _ Hnative).
    fold user. rewrite get_set_other; [reflexivity|].
    intros Heq. apply Hother. symmetry. now apply StrFacts.str_injective.
Qed.

Lemma X17_user_statistics_after_recording_witness :
  native (analytics_data fresh_analytics) /\
  exists report,
    get_user_participation_stats one_week 1 = inr (Report report) /\
    user_report_total_applications report = 1 /\
    user_report_last_application report = 3600000000.
Proof.
  split; [apply empty_data_native|].
  destruct (X17_user_statistics_after_recording epoch_calendar fresh_analytics
              (application_at 3600000000) 3600000000
              (proj1 empty_data_native))
    as [[report [Hreport [Htotal [_ [Hlast _]]]]] _].
  exists report. split; [exact Hreport|]. split; [exact Htotal | exact Hlast].
Defined.

(** X18.  After [record_application] on data the running program built,
    [get_monthly_statistics()] asked within the same month returns a report,
    never the error record: [total_applications] and [application_times] are
    one more than before, [unique_users] counts the applicant and has grown
    by at most one, and [popular_dates] and [top_channels] hold at most 10
    and 5 entries in descending order of their counts. *)
Theorem X18_monthly_statistics_after_recording :
  forall (cal : Calendar) (self : Analytics)
         (application_data : ApplicationData) (current_time now : timestamp),
    native (analytics_data self) ->
    strftime_month cal now = strftime_month cal current_time ->
    let before :=
      match get (strftime_month cal current_time)
                (monthly_stats (analytics_data self)) with
      | Some stats => stats
      | None => new_month
      end in
    exists report,
      get_monthly_statistics
        cal (record_application cal self application_data current_time)
        None now
      = inr (Report report) /\
      report_month report = strftime_month cal current_time /\
      report_total_applications report = month_total_applications before + 1 /\
      report_application_times report
      = Z.of_nat (List.length (month_application_times before)) + 1 /\
      1 <= report_unique_users report <= len (month_unique_users before) + 1 /\
      (List.length (report_popular_dates report) <= 10)%nat /\
      descending snd (report_popular_dates report) /\
      (List.length (report_top_channels report) <= 5)%nat /\
      descending snd (report_top_channels report).
Proof.
  intros cal self application_data current_time now Hnative Hmonth before.
  assert (Hnew : native_month new_month).
  { split; [exists []; split; [reflexivity|constructor]|].
    split; now exists []. }
  pose proof (start_value native_month (strftime_month cal current_time) _ _
                          Hnew (proj1 Hnative)) as Hstart.
  fold before in Hstart.
  destruct (update_month_native application_data _ Hstart)
    as [_ [[[l [Hl _]] [[p Hp] [c Hc]]] [Htotal [Htimes [Hlen Hin]]]]].
  destruct (most_common_counter 10 p) as [popular [Hpop [Hpl [Hpd _]]]].
  destruct (most_common_counter 5 c) as [top [Htop [Htl [Htd _]]]].
  eexists. unfold get_monthly_statistics.
  rewrite record_application_data, Hmonth.
  rewrite (recorded_month cal application_data current_time _ Hnative).
  fold before. rewrite get_set_same, Hp, Hpop, Hc, Htop.
  split; [reflexivity|].
  cbn [report_month report_total_applications report_application_times
       report_unique_users report_popular_dates report_top_channels].
  rewrite Htotal, Htimes, length_app.
  split; [reflexivity|]. split; [reflexivity|].
  split; [simpl; lia|].
  split; [|repeat split; assumption].
  split; [|exact Hlen].
  rewrite Hl in Hin |- *. unfold len. simpl in *.
  destruct l; [contradiction | simpl; lia].
Qed.

Lemma X18_monthly_statistics_after_recording_witness :
  native (analytics_data fresh_analytics) /\
  exists report,
    get_monthly_statistics epoch_calendar one_week None 7200000000
    = inr (Report report) /\
    report_total_applications report = 1 /\
    report_unique_users report = 1.
Proof.
  split; [apply empty_data_native|].
  destruct (X18_monthly_statistics_after_recording epoch_calendar
              fresh_analytics (application_at 3600000000) 3600000000
              7200000000 (proj1 empty_data_native) eq_refl)
    as [report [Hreport [_ [Htotal [_ [Husers _]]]]]].
  exists report. split; [exact Hreport|]. split; [exact Htotal|].
  cbn in Husers. lia.
Defined.

(** *** Statistics of loaded data *)

Lemma decode_entries_In {V : Type} (dec : json -> option V) j d k (v : V) :
  decode_entries dec j = Some d -> In (k, v) d -> exists j', dec j' = Some v.
Proof.
  unfold decode_entries. destruct j as [| | | | |f]; try discriminate.
  intros H Hin. apply (AnalyticsFacts.sequence_In _ _ _ H) in Hin.
  apply in_map_iff in Hin. destruct Hin as [[k' j'] [Hdec _]]. simpl in Hdec.
  destruct (dec j') as [v'|] eqn:E; [|discriminate].
  inversion Hdec; subst. now exists j'.
Qed.

Lemma decode_tally_dict j t : decode_tally j = Some t -> exists c, t = PyDict c.
Proof.
  unfold decode_tally. destruct j as [| | | | |f]; try discriminate.
  destruct (sequence _) as [c|]; [|discriminate].
  intros H. inversion H. now exists c.
Qed.

Lemma field_Some {A : Type} (dec : json -> option A) k f v :
  field dec k f = Some v -> exists j, dec j = Some v.
Proof.
  unfold field. destruct (get k f) as [j|]; [|discriminate]. now exists j.
Qed.

(** [json.load] yields a plain [dict], not a [Counter], for the stored
    [popular_dates] of a month and [preferred_dates] of a user. *)
Lemma loaded_tallies_are_dicts doc data :
  decode_data doc = Some data ->
  (forall k m, get k (monthly_stats data) = Some m ->
               exists c, month_popular_dates m = PyDict c) /\
  (forall k u, get k (user_participation data) = Some u ->
               exists c, preferred_dates u = PyDict c).
Proof.
  unfold decode_data. destruct doc as [| | | | |f]; try discriminate.
  destruct (field (decode_entries decode_month) "monthly_stats" f)
    as [months|] eqn:Hmonths; [|discriminate].
  destruct (field (decode_entries decode_user) "user_participation" f)
    as [users|] eqn:Husers; [|discriminate].
  destruct (field _ "popular_times" f); [|discriminate].
  destruct (field _ "channel_performance" f); [|discriminate].
  destruct (field _ "trends" f); [|discriminate].
  intros H. inversion H; subst. clear H. simpl.
  apply field_Some in Hmonths, Husers.
  destruct Hmonths as [jm Hmonths], Husers as [ju Husers].
  split.
  - intros k m Hget. apply AnalyticsFacts.get_In in Hget.
    destruct (decode_entries_In _ _ _ _ _ Hmonths Hget) as [j Hj].
    unfold decode_month in Hj. destruct j as [| | | | |h]; try discriminate.
    destruct (field decode_num "total_applications" h); [|discriminate].
    destruct (field (decode_collection decode_num) "unique_users" h);
      [|discriminate].
    destruct (field decode_tally "popular_dates" h) as [tally|] eqn:Hp;
      [|discriminate].
    destruct (field (decode_list decode_time) "application_times" h);
      [|discriminate].
    destruct (field decode_tally "channels" h); [|discriminate].
    inversion Hj; subst. simpl.
    apply field_Some in Hp. destruct Hp as [j Hp].
    now apply (decode_tally_dict j).
  - intros k u Hget. apply AnalyticsFacts.get_In in Hget.
    destruct (decode_entries_In _ _ _ _ _ Husers Hget) as [j Hj].
    unfold decode_user in Hj. destruct j as [| | | | |h]; try discriminate.
    destruct (field decode_num "total_applications" h); [|discriminate].
    destruct (field decode_time "first_application" h); [|discriminate].
    destruct (field decode_time "last_application" h); [|discriminate].
    destruct (field decode_tally "preferred_dates" h) as [tally|] eqn:Hp;
      [|discriminate].
    destruct (field (decode_collection decode_str) "application_months" h);
      [|discriminate].
    inversion Hj; subst. simpl.
    apply field_Some in Hp. destruct Hp as [j Hp].
    now apply (decode_tally_dict j).
Qed.

(** X19.  After a start from a stored document the statistics of the stored
    data cannot be read: for every stored month [get_monthly_statistics]
    raises [AttributeError], and for every stored user
    [get_user_participation_stats] does, because [json.load] yields a plain
    [dict], which has no [most_common], where the code had a [Counter]. *)
Theorem X19_statistics_of_loaded_data :
  forall (cal : Calendar) (doc : json) (self : Analytics),
    init (FileJson doc) = Some self ->
    (forall month stats now,
        get month (monthly_stats (analytics_data self)) = Some stats ->
        get_monthly_statistics cal self (Some month) now
        = inl AttributeError) /\
    (forall user user_data,
        get (str user) (user_participation (analytics_data self))
        = Some user_data ->
        get_user_participation_stats self user = inl AttributeError).
Proof.
  intros cal doc self. unfold init, _load_data. cbn [data_file].
  destruct (decode_data doc) as [data|] eqn:Hdoc; [|discriminate].
  intros H. inversion H; subst. clear H. cbn [analytics_data].
  destruct (loaded_tallies_are_dicts doc data Hdoc) as [Hmonths Husers].
  split.
  - intros month stats now Hget. unfold get_monthly_statistics.
    cbn [analytics_data]. rewrite Hget.
    destruct (Hmonths _ _ Hget) as [c ->]. reflexivity.
  - intros user user_data Hget. unfold get_user_participation_stats.
    cbn [analytics_data]. rewrite Hget.
    destruct (Husers _ _ Hget) as [c ->]. reflexivity.
Qed.

Lemma X19_statistics_of_loaded_data_witness :
  init (FileJson stored_document) = Some loaded_analytics /\
  get_monthly_statistics epoch_calendar loaded_analytics (Some "0") 0
  = inl AttributeError.
Proof.
  split; [reflexivity|].
  apply (proj1 (X19_statistics_of_loaded_data epoch_calendar stored_document
                  loaded_analytics eq_refl)
               "0" loaded_month 0).
  reflexivity.
Defined.

End AnalyticsExtras.

(** ** The notification system *)

Module NotificationExtras.

Import Registry Notifications PyDictFacts.

(** *** Deadline reminders *)

Lemma reminded_iff manager hours now a :
  In a (_check_deadline_reminders manager hours now)
  <-> In a (get_active_sessions manager) /\
      now < active_deadline a <= now + timedelta_hours hours.
Proof.
  unfold _check_deadline_reminders. cbv zeta. rewrite filter_In.
  rewrite andb_true_iff, Z.leb_le, Z.gtb_ltb, Z.ltb_lt. tauto.
Qed.

Lemma active_entries d a :
  well_formed d ->
  In a (active_listing d)
  <-> exists msg session,
        get msg d = Some session /\ status session = active /\
        a = active_entry msg session.
Proof.
  intros Hwf. unfold active_listing. rewrite in_flat_map. split.
  - intros [[msg session] [Hin Ha]]. cbn [fst snd] in Ha.
    unfold is_active in Ha.
    destruct (status session) eqn:Hs; [|contradiction].
    destruct Ha as [<-|[]]. exists msg, session.
    split; [now apply RegistryExtras.In_get|]. now split.
  - intros [msg [session [Hget [Hs ->]]]]. exists (msg, session).
    split; [now apply RegistryExtras.get_of_In|].
    cbn [fst snd]. unfold is_active. rewrite Hs. now left.
Qed.

(** X20.  One round of [_check_deadline_reminders(hours)] on a registry
    whose applications map is a dictionary sends a reminder for exactly the
    sessions that are active and whose deadline lies ahead by at most
    [hours] hours: never for a closed session or a passed deadline.  A
    session reminded for [hours] is reminded for every larger number of
    hours as well, so in its last hour a session is reminded by each of the
    four reminder tasks. *)
Theorem X20_deadline_reminders :
  forall (manager : ApplicationManager) (now : timestamp),
    well_formed (self_applications manager) ->
    (forall hours a,
        In a (_check_deadline_reminders manager hours now)
        <-> exists msg session,
              get msg (self_applications manager) = Some session /\
              status session = active /\
              now < deadline session <= now + timedelta_hours hours /\
              a = active_entry msg session) /\
    (forall hours hours' a,
        hours <= hours' ->
        In a (_check_deadline_reminders manager hours now) ->
        In a (_check_deadline_reminders manager hours' now)) /\
    (forall msg session,
        get msg (self_applications manager) = Some session ->
        status session = active ->
        now < deadline session <= now + timedelta_hours 1 ->
        Forall (fun hours =>
                  In (active_entry msg session)
                     (_check_deadline_reminders manager hours now))
               deadline_reminder_hours).
Proof.
  intros manager now Hwf.
  assert (Hiff : forall hours a,
             In a (_check_deadline_reminders manager hours now)
             <-> exists msg session,
                   get msg (self_applications manager) = Some session /\
                   status session = active /\
                   now < deadline session <= now + timedelta_hours hours /\
                   a = active_entry msg session).
  { intros hours a. rewrite reminded_iff.
    rewrite (RegistryExtras.active_sessions_listing manager Hwf).
    rewrite (active_entries _ a Hwf). split.
    - intros [[msg [session [Hget [Hs ->]]]] Hd]. exists msg, session.
      cbn [active_entry active_deadline] in Hd. now repeat split.
    - intros [msg [session [Hget [Hs [Hd ->]]]]].
      split; [now exists msg, session | exact Hd]. }
  split; [exact Hiff|]. split.
  - intros hours hours' a Hle. rewrite !reminded_iff.
    unfold timedelta_hours. intros [Hin Hd]. split; [exact Hin | lia].
  - intros msg session Hget Hs Hd.
    unfold deadline_reminder_hours.
    repeat constructor; apply (proj2 (Hiff _ _)); exists msg, session;
      unfold timedelta_hours in *; (repeat split; try assumption; lia).
Qed.

Lemma X20_deadline_reminders_witness :
  well_formed (self_applications two_open_sessions) /\
  exists session,
    get "m1" (self_applications two_open_sessions) = Some session /\
    Forall (fun hours =>
              In (active_entry "m1" session)
                 (_check_deadline_reminders two_open_sessions hours
                                            (timedelta_days 5 - 1800000000)))
           deadline_reminder_hours.
Proof.
  assert (Hwf : well_formed (self_applications two_open_sessions)).
  { vm_compute. repeat constructor; simpl; intuition discriminate. }
  split; [exact Hwf|].
  eexists. split; [reflexivity|].
  apply (proj2 (proj2 (X20_deadline_reminders two_open_sessions
                         (timedelta_days 5 - 1800000000) Hwf))).
  - reflexivity.
  - reflexivity.
  - vm_compute. split; [reflexivity | discriminate].
Defined.

(** *** The report schedulers *)

Lemma clock_split t :
  t = timedelta_days (date t) + time_of_day t /\
  0 <= time_of_day t < timedelta_days 1.
Proof.
  unfold date, time_of_day, timedelta_days. split.
  - rewrite Z.mul_comm. apply Z.div_mod. lia.
  - apply Z.mod_pos_bound. lia.
Qed.

Lemma clock_unique d r :
  0 <= r < timedelta_days 1 ->
  date (timedelta_days d + r) = d /\ time_of_day (timedelta_days d + r) = r.
Proof.
  intros Hr. unfold date, time_of_day, timedelta_days in *.
  rewrite Z.add_comm. rewrite Z.div_add, Z.mod_add by lia.
  rewrite Z.div_small, Z.mod_small by lia. lia.
Qed.

(** X21.  For a report time of the day, a round of
    [_daily_report_scheduler] sleeps more than nothing and at most one day,
    and the sleep ends at the report time: on the same day when the report
    time is still ahead, on the next day otherwise. *)
Theorem X21_daily_report_wait :
  forall (hour minute : Z) (current_time : wall_clock),
    0 <= hour < 24 ->
    0 <= minute < 60 ->
    let wait_seconds := _daily_report_scheduler hour minute current_time in
    0 < wait_seconds <= timedelta_days 1 /\
    time_of_day (current_time + wait_seconds) = time_of hour minute /\
    date (current_time + wait_seconds)
    = if time_of_day current_time <? time_of hour minute
      then date current_time
      else date current_time + 1.
Proof.
  intros hour minute t Hh Hm wait_seconds.
  destruct (clock_split t) as [Ht Hr].
  assert (Hc : 0 <= time_of hour minute < timedelta_days 1).
  { unfold time_of, timedelta_days. lia. }
  subst wait_seconds. unfold _daily_report_scheduler, replace. cbv zeta.
  rewrite Z.geb_leb.
  destruct (Z.leb_spec (time_of hour minute) (time_of_day t)) as [Hle|Hlt];
    destruct (Z.ltb_spec (time_of_day t) (time_of hour minute)); try lia.
  - replace (t + (timedelta_days (date t) + time_of hour minute
                  + timedelta_days 1 - t))
      with (timedelta_days (date t + 1) + time_of hour minute)
      by (unfold timedelta_days; lia).
    destruct (clock_unique (date t + 1) _ Hc) as [-> ->].
    unfold timedelta_days in *. split; [lia|]. now split.
  - replace (t + (timedelta_days (date t) + time_of hour minute - t))
      with (timedelta_days (date t) + time_of hour minute) by lia.
    destruct (clock_unique (date t) _ Hc) as [-> ->].
    unfold timedelta_days in *. split; [lia|]. now split.
Qed.

Lemma X21_daily_report_wait_witness :
  _daily_report_scheduler 18 0 thursday_noon = 21600000000 /\
  0 < _daily_report_scheduler 18 0 monday_ten <= timedelta_days 1.
Proof.
  split; [reflexivity|].
  apply (X21_daily_report_wait 18 0 monday_ten); lia.
Defined.

Lemma weekday_bounds t : 0 <= weekday t < 7.
Proof. unfold weekday. apply Z.mod_pos_bound. lia. Qed.

(** X22.  The sleep of a round of [_weekly_report_scheduler] always ends on
    a Monday at 09:00, but that Monday is the current day whenever the round
    starts on a Monday: the sleep is then zero or negative from 09:00 on, so
    the report is due at once, and it is positive at every other time. *)
Theorem X22_weekly_report_wait :
  forall current_time : wall_clock,
    let wait_seconds := _weekly_report_scheduler current_time in
    weekday (current_time + wait_seconds) = 0 /\
    time_of_day (current_time + wait_seconds) = time_of 9 0 /\
    (wait_seconds <= 0
     <-> weekday current_time = 0 /\ time_of 9 0 <= time_of_day current_time) /\
    - timedelta_days 1 < wait_seconds <= timedelta_days 7.
Proof.
  intros t wait_seconds.
  destruct (clock_split t) as [Ht Hr].
  pose proof (weekday_bounds t) as Hw.
  set (days_ahead := if 7 - weekday t =? 7 then 0 else 7 - weekday t).
  assert (Hahead : 0 <= days_ahead < 7 /\
                   (days_ahead = 0 <-> weekday t = 0) /\
                   (date t + days_ahead + 3) mod 7 = 0).
  { subst days_ahead. unfold weekday in *.
    pose proof (Z.div_mod (date t + 3) 7 ltac:(lia)) as Hdiv.
    destruct (Z.eqb_spec (7 - (date t + 3) mod 7) 7) as [E|E].
    - split; [lia|]. split; [lia|]. rewrite Z.add_0_r. lia.
    - split; [lia|]. split; [lia|].
      replace (date t + (7 - (date t + 3) mod 7) + 3)
        with (((date t + 3) / 7 + 1) * 7) by lia.
      apply Z.mod_mul. lia. }
  destruct Hahead as [Hrange [Hzero Hmonday]].
  assert (Hnext : date (t + timedelta_days days_ahead) = date t + days_ahead).
  { rewrite Ht at 1.
    replace (timedelta_days (date t) + time_of_day t + timedelta_days days_ahead)
      with (timedelta_days (date t + days_ahead) + time_of_day t)
      by (unfold timedelta_days; lia).
    apply clock_unique. exact Hr. }
  assert (Hc : 0 <= time_of 9 0 < timedelta_days 1).
  { unfold time_of, timedelta_days. lia. }
  assert (Hwait : wait_seconds
                  = timedelta_days (date t + days_ahead) + time_of 9 0 - t).
  { subst wait_seconds. unfold _weekly_report_scheduler, replace. cbv zeta.
    fold days_ahead. now rewrite Hnext. }
  rewrite Hwait.
  replace (t + (timedelta_days (date t + days_ahead) + time_of 9 0 - t))
    with (timedelta_days (date t + days_ahead) + time_of 9 0) by lia.
  unfold weekday at 1.
  destruct (clock_unique (date t + days_ahead) _ Hc) as [-> ->].
  split; [exact Hmonday|]. split; [reflexivity|].
  unfold timedelta_days, time_of in *. split; [|lia].
  split.
  - intros Hle. assert (days_ahead = 0) by lia. split; [tauto | lia].
  - intros [Hday Hlate]. assert (days_ahead = 0) by tauto. lia.
Qed.

Lemma X22_weekly_report_wait_witness :
  weekday monday_ten = 0 /\ _weekly_report_scheduler monday_ten <= 0.
Proof.
  split; [reflexivity|].
  apply (proj2 (proj1 (proj2 (proj2 (X22_weekly_report_wait monday_ten))))).
  split; vm_compute; [reflexivity | discriminate].
Defined.

End NotificationExtras.

(** ** The bot *)

Module BotExtras.

Import Bot.

(** X23.  A reply to a schedule message that the registry rejects, as an
    unknown session, after the deadline or as a duplicate, is still answered
    as complete and still counted by the statistics: the registry is left as
    it was, while the applicant's [total_applications] in the statistics
    grows by one. *)
Theorem X23_rejected_reply_is_counted :
  forall (strip : string -> string) (cal : Analytics.Calendar)
         (self : ScheduledBot) (message : Message) (message_id : Z)
         (manager : Registry.ApplicationManager) (stats : Analytics.Analytics)
         (e : Registry.Error)
         (now_deadline now_applied now_recorded now_analytics : timestamp),
    author_is_bot message = false ->
    reference message = Some message_id ->
    In message_id (schedule_message_ids self) ->
    application_manager self = Some manager ->
    analytics self = Some stats ->
    Analytics.native (Analytics.analytics_data stats) ->
    fst (Registry.add_application manager (str message_id)
           (author_id message) (author message) [strip (content message)] ""
           now_deadline now_applied)
    = Registry.AddFailure e ->
    let outcome :=
      on_message strip cal self message now_deadline now_applied now_recorded
                 now_analytics in
    snd outcome = true /\
    application_manager (fst outcome) = Some manager /\
    exists stats' report,
      analytics (fst outcome) = Some stats' /\
      Analytics.get_user_participation_stats stats' (author_id message)
      = inr (Analytics.Report report) /\
      Analytics.user_report_total_applications report
      = match PyDict.get (str (author_id message))
                         (Analytics.user_participation
                            (Analytics.analytics_data stats)) with
        | Some data => Analytics.user_total_applications data + 1
        | None => 1
        end /\
      Analytics.user_report_last_application report = now_recorded.
Proof.
  intros strip cal self message message_id manager stats e now_deadline
         now_applied now_recorded now_analytics Hauthor Hreference Hid
         Hmanager Hstats Hnative Hfailure outcome.
  assert (Hsame : snd (Registry.add_application manager (str message_id)
                         (author_id message) (author message)
                         [strip (content message)] "" now_deadline now_applied)
                  = manager).
  { revert Hfailure. unfold Registry.add_application.
    destruct (PyDict.get (str message_id) (Registry.self_applications manager));
      [|reflexivity].
    destruct (now_deadline >? Registry.deadline _); [reflexivity|].
    destruct (Registry.already_applied manager (str message_id) _);
      [reflexivity | discriminate]. }
  assert (Hmember : existsb (Z.eqb message_id) (schedule_message_ids self)
                    = true).
  { apply existsb_exists. exists message_id. split; [exact Hid|].
    apply Z.eqb_refl. }
  subst outcome. unfold on_message.
  rewrite Hauthor, Hreference, Hmember, Hmanager, Hstats.
  cbn [fst snd option_map application_manager analytics].
  rewrite Hsame. split; [reflexivity|]. split; [reflexivity|].
  destruct (AnalyticsExtras.user_report_after_recording
              cal stats (application_data strip message now_recorded)
              now_analytics Hnative)
    as [report [Hreport [Htotal [_ [Hlast _]]]]].
  eexists. exists report. split; [reflexivity|].
  split; [exact Hreport|]. split; [exact Htotal | exact Hlast].
Qed.

Lemma X23_rejected_reply_is_counted_witness :
  let outcome :=
    on_message (fun text => text) Analytics.epoch_calendar started_bot
               reply_to_500 3600000000 3600000000 3600000000 3600000000 in
  snd outcome = true /\
  application_manager (fst outcome) = Some Registry.fresh_registry /\
  exists stats' report,
    analytics (fst outcome) = Some stats' /\
    Analytics.get_user_participation_stats stats' 1
    = inr (Analytics.Report report) /\
    Analytics.user_report_total_applications report = 1 /\
    Analytics.user_report_last_application report = 3600000000.
Proof.
  apply (X23_rejected_reply_is_counted
           (fun text => text) Analytics.epoch_calendar started_bot reply_to_500
           500 Registry.fresh_registry Analytics.fresh_analytics
           Registry.UnknownSession).
  - reflexivity.
  - reflexivity.
  - now left.
  - reflexivity.
  - reflexivity.
  - apply AnalyticsExtras.empty_data_native.
  - reflexivity.
Defined.

End BotExtras.
